(** * Document ingestion and retrieval backend: a shallow embedding

    The development follows the JavaScript sources of the backend:
    - [routes/chat.js]: the in-memory sliding-window limiter, the
      attachment heuristic, [searchDocuments] and the context assembly of
      the [/stream] handler;
    - the documents router: its limiter, [extractTextFromFile] and the
      upload handler with its scratch file and storage rollback;
    - [app.js]: [getServiceForFile] and the [/extract] pipeline;
    - the OCR service: [filterLowConfidenceText] and [extractText];
    - [routes/conversations.js]: the [/generate-title] handler.

    JavaScript strings are modelled as [string], a character standing for
    one UTF-16 code unit below 256.  Integers ([Date.now()], sizes,
    lengths) are [Z]; the literal scores and the OCR confidences are
    rationals.  The external collaborators (authentication, metadata
    index, object storage, text extractors, OCR engine) hand their
    results to the handlers through an environment record, one field per
    call the handler makes. *)

From Stdlib Require Import ZArith QArith Qround List String Ascii Lia Bool DecimalString Sorted.
From stdpp Require Import base gmap sets list strings sorting.

Close Scope Q_scope.
Local Open Scope string_scope.
Local Open Scope list_scope.

(** ** JavaScript string operations *)

Module Js.

(** [s.startsWith(p)] *)
Fixpoint startsWith (s p : string) : bool :=
  match p, s with
  | EmptyString, _ => true
  | String _ _, EmptyString => false
  | String c p', String d s' => if Ascii.eqb c d then startsWith s' p' else false
  end.

(** [s.includes(sub)] *)
Fixpoint includes (s sub : string) : bool :=
  startsWith s sub ||
  match s with
  | EmptyString => false
  | String _ s' => includes s' sub
  end.

(** Code units that [trim] strips: TAB, LF, VT, FF, CR, SPACE, NBSP. *)
Definition isWhiteSpace (c : ascii) : bool :=
  let n := nat_of_ascii c in
  ((9 <=? n)%nat && (n <=? 13)%nat) || (n =? 32)%nat || (n =? 160)%nat.

Fixpoint trimStart (s : string) : string :=
  match s with
  | EmptyString => EmptyString
  | String c s' => if isWhiteSpace c then trimStart s' else s
  end.

Fixpoint trimEnd (s : string) : string :=
  match s with
  | EmptyString => EmptyString
  | String c s' =>
      match trimEnd s' with
      | EmptyString => if isWhiteSpace c then EmptyString else String c EmptyString
      | t => String c t
      end
  end.

(** [s.trim()] *)
Definition trim (s : string) : string := trimEnd (trimStart s).

(** [toLowerCase] on one code unit: A-Z and the Latin-1 capitals
    (U+00C0..U+00DE without the multiplication sign) move up by 32. *)
Definition lowerChar (c : ascii) : ascii :=
  let n := nat_of_ascii c in
  if ((65 <=? n)%nat && (n <=? 90)%nat)
     || ((192 <=? n)%nat && (n <=? 222)%nat && negb (n =? 215)%nat)
  then ascii_of_nat (n + 32) else c.

(** [s.toLowerCase()] *)
Fixpoint toLowerCase (s : string) : string :=
  match s with
  | EmptyString => EmptyString
  | String c s' => String (lowerChar c) (toLowerCase s')
  end.

(** [s.substring(0, n)] *)
Definition substring0 (n : nat) (s : string) : string := String.substring 0 n s.

(** [s.length] *)
Definition len (s : string) : Z := Z.of_nat (String.length s).

(** [String(n)] for an integer [n] *)
Definition numberToString (n : Z) : string := NilZero.string_of_int (Z.to_int n).

(** [Math.round(a / b)] for integers [a] and [b > 0]: the quotient rounded
    to the nearest integer, halves upwards. *)
Definition roundDiv (a b : Z) : Z := ((2 * a + b) / (2 * b))%Z.

(** [xs.join(sep)] *)
Fixpoint join (sep : string) (xs : list string) : string :=
  match xs with
  | [] => ""
  | [x] => x
  | x :: rest => x +:+ sep +:+ join sep rest
  end.

(** [!s] is false exactly for a non-empty string. *)
Definition truthy (s : string) : bool :=
  match s with EmptyString => false | _ => true end.

(** A string occurs inside another one. *)
Definition occursIn (sub s : string) : Prop :=
  exists pre post, s = pre +:+ sub +:+ post.

End Js.

(** ** The sliding-window limiter ([rateLimiter] of routes/chat.js and of
    the documents router; the two objects have the same code) *)

Module RateLimiter.
Local Open Scope Z_scope.

(** The [requests] map: one array of admission timestamps per key. *)
Abbreviation requests_map := (gmap string (list Z)).

(** [rateLimiter.isAllowed(key, maxRequests, windowMs)] at clock value
    [now].  The array stored under the key is the very array that receives
    [push(now)], so the stored value ends with [now] after an admission. *)
Definition isAllowed (key : string) (maxRequests windowMs : Z) (now : Z)
    (requests : requests_map) : bool * requests_map :=
  let windowStart := now - windowMs in
  let requests1 :=
    match requests !! key with
    | Some _ => requests
    | None => <[key := []]> requests
    end in
  let userRequests := default [] (requests1 !! key) in
  let validRequests := filter (fun time => windowStart < time) userRequests in
  let requests2 := <[key := validRequests]> requests1 in
  if Z.of_nat (length validRequests) >=? maxRequests
  then (false, requests2)
  else (true, <[key := validRequests ++ [now]]> requests2).

(** A sequence of calls for one key with fixed parameters, at the given
    clock values, one after the other. *)
Fixpoint run (key : string) (maxRequests windowMs : Z) (times : list Z)
    (requests : requests_map) : list bool * requests_map :=
  match times with
  | [] => ([], requests)
  | now :: rest =>
      let '(b, r1) := isAllowed key maxRequests windowMs now requests in
      let '(bs, r2) := run key maxRequests windowMs rest r1 in
      (b :: bs, r2)
  end.

(** The timestamps recorded under a key. *)
Definition recorded (key : string) (requests : requests_map) : list Z :=
  default [] (requests !! key).

(** The clock values of the admitted calls of a run. *)
Fixpoint admitted (times : list Z) (results : list bool) : list Z :=
  match times, results with
  | t :: ts, true :: bs => t :: admitted ts bs
  | _ :: ts, false :: bs => admitted ts bs
  | _, _ => []
  end.

(** Admissions lying in the trailing interval [(t - windowMs, t]]. *)
Definition inWindow (windowMs t : Z) (l : list Z) : list Z :=
  filter (fun a => t - windowMs < a /\ a <= t) l.

(** The module starts with [requests: new Map()]. *)
Definition initial : requests_map := ∅.

(** The configured limits of the two routers. *)
Definition CHAT_maxRequests : Z := 30.
Definition CHAT_windowMs : Z := 60000.
Definition UPLOAD_maxRequests : Z := 10.
Definition UPLOAD_windowMs : Z := 60000.

End RateLimiter.

(** ** Results of calls that may throw *)

Inductive outcome (A : Type) : Type :=
| Returns (value : A)
| Throws (message : string).
Arguments Returns {A} value.
Arguments Throws {A} message.

(** The line feed of the template literals and a double quote. *)
Definition nl : string := String (ascii_of_nat 10) EmptyString.
Definition dquote : string := String (ascii_of_nat 34) EmptyString.

(** ** Text extraction of the documents router *)

Module Extraction.
Import Js.

(** [req.file] as multer's disk storage fills it in. *)
Record File := {
  fieldname : string;
  originalname : string;
  mimetype : string;
  size : Z;
  path : string
}.

(** The three library calls behind the branches of [extractTextFromFile]:
    [fs.readFileSync(filePath, 'utf8')], [pdfParse] on the file's bytes and
    [mammoth.extractRawText].  *)
Inductive extractor := PlainText | Pdf | Word.

(** What one run of the extractors does on the file at hand: the text it
    returns, or the message of the error it throws. *)
Definition extractors := extractor -> outcome string.

(** [Math.round(file.size / 1024)] followed by [ KB]. *)
Definition sizeInKB (file : File) : string :=
  numberToString (roundDiv (size file) 1024) +:+ " KB".

(** The [PDF] / [Word] / [document] word of the too-short fallback. *)
Definition kindWord (file : File) : string :=
  if includes (mimetype file) "pdf" then "PDF"
  else if includes (mimetype file) "word" then "Word"
  else "document".

(** The text substituted when extraction gave nothing or too little;
    [date] is [new Date().toLocaleDateString()]. *)
Definition fallbackTooShort (file : File) (date : string) : string :=
  "Document: " +:+ originalname file +:+ nl +:+ nl +:+
  "This is a " +:+ kindWord file +:+ " file uploaded to the platform." +:+ nl +:+ nl +:+
  "File Details:" +:+ nl +:+
  "- Original Name: " +:+ originalname file +:+ nl +:+
  "- Type: " +:+ mimetype file +:+ nl +:+
  "- Size: " +:+ sizeInKB file +:+ nl +:+
  "- Upload Date: " +:+ date +:+ nl +:+ nl +:+
  "Note: Text extraction was not successful for this file. For better analysis, please ensure the document contains readable text content.".

(** The text substituted in the [catch] clause. *)
Definition fallbackError (file : File) (date : string) (message : string) : string :=
  "Document: " +:+ originalname file +:+ nl +:+ nl +:+
  "This document has been uploaded but text extraction encountered an error." +:+ nl +:+ nl +:+
  "File Details:" +:+ nl +:+
  "- Original Name: " +:+ originalname file +:+ nl +:+
  "- Size: " +:+ sizeInKB file +:+ nl +:+
  "- Upload Date: " +:+ date +:+ nl +:+ nl +:+
  "Error during text extraction: " +:+ message +:+ nl +:+ nl +:+
  "Please try re-uploading the document or contact support if the issue persists.".

(** The branch of the [if] chain taken for a MIME type, if any. *)
Definition branchFor (mime : string) : option extractor :=
  if String.eqb mime "text/plain" then Some PlainText
  else if String.eqb mime "application/pdf" then Some Pdf
  else if includes mime "wordprocessingml" || includes mime "msword" then Some Word
  else None.

(** The body of the [try] block: [extractedText] starts as the empty
    string, a matching branch overwrites it, then the length test. *)
Definition tryBlock (file : File) (run : extractors) (date : string) : outcome string :=
  let extracted :=
    match branchFor (mimetype file) with
    | Some e => run e
    | None => Returns ""
    end in
  match extracted with
  | Throws message => Throws message
  | Returns extractedText =>
      if negb (truthy extractedText) || (len (trim extractedText) <? 50)%Z
      then Returns (fallbackTooShort file date)
      else Returns extractedText
  end.

(** [extractTextFromFile(file, filePath)] *)
Definition extractTextFromFile (file : File) (run : extractors) (date : string)
    : outcome string :=
  match tryBlock file run date with
  | Returns text => Returns text
  | Throws message => Returns (fallbackError file date message)
  end.

End Extraction.

(** ** Requests, responses and the resources a handler touches *)

Module Server.

(** A JSON body, as far as the handlers distinguish them. *)
Inductive body :=
| ErrorBody (error : string)
| ErrorMessage (error message : string)
| UploadSuccess (documentId : string)
| ExtractSuccess (storagePath extractedText : string).

Record Response := { status : Z; payload : body }.

(** One row of the [documents] table, with the columns the upload writes. *)
Record DocumentRecord := {
  doc_id : string;
  user_id : string;
  doc_title : string;
  doc_content : string;
  file_path : string;
  file_size : Z;
  file_type : string;
  is_company_wide : bool
}.

(** What a handler does to the outside, in the order it does it. *)
Inductive event :=
| Created (filePath : string)      (* a scratch file is written *)
| Unlinked (filePath : string)     (* [fs.unlinkSync] *)
| Put (key : string)               (* an object is stored *)
| Removed (key : string)           (* the removal of an object is requested *)
| Inserted (row : DocumentRecord)  (* a row is added to [documents] *)
| Sent (response : Response).      (* [res.status(..).json(..)] *)

(** The resources shared by the requests: the scratch directory, the
    storage bucket (the keys of the objects it holds), the [documents]
    table, the limiter's map; and the events so far, oldest first. *)
Record World := {
  scratch : gset string;
  bucket : gset string;
  table : list DocumentRecord;
  limiter : gmap string (list Z);
  log : list event
}.

(** Handler code: it reads and updates the world and either returns or
    throws. *)
Definition M (A : Type) : Type := World -> outcome A * World.

Definition ret {A} (a : A) : M A := fun w => (Returns a, w).

Definition throw {A} (message : string) : M A := fun w => (Throws message, w).

Definition bind {A B} (m : M A) (k : A -> M B) : M B :=
  fun w =>
    match m w with
    | (Returns a, w1) => k a w1
    | (Throws message, w1) => (Throws message, w1)
    end.

(** [try { m } catch (error) { handler(error.message) }] *)
Definition tryCatch {A} (m : M A) (handler : string -> M A) : M A :=
  fun w =>
    match m w with
    | (Returns a, w1) => (Returns a, w1)
    | (Throws message, w1) => handler message w1
    end.

(** [await] on an external call whose result the environment supplies. *)
Definition await {A} (result : outcome A) : M A := fun w => (result, w).

Declare Scope handler_scope.
Delimit Scope handler_scope with handler.
Notation "'let*' x := m 'in' k" := (bind m (fun x => k))
  (at level 10, x name, m at level 100, k at level 200) : handler_scope.
Notation "m ;; k" := (bind m (fun _ => k))
  (at level 100, right associativity) : handler_scope.

(** [res.status(code).json(payload)] *)
Definition respond (code : Z) (p : body) : M unit :=
  fun w =>
    (Returns tt,
     {| scratch := scratch w; bucket := bucket w; table := table w;
        limiter := limiter w;
        log := log w ++ [Sent {| status := code; payload := p |}] |}).

(** [cleanupTempFile(filePath)]: unlink the file if it exists; the helper
    catches whatever goes wrong, so it never throws. *)
Definition cleanupTempFile (filePath : string) : M unit :=
  fun w =>
    (Returns tt,
     if decide (filePath ∈ scratch w)
     then {| scratch := scratch w ∖ {[filePath]}; bucket := bucket w;
             table := table w; limiter := limiter w;
             log := log w ++ [Unlinked filePath] |}
     else w).

(** [fs.readFileSync(filePath)]: throws when the file is missing.  The
    bytes themselves play no role in the handlers. *)
Definition readFileSync (filePath : string) : M unit :=
  fun w =>
    if decide (filePath ∈ scratch w) then (Returns tt, w)
    else (Throws ("ENOENT: no such file or directory, open '" +:+ filePath +:+ "'"), w).

(** A scratch file appears (multer's disk storage, or a download). *)
Definition createScratch (filePath : string) : M unit :=
  fun w =>
    (Returns tt,
     {| scratch := scratch w ∪ {[filePath]}; bucket := bucket w;
        table := table w; limiter := limiter w;
        log := log w ++ [Created filePath] |}).

(** An object is put into the bucket under a key. *)
Definition putObject (key : string) : M unit :=
  fun w =>
    (Returns tt,
     {| scratch := scratch w; bucket := bucket w ∪ {[key]};
        table := table w; limiter := limiter w;
        log := log w ++ [Put key] |}).

(** [await storage.from(..).remove([key])], where [answer] is what the
    storage does with the request: it answers without an error and the
    object has left the bucket, it answers with an [error] and the object
    stays, or the call throws and the object stays.  The value is the
    [error] of the answer. *)
Definition removeObject (answer : outcome (option string)) (key : string)
    : M (option string) :=
  fun w =>
    let kept := match answer with
                | Returns None => bucket w ∖ {[key]}
                | _ => bucket w
                end in
    (answer,
     {| scratch := scratch w; bucket := kept;
        table := table w; limiter := limiter w;
        log := log w ++ [Removed key] |}).

(** A row is added to the [documents] table. *)
Definition insertRow (row : DocumentRecord) : M unit :=
  fun w =>
    (Returns tt,
     {| scratch := scratch w; bucket := bucket w;
        table := table w ++ [row]; limiter := limiter w;
        log := log w ++ [Inserted row] |}).

(** [rateLimiter.isAllowed] on the limiter of the world. *)
Definition isAllowed (key : string) (maxRequests windowMs now : Z) : M bool :=
  fun w =>
    let '(b, requests) :=
      RateLimiter.isAllowed key maxRequests windowMs now (limiter w) in
    (Returns b,
     {| scratch := scratch w; bucket := bucket w; table := table w;
        limiter := requests; log := log w |}).

(** The existence check on an object key. *)
Definition objectExists (key : string) (w : World) : bool :=
  bool_decide (key ∈ bucket w).


(** A row of the table references the object. *)
Definition referenced (key : string) (w : World) : Prop :=
  exists row, row ∈ table w /\ file_path row = key.

(** The supabase client's answers. *)
Record User := { uid : string; email : string }.
Record Profile := { profile_status : string; role : string }.

(** [{ data: { user }, error }] of [supabase.auth.getUser(token)] *)
Record AuthResult := { user : option User; authError : option string }.

(** [authHeader && authHeader.startsWith('Bearer ')] *)
Definition bearer (authorization : option string) : bool :=
  match authorization with
  | None => false
  | Some h => Js.truthy h && Js.startsWith h "Bearer "
  end.

(** [profile && profile.status === 'approved'] *)
Definition approved (profile : option Profile) : bool :=
  match profile with
  | None => false
  | Some p => String.eqb (profile_status p) "approved"
  end.

End Server.

(** ** The documents router: [POST /api/documents] *)

Module DocumentsRoute.
Import Js Server Extraction.
Local Open Scope handler_scope.

(** The [isCompanyWide] field of the body: absent, a string of the
    multipart form, or the boolean the schema converts it to. *)
Inductive flag := FlagAbsent | FlagString (s : string) | FlagBool (b : bool).

(** [isCompanyWide === 'true'] *)
Definition isTrueString (f : flag) : bool :=
  match f with
  | FlagString s => String.eqb s "true"
  | _ => false
  end.

Record Body := { title : option string; isCompanyWide : flag }.

Record Request := {
  authorization : option string;
  file : option File;
  reqBody : Body
}.

(** What the collaborators answer during one upload request. *)
Record Env := {
  schemaResult : option Body;
    (* [schema.validate(req.body)]: the converted value, or an error *)
  authResult : outcome AuthResult;
  now : Z;
  profileResult : outcome (option Profile);
  extractorRuns : extractors;
  date : string;
  storageName : string;
    (* the generated [fileName]: time stamp, random suffix, extension *)
  uploadError : outcome (option string);
    (* [error] of [storage.from('documents').upload(..)] *)
  insertResult : outcome (string + string);
    (* the id of the inserted row, or the message of [dbError] *)
  removeResult : outcome (option string)
    (* [error] of [storage.from('documents').remove(..)], which the
       handler does not look at *)
}.

(** config/constants.js *)
Definition MAX_SIZE_PDF : Z := 10 * 1024 * 1024.
Definition MAX_SIZE_DOCUMENT : Z := 50 * 1024 * 1024.
Definition MAX_SIZE_IMAGE : Z := 8 * 1024 * 1024.
Definition ALLOWED_PDF : list string := ["application/pdf"].
Definition ALLOWED_DOCUMENT : list string :=
  ["application/msword";
   "application/vnd.openxmlformats-officedocument.wordprocessingml.document";
   "text/plain"].
Definition ALLOWED_IMAGE : list string :=
  ["image/png"; "image/jpeg"; "image/jpg"; "image/gif"; "image/bmp"; "image/tiff"].

(** [array.includes(x)] on strings *)
Definition listIncludes (l : list string) (x : string) : bool :=
  existsb (String.eqb x) l.

Definition getMaxFileSize (mime : string) : Z :=
  if listIncludes ALLOWED_PDF mime then MAX_SIZE_PDF
  else if listIncludes ALLOWED_DOCUMENT mime then MAX_SIZE_DOCUMENT
  else if listIncludes ALLOWED_IMAGE mime then MAX_SIZE_IMAGE
  else MAX_SIZE_DOCUMENT.

Definition isAllowedFileType (mime : string) : bool :=
  listIncludes (ALLOWED_PDF ++ ALLOWED_DOCUMENT ++ ALLOWED_IMAGE) mime.

(** [`upload:${user.id}`], the key of the router's own limiter. *)
Definition rateLimitKey (u : User) : string := "upload:" +:+ uid u.

(** The [try] block of the handler. *)
Definition handlerBody (req : Request) (env : Env) : M unit :=
  match file req, title (reqBody req) with
  | Some f, Some ((String _ _) as t) =>
      if negb (bearer (authorization req)) then
        cleanupTempFile (path f) ;;
        respond 401 (ErrorBody "Unauthorized")
      else
        let* auth := await (authResult env) in
        match authError auth, user auth with
        | None, Some u =>
            let* allowed := isAllowed (rateLimitKey u) RateLimiter.UPLOAD_maxRequests
                              RateLimiter.UPLOAD_windowMs (now env) in
            if negb allowed then
              cleanupTempFile (path f) ;;
              respond 429 (ErrorBody "Rate limit exceeded")
            else
              let* profile := await (profileResult env) in
              if negb (approved profile) then
                cleanupTempFile (path f) ;;
                respond 403 (ErrorBody "Account not approved")
              else
                let* extractedText := await (extractTextFromFile f (extractorRuns env) (date env)) in
                let filePath := uid u +:+ "/" +:+ storageName env in
                readFileSync (path f) ;;
                let* uploaded := await (uploadError env) in
                match uploaded with
                | Some message =>
                    cleanupTempFile (path f) ;;
                    respond 500 (ErrorBody message)
                | None =>
                    putObject filePath ;;
                    let* inserted := await (insertResult env) in
                    match inserted with
                    | inr message =>
                        removeObject (removeResult env) filePath ;;
                        cleanupTempFile (path f) ;;
                        respond 500 (ErrorBody message)
                    | inl id =>
                        insertRow {| doc_id := id; user_id := uid u; doc_title := t;
                                     doc_content := extractedText; file_path := filePath;
                                     file_size := size f; file_type := mimetype f;
                                     is_company_wide := isTrueString (isCompanyWide (reqBody req)) |} ;;
                        cleanupTempFile (path f) ;;
                        respond 200 (UploadSuccess id)
                    end
                end
        | _, _ =>
            cleanupTempFile (path f) ;;
            respond 401 (ErrorBody "Unauthorized")
        end
  | _, _ => respond 400 (ErrorBody "File and title are required")
  end.

(** The [catch] clause of the handler. *)
Definition handlerCatch (req : Request) (message : string) : M unit :=
  match file req with
  | Some f => if truthy (path f) then cleanupTempFile (path f) else ret tt
  | None => ret tt
  end ;;
  respond 500 (ErrorMessage "Internal server error" message).

(** The handler of [router.post('/')]. *)
Definition handler (req : Request) (env : Env) : M unit :=
  tryCatch (handlerBody req env) (handlerCatch req).

(** The [validateFile] middleware: [None] passes the request on. *)
Definition validateFile (req : Request) : option Response :=
  match file req with
  | None => None
  | Some f =>
      if (getMaxFileSize (mimetype f) <? size f)%Z
      then Some {| status := 400; payload := ErrorBody "File size exceeds limit" |}
      else if negb (isAllowedFileType (mimetype f))
      then Some {| status := 400; payload := ErrorBody "Invalid file type" |}
      else None
  end.

(** The route after multer has written the scratch file: [validateFile],
    [validate(validationSchemas.uploadDocument)], then the handler on the
    converted body. *)
Definition route (req : Request) (env : Env) : M unit :=
  match validateFile req with
  | Some r => respond (status r) (payload r)
  | None =>
      match schemaResult env with
      | None => respond 400 (ErrorBody "Validation failed")
      | Some converted =>
          handler {| authorization := authorization req; file := file req;
                     reqBody := converted |} env
      end
  end.

End DocumentsRoute.

(** ** The extraction pipeline of app.js: [POST /extract] *)

Module ExtractRoute.
Import Js Server Extraction.
Local Open Scope handler_scope.

(** The three extraction services. *)
Inductive service := pdfService | docService | ocrService.

(** [getServiceForFile(mimetype)]; [None] is the [null] of the source. *)
Definition getServiceForFile (mime : string) : option service :=
  if String.eqb mime "application/pdf" then Some pdfService
  else if String.eqb mime "application/msword"
          || String.eqb mime "application/vnd.openxmlformats-officedocument.wordprocessingml.document"
  then Some docService
  else if startsWith mime "image/" then Some ocrService
  else None.

(** The MIME types the [fileFilter] of the upload middleware lets
    through to the handler. *)
Definition allowedTypes : list string :=
  ["application/pdf"; "application/msword";
   "application/vnd.openxmlformats-officedocument.wordprocessingml.document";
   "image/png"; "image/jpeg"; "image/jpg"; "image/gif"; "image/bmp"; "image/tiff"].

Definition fileFilter (mime : string) : bool :=
  existsb (String.eqb mime) allowedTypes.

(** [{ path, fileName }] of an upload. *)
Record StorageInfo := { storagePath : string; storageFileName : string }.

(** [{ text, processingTime }] of a service. *)
Record ExtractionResult := { text : string; processingTime : string }.

(** [{ data, error }] of [storage.from(bucket).upload(fileName, ..)];
    [upload_path] is [data.path], the key the storage reports for the
    object it has stored. *)
Record UploadAnswer := { upload_path : option string; upload_error : option string }.

(** What the collaborators answer during one extraction request. *)
Record Env := {
  fileName : string;
    (* the generated name: time stamp, random suffix, extension *)
  uploadAnswer : outcome UploadAnswer;
  downloadError : outcome (option string);
    (* [error] of [storage.from(bucket).download(..)]; the call, the
       conversion of the blob or the write of the copy may also throw *)
  tempFilePath : string;
    (* the generated path of the downloaded copy *)
  removeAnswer : outcome (option string);
    (* [error] of [storage.from(bucket).remove(..)] *)
  serviceRuns : service -> outcome ExtractionResult
}.

(** [storageService.uploadFile(filePath, originalName, mimetype)]: read the
    scratch file, upload it, throw [Upload failed: ..] on an [error]; the
    [catch] clause logs and throws the error on. *)
Definition uploadFile (filePath : string) (env : Env) : M StorageInfo :=
  readFileSync filePath ;;
  let* answer := await (uploadAnswer env) in
  match upload_error answer, upload_path answer with
  | Some message, _ => throw ("Upload failed: " +:+ message)
  | None, Some key =>
      putObject key ;;
      ret {| storagePath := key; storageFileName := fileName env |}
  | None, None => throw "Cannot read properties of null (reading 'path')"
  end.

(** [storageService.downloadFile(storagePath)]: throw [Download failed: ..]
    on an [error], else write the copy to a scratch file and return its
    path. *)
Definition downloadFile (storagePath : string) (env : Env) : M string :=
  let* error := await (downloadError env) in
  match error with
  | Some message => throw ("Download failed: " +:+ message)
  | None => createScratch (tempFilePath env) ;; ret (tempFilePath env)
  end.

(** [storageService.deleteFile(storagePath)]: [true] when the storage
    removed the object, [false] when it answered with an error or the call
    threw; it never throws. *)
Definition deleteFile (storagePath : string) (env : Env) : M bool :=
  tryCatch
    (let* error := removeObject (removeAnswer env) storagePath in
     match error with
     | Some _ => ret false
     | None => ret true
     end)
    (fun _ => ret false).

(** [storageService.cleanupTempFile(filePath)]: as the helper of the
    application, unlink the file if it exists and never throw. *)
Definition storageCleanupTempFile (filePath : string) : M unit :=
  cleanupTempFile filePath.

(** Run [m]; an error it throws goes to [handler], a value to [k].  This
    is the inner [try], whose [catch] clause sees the [let] variables as
    they stand when the error is thrown. *)
Definition tryWith {A} (m : M A) (handler : string -> M unit) (k : A -> M unit) : M unit :=
  fun w =>
    match m w with
    | (Returns a, w1) => k a w1
    | (Throws message, w1) => handler message w1
    end.

(** [if (downloadedFilePath) storageService.cleanupTempFile(..)] *)
Definition cleanupDownloaded (downloadedFilePath : option string) : M unit :=
  match downloadedFilePath with
  | Some p => if truthy p then storageCleanupTempFile p else ret tt
  | None => ret tt
  end.

(** [if (storageInfo) await storageService.deleteFile(storageInfo.path)] *)
Definition deleteStored (env : Env) (storageInfo : option StorageInfo) : M unit :=
  match storageInfo with
  | Some info => deleteFile (storagePath info) env ;; ret tt
  | None => ret tt
  end.

(** The inner [catch (storageError)] clause. *)
Definition onStorageError (f : File) (env : Env) (storageInfo : option StorageInfo)
    (downloadedFilePath : option string) (message : string) : M unit :=
  cleanupTempFile (path f) ;;
  cleanupDownloaded downloadedFilePath ;;
  deleteStored env storageInfo ;;
  throw message.

(** The inner [try] block for an uploaded file. *)
Definition pipeline (f : File) (env : Env) : M unit :=
  tryWith (uploadFile (path f) env) (onStorageError f env None None) (fun storageInfo =>
  tryWith (downloadFile (storagePath storageInfo) env)
    (onStorageError f env (Some storageInfo) None)
    (fun downloadedFilePath =>
  match getServiceForFile (mimetype f) with
  | None =>
      cleanupTempFile (path f) ;;
      cleanupDownloaded (Some downloadedFilePath) ;;
      deleteStored env (Some storageInfo) ;;
      respond 400 (ErrorMessage "Unsupported file type"
                     "Please upload a PDF, DOC, DOCX, or image file")
  | Some svc =>
      tryWith (await (serviceRuns env svc))
        (onStorageError f env (Some storageInfo) (Some downloadedFilePath))
        (fun result =>
           cleanupTempFile (path f) ;;
           cleanupDownloaded (Some downloadedFilePath) ;;
           respond 200 (ExtractSuccess (storagePath storageInfo) (text result)))
  end)).

(** The outer [catch (error)] clause. *)
Definition handlerCatch (file : option File) (message : string) : M unit :=
  match file with
  | Some f => if truthy (path f) then cleanupTempFile (path f) else ret tt
  | None => ret tt
  end ;;
  respond 500 (ErrorMessage "Text extraction failed" message).

(** The handler of [app.post('/extract')], after multer. *)
Definition handler (file : option File) (env : Env) : M unit :=
  tryCatch
    match file with
    | None => respond 400 (ErrorMessage "No file uploaded"
                             "Please upload a file to extract text from")
    | Some f => pipeline f env
    end
    (handlerCatch file).

(** The [fileSize] limit of the upload middleware. *)
Definition LIMIT_FILE_SIZE : Z := 10 * 1024 * 1024.

(** An error handed to [next]: one of multer's own with its [code], or a
    plain [Error]. *)
Inductive routeError :=
| MulterError (code message : string)
| PlainError (message : string).

(** The error-handling middleware at the end of the application. *)
Definition errorMiddleware (error : routeError) : M unit :=
  match error with
  | MulterError code message =>
      if String.eqb code "LIMIT_FILE_SIZE" then
        respond 400 (ErrorMessage "File too large" "File size must be less than 10MB")
      else respond 500 (ErrorMessage "Internal server error" message)
  | PlainError message => respond 500 (ErrorMessage "Internal server error" message)
  end.

(** The route [app.post('/extract', upload.single('file'), ..)] for the
    file part of a request, described by the [File] multer would make of
    it: the filter refuses it with a plain error, or it is over the size
    limit, or it is written to the scratch directory and the handler
    runs. *)
Definition route (incoming : option File) (env : Env) : M unit :=
  match incoming with
  | None => handler None env
  | Some f =>
      if negb (fileFilter (mimetype f)) then
        errorMiddleware (PlainError "Unsupported file type")
      else if (LIMIT_FILE_SIZE <? size f)%Z then
        errorMiddleware (MulterError "LIMIT_FILE_SIZE" "File too large")
      else
        createScratch (path f) ;;
        handler (Some f) env
  end.

End ExtractRoute.

(** ** routes/chat.js: attachment heuristic, search and context assembly *)

Module Chat.
Import Js.

(** A row of [select('id, title, content')]; [content] may be [null]. *)
Record Document := { id : string; title : string; content : option string }.

(** [{ data, error }] of a query on the metadata index. *)
Record QueryResult := { data : option (list Document); error : option string }.

(** The metadata index: what [from('documents').select(..).in('id', ids)]
    answers for a list of ids during the request. *)
Definition index := list string -> outcome QueryResult.

Definition attachmentKeywords : list string :=
  ["attachment"; "document"; "file"; "pdf"; "doc"; "uploaded"].

(** [mentionsAttachment(query)] *)
Definition mentionsAttachment (query : string) : bool :=
  existsb (fun keyword => includes (toLowerCase query) keyword) attachmentKeywords.

Definition attachmentPreamble : string :=
  "The user has mentioned attachments or documents. Here is the relevant content from their uploaded documents:"
  +:+ nl +:+ nl.

(** [enhanceContextForAttachments(context)] *)
Definition enhanceContextForAttachments (context : string) : string :=
  attachmentPreamble +:+ context.

(** An element of the array [searchDocuments] returns. *)
Record Chunk := {
  document_id : string;
  document_title : string;
  chunk_content : string;
  chunk_similarity : Q
}.

(** The filter of [searchDocuments]:
    [doc.content && doc.content.toLowerCase().includes(query.toLowerCase())] *)
Definition matchesQuery (query : string) (doc : Document) : bool :=
  match content doc with
  | Some c => truthy c && includes (toLowerCase c) (toLowerCase query)
  | None => false
  end.

(** The mock similarity score of a match. *)
Definition matchScore : Q := 8 # 10.

(** The [map] of [searchDocuments]; it only sees documents that passed
    the filter, whose content is a string. *)
Definition toChunk (doc : Document) : Chunk :=
  {| document_id := id doc; document_title := title doc;
     chunk_content := default "" (content doc);
     chunk_similarity := matchScore |}.

(** [searchDocuments(query, documentIds, threshold, limit)]; [threshold]
    is not used by the body. *)
Definition searchDocuments (db : index) (query : string) (documentIds : list string)
    (limit : nat) : outcome (list Chunk) :=
  match db documentIds with
  | Throws message => Throws message
  | Returns r =>
      match data r with
      | None => Returns []
      | Some documents =>
          Returns (map toChunk (firstn limit (List.filter (matchesQuery query) documents)))
      end
  end.

(** The default value of [limit]. *)
Definition defaultLimit : nat := 8.

(** An element of the [sources] array of the response. *)
Record Source := {
  documentId : string;
  documentTitle : string;
  similarity : Q;
  excerpt : string
}.

(** [c.substring(0, 300) + (c.length > 300 ? '...' : '')] *)
Definition excerptOf (c : string) : string :=
  substring0 300 c +:+ (if (300 <? len c)%Z then "..." else "").

(** Scores of the two attribution fallbacks. *)
Definition noMatchScore : Q := 95 # 100.
Definition searchErrorScore : Q := 9 # 10.

(** [doc.content] as a condition *)
Definition hasContent (doc : Document) : bool :=
  match content doc with
  | Some c => truthy c
  | None => false
  end.

(** [doc.content && doc.content.trim().length > 20] *)
Definition sufficientContent (doc : Document) : bool :=
  match content doc with
  | Some c => truthy c && (20 <? len (trim c))%Z
  | None => false
  end.

Definition chunkSource (chunk : Chunk) : Source :=
  {| documentId := document_id chunk; documentTitle := document_title chunk;
     similarity := chunk_similarity chunk;
     excerpt := excerptOf (chunk_content chunk) |}.

Definition documentSource (score : Q) (doc : Document) : Source :=
  {| documentId := id doc; documentTitle := title doc; similarity := score;
     excerpt := excerptOf (default "" (content doc)) |}.

(** [selectedDocuments.filter((doc) => doc.content).map(..)] *)
Definition fallbackSources (score : Q) (selectedDocuments : list Document) : list Source :=
  map (documentSource score) (List.filter hasContent selectedDocuments).

Definition wrapDocument (doc : Document) : string :=
  "=== DOCUMENT: " +:+ title doc +:+ " ===" +:+ nl +:+ nl +:+
  default "" (content doc) +:+ nl +:+ nl +:+ "=== END DOCUMENT ===".

Definition placeholderNote (doc : Document) : string :=
  "Document " +:+ dquote +:+ title doc +:+ dquote +:+
  " was selected but contains no readable content.".

(** The attribution list once the selected documents are known; [search]
    is what the index answers to the query [searchDocuments] makes. *)
Definition attribution (search : index) (userQuery : string) (documentIds : list string)
    (selectedDocuments : list Document) : list Source :=
  match searchDocuments search userQuery documentIds 8 with
  | Returns ((_ :: _) as relevantChunks) => map chunkSource relevantChunks
  | Returns [] => fallbackSources noMatchScore selectedDocuments
  | Throws _ => fallbackSources searchErrorScore selectedDocuments
  end.

(** The context string built from the selected documents. *)
Definition contextOf (selectedDocuments : list Document) : string :=
  match List.filter sufficientContent selectedDocuments with
  | [] => join nl (map placeholderNote selectedDocuments)
  | documentsWithContent => join (nl +:+ nl) (map wrapDocument documentsWithContent)
  end.

(** The block [if (documentIds && documentIds.length > 0) { try .. catch }]
    of the [/stream] handler, starting from [context = ''] and
    [sources = []].  The index is asked twice: [db] is its answer to the
    handler's own query, [search] its answer to the query inside
    [searchDocuments]. *)
Definition documentContext (db search : index) (userQuery : string)
    (documentIds : option (list string)) : string * list Source :=
  match documentIds with
  | Some ((_ :: _) as ids) =>
      match db ids with
      | Throws _ => ("", [])
      | Returns r =>
          match error r, data r with
          | None, Some ((_ :: _) as selectedDocuments) =>
              (contextOf selectedDocuments,
               attribution search userQuery ids selectedDocuments)
          | _, _ => ("", [])
          end
      end
  | _ => ("", [])
  end.

(** Context and sources as the handler holds them when it calls
    [generateChatResponse]. *)
Definition assembleContext (db search : index) (userQuery : string)
    (documentIds : option (list string)) : string * list Source :=
  let '(context, sources) := documentContext db search userQuery documentIds in
  (if mentionsAttachment userQuery && truthy context
   then enhanceContextForAttachments context else context,
   sources).

End Chat.

(** ** The OCR service *)

Module Ocr.
Import Js.

(** A recognized word with its confidence. *)
Record Word := { word_text : string; word_confidence : Q }.

(** [data] of [Tesseract.recognize]; the layout arrays only matter through
    their lengths, and each of them may be missing. *)
Record Recognition := {
  text : string;
  confidence : Q;
  words : option (list Word);
  blocks : option nat;
  paragraphs : option nat;
  lines : option nat;
  symbols : option nat
}.

Definition defaultMinConfidence : Q := 30 # 1.

(** The words that pass the filter, joined by single spaces. *)
Definition filteredWords (ws : list Word) (minConfidence : Q) : string :=
  join " "
    (map word_text
       (List.filter (fun word => Qle_bool minConfidence (word_confidence word)) ws)).

(** [filterLowConfidenceText(data, minConfidence = 30)] *)
Definition filterLowConfidenceText (data : Recognition) (minConfidence : Q) : string :=
  match words data with
  | None => text data
  | Some ws =>
      let filtered := filteredWords ws minConfidence in
      if truthy filtered then filtered else text data
  end.

(** [Math.round(x)] on a rational *)
Definition round (x : Q) : Z := Qfloor (Qplus x (1 # 2)).

Record Metadata := {
  meta_confidence : Z;
  meta_language : string;
  meta_blocks : nat;
  meta_paragraphs : nat;
  meta_lines : nat;
  meta_words : nat;
  meta_symbols : nat
}.

Record ExtractionResult := {
  result_text : string;
  result_metadata : Metadata;
  result_processingTime : string
}.

(** [extractText(filePath, language = 'eng')]: [recognition] is what
    [Tesseract.recognize] does on the image, [startTime] and [endTime] the
    two readings of the clock. *)
Definition extractText (recognition : outcome Recognition) (language : string)
    (startTime endTime : Z) : outcome ExtractionResult :=
  match recognition with
  | Throws message => Throws ("OCR extraction failed: " +:+ message)
  | Returns data =>
      let processingTime := (endTime - startTime)%Z in
      let filteredText := filterLowConfidenceText data defaultMinConfidence in
      Returns
        {| result_text := if truthy filteredText then filteredText else trim (text data);
           result_metadata :=
             {| meta_confidence := round (confidence data);
                meta_language := language;
                meta_blocks := default 0%nat (blocks data);
                meta_paragraphs := default 0%nat (paragraphs data);
                meta_lines := default 0%nat (lines data);
                meta_words := default 0%nat (length <$> words data);
                meta_symbols := default 0%nat (symbols data) |};
           result_processingTime := numberToString processingTime +:+ "ms" |}
  end.

End Ocr.

(** ** routes/conversations.js: [POST /generate-title] *)

Module Conversations.
Import Js Server.

Record Message := { msg_role : string; msg_content : string }.

Record Request := {
  authorization : option string;
  conversationId : option string;
  messages : option (list Message)
}.

(** [{ data: conversation, error: convError }] of the ownership query;
    a conversation row carries its [user_id]. *)
Record ConversationResult := {
  conversation : option string;
  convError : option string
}.

Record Env := {
  authResult : outcome AuthResult;
  profileResult : outcome (option Profile);
  conversationResult : outcome ConversationResult;
  updateError : outcome (option string)
}.

Inductive reply := ErrorReply (error : string) | TitleReply (title : string).

Record Response := { status : Z; payload : reply }.

(** [s.split(sep)] for a one-character separator *)
Fixpoint split (sep : ascii) (s : string) : list string :=
  match s with
  | EmptyString => [""]
  | String c s' =>
      if Ascii.eqb c sep then "" :: split sep s'
      else match split sep s' with
           | piece :: pieces => String c piece :: pieces
           | [] => [String c ""]
           end
  end.

Fixpoint dropChars (n : nat) (s : string) : string :=
  match n, s with
  | S n', String _ s' => dropChars n' s'
  | _, _ => s
  end.

(** [s.replace(/^(user|assistant):\s*/i, '')] *)
Definition stripRole (s : string) : string :=
  let lower := toLowerCase s in
  if startsWith lower "user:" then trimStart (dropChars 5 s)
  else if startsWith lower "assistant:" then trimStart (dropChars 10 s)
  else s.

(** [generateSimpleTitle(conversationText)] *)
Definition generateSimpleTitle (conversationText : string) : string :=
  let firstMessage := hd "" (split (ascii_of_nat 10) conversationText) in
  let words := split " "%char (stripRole firstMessage) in
  join " " (firstn 8 words) +:+ (if (8 <? length words)%nat then "..." else "").

Definition conversationTextOf (msgs : list Message) : string :=
  join nl (map (fun msg => msg_role msg +:+ ": " +:+ msg_content msg) msgs).

(** The [try] block of the handler; each [await] may throw. *)
Definition handlerBody (req : Request) (env : Env) : outcome Response :=
  match conversationId req, messages req with
  | Some (String _ _), Some ((_ :: _) as msgs) =>
      if negb (bearer (authorization req)) then
        Returns {| status := 401; payload := ErrorReply "Unauthorized" |}
      else
        match authResult env with
        | Throws message => Throws message
        | Returns auth =>
            match authError auth, user auth with
            | None, Some u =>
                match profileResult env with
                | Throws message => Throws message
                | Returns profile =>
                    if negb (approved profile) then
                      Returns {| status := 403; payload := ErrorReply "Account not approved" |}
                    else
                      match conversationResult env with
                      | Throws message => Throws message
                      | Returns r =>
                          match convError r, conversation r with
                          | None, Some owner =>
                              if negb (String.eqb owner (uid u)) then
                                Returns {| status := 404;
                                           payload := ErrorReply "Conversation not found" |}
                              else
                                let cleanTitle := generateSimpleTitle (conversationTextOf msgs) in
                                match updateError env with
                                | Throws message => Throws message
                                | Returns (Some _) =>
                                    Returns {| status := 500;
                                               payload := ErrorReply "Failed to update title" |}
                                | Returns None =>
                                    Returns {| status := 200; payload := TitleReply cleanTitle |}
                                end
                          | _, _ =>
                              Returns {| status := 404;
                                         payload := ErrorReply "Conversation not found" |}
                          end
                      end
                end
            | _, _ => Returns {| status := 401; payload := ErrorReply "Unauthorized" |}
            end
        end
  | _, _ => Returns {| status := 400; payload := ErrorReply "Invalid request" |}
  end.

(** The handler of [router.post('/generate-title')]. *)
Definition handler (req : Request) (env : Env) : Response :=
  match handlerBody req env with
  | Returns response => response
  | Throws _ => {| status := 500; payload := ErrorReply "Internal server error" |}
  end.

(** The body as [validate(validationSchemas.generateTitle)] passes it on. *)
Record Validated := { valid_conversationId : string; valid_messages : list Message }.

(** The later version of the route: the schema validation in front of an
    [asyncHandler] that no longer tests the body itself.  [validated] is
    what the schema makes of the body: [None] when it reports an error,
    the converted value otherwise.  The bodies of three of this version's
    answers are cut in the source, so it is modelled by the status it
    answers with ([constants.HTTP_STATUS]); [Throws] is an error handed
    on to [next]. *)
Definition laterRoute (authorization : option string) (validated : option Validated)
    (env : Env) : outcome Z :=
  match validated with
  | None => Returns 400%Z
  | Some _ =>
      if negb (bearer authorization) then Returns 401%Z
      else
        match authResult env with
        | Throws message => Throws message
        | Returns auth =>
            match authError auth, user auth with
            | None, Some u =>
                match profileResult env with
                | Throws message => Throws message
                | Returns profile =>
                    if negb (approved profile) then Returns 403%Z
                    else
                      match conversationResult env with
                      | Throws message => Throws message
                      | Returns r =>
                          match convError r, conversation r with
                          | None, Some owner =>
                              if negb (String.eqb owner (uid u)) then Returns 404%Z
                              else
                                match updateError env with
                                | Throws message => Throws message
                                | Returns (Some _) => Returns 500%Z
                                | Returns None => Returns 200%Z
                                end
                          | _, _ => Returns 404%Z
                          end
                      end
                end
            | _, _ => Returns 401%Z
            end
        end
  end.

End Conversations.

(** ** Sample inputs *)

Module Samples.
Import Server.

Definition reportPdf : Extraction.File :=
  {| Extraction.fieldname := "file"; Extraction.originalname := "report.pdf";
     Extraction.mimetype := "application/pdf"; Extraction.size := 2048;
     Extraction.path := "temp/file-1700000000000-42.pdf" |}.

Definition scanPng : Extraction.File :=
  {| Extraction.fieldname := "file"; Extraction.originalname := "scan.png";
     Extraction.mimetype := "image/png"; Extraction.size := 700;
     Extraction.path := "temp/file-1700000000001-43.png" |}.

Definition notesTxt : Extraction.File :=
  {| Extraction.fieldname := "file"; Extraction.originalname := "notes.txt";
     Extraction.mimetype := "text/plain"; Extraction.size := 10;
     Extraction.path := "temp/file-1700000000002-44.txt" |}.

(** Fifty characters, and the same without the last one. *)
Definition fiftyChars : string := "Quarterly revenue grew by twelve percent in 2024..".
Definition fortyNineChars : string := "Quarterly revenue grew by twelve percent in 2024.".

Definition today : string := "1/2/2025".

Definition alice : User := {| uid := "u1"; email := "alice@example.com" |}.
Definition approvedProfile : Profile := {| profile_status := "approved"; role := "user" |}.

(** A world in which multer has just written the scratch file. *)
Definition afterMulter (f : Extraction.File) : World :=
  {| scratch := {[ Extraction.path f ]}; bucket := ∅; table := [];
     limiter := RateLimiter.initial; log := [] |}.

Definition uploadRequest : DocumentsRoute.Request :=
  {| DocumentsRoute.authorization := Some "Bearer token-of-alice";
     DocumentsRoute.file := Some reportPdf;
     DocumentsRoute.reqBody :=
       {| DocumentsRoute.title := Some "Q3 report";
          DocumentsRoute.isCompanyWide := DocumentsRoute.FlagString "true" |} |}.

(** The upload goes through and the insert answers with an error. *)
Definition insertFails : DocumentsRoute.Env :=
  {| DocumentsRoute.schemaResult := Some (DocumentsRoute.reqBody uploadRequest);
     DocumentsRoute.authResult := Returns {| user := Some alice; authError := None |};
     DocumentsRoute.now := 1700000000100;
     DocumentsRoute.profileResult := Returns (Some approvedProfile);
     DocumentsRoute.extractorRuns := fun _ => Returns fiftyChars;
     DocumentsRoute.date := today;
     DocumentsRoute.storageName := "1700000000100-k3j9x.pdf";
     DocumentsRoute.uploadError := Returns None;
     DocumentsRoute.insertResult := Returns (inr "duplicate key value");
     DocumentsRoute.removeResult := Returns None |}.

(** The upload goes through and the insert call throws. *)
Definition insertThrows : DocumentsRoute.Env :=
  {| DocumentsRoute.schemaResult := Some (DocumentsRoute.reqBody uploadRequest);
     DocumentsRoute.authResult := Returns {| user := Some alice; authError := None |};
     DocumentsRoute.now := 1700000000100;
     DocumentsRoute.profileResult := Returns (Some approvedProfile);
     DocumentsRoute.extractorRuns := fun _ => Returns fiftyChars;
     DocumentsRoute.date := today;
     DocumentsRoute.storageName := "1700000000100-k3j9x.pdf";
     DocumentsRoute.uploadError := Returns None;
     DocumentsRoute.insertResult := Throws "fetch failed";
     DocumentsRoute.removeResult := Returns None |}.

(** The insert answers with an error and so does the removal. *)
Definition removeRefused : DocumentsRoute.Env :=
  {| DocumentsRoute.schemaResult := Some (DocumentsRoute.reqBody uploadRequest);
     DocumentsRoute.authResult := Returns {| user := Some alice; authError := None |};
     DocumentsRoute.now := 1700000000100;
     DocumentsRoute.profileResult := Returns (Some approvedProfile);
     DocumentsRoute.extractorRuns := fun _ => Returns fiftyChars;
     DocumentsRoute.date := today;
     DocumentsRoute.storageName := "1700000000100-k3j9x.pdf";
     DocumentsRoute.uploadError := Returns None;
     DocumentsRoute.insertResult := Returns (inr "duplicate key value");
     DocumentsRoute.removeResult := Returns (Some "storage unavailable") |}.


(** A PDF of 2600 bytes. *)
Definition memoPdf : Extraction.File :=
  {| Extraction.fieldname := "file"; Extraction.originalname := "memo.pdf";
     Extraction.mimetype := "application/pdf"; Extraction.size := 2600;
     Extraction.path := "temp/file-1700000000003-46.pdf" |}.

(** An index whose query fails. *)
Definition failingIndex : Chat.index := fun _ => Throws "connection reset".

(** An [/extract] run in which storage works and a service would answer. *)
Definition extractEnv : ExtractRoute.Env :=
  {| ExtractRoute.fileName := "1700000000200-77.pdf";
     ExtractRoute.uploadAnswer :=
       Returns {| ExtractRoute.upload_path := Some "1700000000200-77.pdf";
                  ExtractRoute.upload_error := None |};
     ExtractRoute.downloadError := Returns None;
     ExtractRoute.tempFilePath := "temp/temp-1700000000201-1700000000200-77.pdf";
     ExtractRoute.removeAnswer := Returns None;
     ExtractRoute.serviceRuns :=
       fun _ => Returns {| ExtractRoute.text := fiftyChars;
                           ExtractRoute.processingTime := "12ms" |} |}.

Definition revenueDoc : Chat.Document :=
  {| Chat.id := "d1"; Chat.title := "Q3";
     Chat.content := Some "Quarterly revenue grew by twelve percent." |}.
Definition emptyDoc : Chat.Document :=
  {| Chat.id := "d2"; Chat.title := "Blank"; Chat.content := Some "" |}.
Definition nullDoc : Chat.Document :=
  {| Chat.id := "d3"; Chat.title := "Pending"; Chat.content := None |}.

Definition attachmentQuery : string := "what's in the attachment?".

(** An index that answers every query with the given rows. *)
Definition indexOf (rows : list Chat.Document) : Chat.index :=
  fun _ => Returns {| Chat.data := Some rows; Chat.error := None |}.

(** Nine documents that all contain the word [revenue]. *)
Definition nineDocs : list Chat.Document :=
  map (fun n => {| Chat.id := n; Chat.title := "Report " +:+ n;
                   Chat.content := Some ("Revenue of unit " +:+ n) |})
      ["1"; "2"; "3"; "4"; "5"; "6"; "7"; "8"; "9"].

Definition scannedWords : list Ocr.Word :=
  [ {| Ocr.word_text := "Hello"; Ocr.word_confidence := 90 # 1 |};
    {| Ocr.word_text := "wrld"; Ocr.word_confidence := 12 # 1 |};
    {| Ocr.word_text := "there"; Ocr.word_confidence := 30 # 1 |} ].

Definition scanned : Ocr.Recognition :=
  {| Ocr.text := "Hello wrld there"; Ocr.confidence := 61 # 1;
     Ocr.words := Some scannedWords; Ocr.blocks := Some 1%nat;
     Ocr.paragraphs := Some 1%nat; Ocr.lines := Some 1%nat;
     Ocr.symbols := None |}.

Definition titleRequest (msgs : list Conversations.Message) : Conversations.Request :=
  {| Conversations.authorization := Some "Bearer token-of-alice";
     Conversations.conversationId := Some "c-42";
     Conversations.messages := Some msgs |}.

(** Alice is approved; the conversation exists and belongs to [u2]. *)
Definition foreignConversation : Conversations.Env :=
  {| Conversations.authResult := Returns {| user := Some alice; authError := None |};
     Conversations.profileResult := Returns (Some approvedProfile);
     Conversations.conversationResult :=
       Returns {| Conversations.conversation := Some "u2";
                  Conversations.convError := None |};
     Conversations.updateError := Returns None |}.

Definition hello : Conversations.Message :=
  {| Conversations.msg_role := "user"; Conversations.msg_content := "Hello there" |}.

End Samples.

(** ** Proof automation for the handlers *)

(** Forget how an existence test was decided, keeping what it found. *)
Ltac forget_decisions :=
  repeat match goal with H : decide _ = _ |- _ => clear H end.

(** Run the upload handler of the documents router through all the
    answers of its collaborators. *)
Ltac run_upload :=
  unfold DocumentsRoute.handler, DocumentsRoute.handlerBody,
    DocumentsRoute.handlerCatch, Server.tryCatch, Server.bind, Server.await,
    Server.isAllowed, Server.readFileSync, Server.putObject, Server.removeObject,
    Server.insertRow, Server.cleanupTempFile, Server.respond, Server.ret;
  repeat (simpl in *; case_match; simplify_eq).

(** The same for the [/extract] handler. *)
Ltac run_extract :=
  unfold ExtractRoute.handler, ExtractRoute.pipeline, ExtractRoute.tryWith,
    ExtractRoute.onStorageError, ExtractRoute.handlerCatch,
    ExtractRoute.deleteStored, ExtractRoute.cleanupDownloaded,
    ExtractRoute.uploadFile, ExtractRoute.downloadFile, ExtractRoute.deleteFile,
    ExtractRoute.storageCleanupTempFile, Server.tryCatch, Server.bind,
    Server.await, Server.throw, Server.createScratch, Server.readFileSync,
    Server.putObject, Server.removeObject, Server.cleanupTempFile, Server.respond,
    Server.ret;
  repeat (simpl in *; case_match; simplify_eq).

(** ** The upload filter of the documents router *)

Module DocumentsFilter.

(** The [fileFilter] of the router's multer instance: the PDF and the
    document types of the configuration. *)
Definition allowedTypes : list string :=
  DocumentsRoute.ALLOWED_PDF ++ DocumentsRoute.ALLOWED_DOCUMENT.

Definition fileFilter (mime : string) : bool :=
  DocumentsRoute.listIncludes allowedTypes mime.



End DocumentsFilter.

(** ** Reading the event log *)

Module Events.
Import Server.

(** An event that is not a response. *)
Definition silent (e : event) : Prop :=
  match e with Sent _ => False | _ => True end.

(** The events end with a response and hold no other one. *)
Fixpoint respondsLast (events : list event) : bool :=
  match events with
  | [] => false
  | [Sent _] => true
  | Sent _ :: _ => false
  | _ :: rest => respondsLast rest
  end.

End Events.

(** ** routes/chat.js: [generateChatResponse] and [POST /stream] *)

Module ChatRoute.
Import Js Server Chat.

(** An element of [messages] as the request schema leaves it. *)
Record Message := { msg_role : string; msg_content : string }.

Record Request := {
  authorization : option string;
  messages : list Message;
  documentIds : option (list string)
}.

(** What the collaborators answer during one chat request. *)
Record Env := {
  authResult : outcome AuthResult;
  now : Z;
  profileResult : outcome (option Profile);
  db : index;
    (* the answer to the handler's query for the selected documents *)
  search : index
    (* the answer to the query [searchDocuments] makes afterwards *)
}.

Inductive reply :=
  | ErrorReply (error : string)
  | ChatReply (response : string) (sources : list Source).

Record Response := { status : Z; payload : reply }.

(** [generateChatResponse(messages, context)]; reading [content] of the
    last element of an empty array throws. *)
Definition generateChatResponse (messages : list Message) (context : string)
    : outcome string :=
  match last messages with
  | None => Throws "Cannot read properties of undefined (reading 'content')"
  | Some lastMessage =>
      if truthy context then
        Returns ("Based on the provided documents, I can help you with: "
                 +:+ msg_content lastMessage +:+ ". " +:+ nl +:+ nl +:+
                 "Context from documents:" +:+ nl +:+
                 substring0 500 context +:+ "..." +:+ nl +:+ nl +:+
                 "This is a mock response. Please integrate with your preferred AI service.")
      else
        Returns ("I understand you're asking about: " +:+ msg_content lastMessage +:+
                 ". This is a mock response. Please integrate with your preferred AI service.")
  end.

(** [`chat:${user.id}`] *)
Definition rateLimitKey (u : User) : string := "chat:" +:+ uid u.

(** [messages[messages.length - 1]?.content] *)
Definition userQueryOf (messages : list Message) : option string :=
  msg_content <$> last messages.

(** The body of the handler, threading the router's [requests] map; each
    [await] may throw. *)
Definition handlerBody (req : Request) (env : Env) (requests : RateLimiter.requests_map)
    : outcome Response * RateLimiter.requests_map :=
  match userQueryOf (messages req) with
  | Some ((String _ _) as userQuery) =>
      if negb (bearer (authorization req)) then
        (Returns {| status := 401; payload := ErrorReply "Unauthorized" |}, requests)
      else
        match authResult env with
        | Throws message => (Throws message, requests)
        | Returns auth =>
            match authError auth, user auth with
            | None, Some u =>
                let '(allowed, requests1) :=
                  RateLimiter.isAllowed (rateLimitKey u) RateLimiter.CHAT_maxRequests
                    RateLimiter.CHAT_windowMs (now env) requests in
                if negb allowed then
                  (Returns {| status := 429; payload := ErrorReply "Rate limit exceeded" |},
                   requests1)
                else
                  match profileResult env with
                  | Throws message => (Throws message, requests1)
                  | Returns profile =>
                      if negb (approved profile) then
                        (Returns {| status := 403;
                                    payload := ErrorReply "Account not approved" |},
                         requests1)
                      else
                        let '(context, sources) :=
                          assembleContext (db env) (search env) userQuery
                            (documentIds req) in
                        match generateChatResponse (messages req) context with
                        | Throws message => (Throws message, requests1)
                        | Returns response =>
                            (Returns {| status := 200;
                                        payload := ChatReply response sources |},
                             requests1)
                        end
                  end
            | _, _ =>
                (Returns {| status := 401; payload := ErrorReply "Unauthorized" |}, requests)
            end
        end
  | _ => (Returns {| status := 400; payload := ErrorReply "No query provided" |}, requests)
  end.

(** The handler of [router.post('/stream')] with its [catch] clause. *)
Definition handler (req : Request) (env : Env) (requests : RateLimiter.requests_map)
    : Response * RateLimiter.requests_map :=
  match handlerBody req env requests with
  | (Returns response, requests1) => (response, requests1)
  | (Throws _, requests1) =>
      ({| status := 500; payload := ErrorReply "Internal server error" |}, requests1)
  end.

End ChatRoute.

(** ** The documents router: [GET /], [DELETE /:id] and [POST /url] *)

Module DocumentsAccess.
Import Js Server.

(** What a handler asks the storage and the table to do, in order. *)
Inductive effect :=
  | RemoveObject (key : string)
      (* [storage.from('documents').remove([key])] *)
  | DeleteRow (id : string)
      (* [from('documents').delete().eq('id', id)] *)
  | SignUrl (key : string) (expiresIn : Z).
      (* [storage.from('documents').createSignedUrl(key, expiresIn)] *)

Inductive reply :=
  | ErrorReply (error : string)
  | DeletedReply
      (* [{ success: true, message: 'Document deleted successfully' }] *)
  | UrlReply (url : string)
  | DocumentsReply (documents : list DocumentRecord).

Record Response := { status : Z; payload : reply }.

(** [{ data: document, error }] of a [.single()] query on [documents]; the
    handlers read [file_path], [user_id] and [is_company_wide] of the row. *)
Record Lookup := { document : option DocumentRecord; fetchError : option string }.

(** *** [DELETE /:id] *)

Record DeleteRequest := { delete_authorization : option string; delete_id : string }.

Record DeleteEnv := {
  delete_authResult : outcome AuthResult;
  delete_profileResult : outcome (option Profile);
  delete_documentResult : outcome Lookup;
  storageError : outcome (option string);
  dbError : outcome (option string)
}.

Definition deleteBody (req : DeleteRequest) (env : DeleteEnv)
    : outcome Response * list effect :=
  if negb (bearer (delete_authorization req)) then
    (Returns {| status := 401; payload := ErrorReply "Unauthorized" |}, [])
  else
    match delete_authResult env with
    | Throws message => (Throws message, [])
    | Returns auth =>
        match authError auth, user auth with
        | None, Some u =>
            match delete_profileResult env with
            | Throws message => (Throws message, [])
            | Returns profile =>
                match profile with
                | Some p =>
                    if negb (String.eqb (profile_status p) "approved") then
                      (Returns {| status := 403;
                                  payload := ErrorReply "Account not approved" |}, [])
                    else
                      match delete_documentResult env with
                      | Throws message => (Throws message, [])
                      | Returns r =>
                          match fetchError r, document r with
                          | None, Some doc =>
                              if negb (String.eqb (user_id doc) (uid u))
                                 && negb (String.eqb (role p) "admin") then
                                (Returns {| status := 403;
                                            payload := ErrorReply "Access denied" |}, [])
                              else
                                let removal := [RemoveObject (file_path doc)] in
                                match storageError env with
                                | Throws message => (Throws message, removal)
                                | Returns _ =>
                                    let deletion := removal ++ [DeleteRow (delete_id req)] in
                                    match dbError env with
                                    | Throws message => (Throws message, deletion)
                                    | Returns (Some message) =>
                                        (Returns {| status := 500;
                                                    payload := ErrorReply message |},
                                         deletion)
                                    | Returns None =>
                                        (Returns {| status := 200;
                                                    payload := DeletedReply |},
                                         deletion)
                                    end
                                end
                          | _, _ =>
                              (Returns {| status := 404;
                                          payload := ErrorReply "Document not found" |}, [])
                          end
                      end
                | None =>
                    (Returns {| status := 403;
                                payload := ErrorReply "Account not approved" |}, [])
                end
            end
        | _, _ => (Returns {| status := 401; payload := ErrorReply "Unauthorized" |}, [])
        end
    end.

(** The [catch] clause answers 500; what was asked before stays asked. *)
Definition caught (r : outcome Response * list effect) : Response * list effect :=
  match r with
  | (Returns response, effects) => (response, effects)
  | (Throws _, effects) =>
      ({| status := 500; payload := ErrorReply "Internal server error" |}, effects)
  end.

Definition deleteHandler (req : DeleteRequest) (env : DeleteEnv)
    : Response * list effect :=
  caught (deleteBody req env).

(** *** [POST /url] *)

Record UrlRequest := { url_authorization : option string; filePath : option string }.

Record UrlEnv := {
  url_authResult : outcome AuthResult;
  url_profileResult : outcome (option Profile);
  url_documentResult : outcome Lookup;
  signedUrl : outcome (option string)
    (* [data?.signedUrl] of [createSignedUrl] *)
}.

(** [document.user_id === user.id || document.is_company_wide ||
    profile.role === 'admin'] *)
Definition hasAccess (u : User) (p : Profile) (doc : DocumentRecord) : bool :=
  String.eqb (user_id doc) (uid u) || is_company_wide doc || String.eqb (role p) "admin".

Definition urlBody (req : UrlRequest) (env : UrlEnv) : outcome Response * list effect :=
  match filePath req with
  | Some ((String _ _) as path) =>
      if negb (bearer (url_authorization req)) then
        (Returns {| status := 401; payload := ErrorReply "Unauthorized" |}, [])
      else
        match url_authResult env with
        | Throws message => (Throws message, [])
        | Returns auth =>
            match authError auth, user auth with
            | None, Some u =>
                match url_profileResult env with
                | Throws message => (Throws message, [])
                | Returns profile =>
                    match profile with
                    | Some p =>
                        if negb (String.eqb (profile_status p) "approved") then
                          (Returns {| status := 403;
                                      payload := ErrorReply "Account not approved" |}, [])
                        else
                          match url_documentResult env with
                          | Throws message => (Throws message, [])
                          | Returns r =>
                              match fetchError r, document r with
                              | None, Some doc =>
                                  if negb (hasAccess u p doc) then
                                    (Returns {| status := 403;
                                                payload := ErrorReply "Access denied" |}, [])
                                  else
                                    let signing := [SignUrl path 3600] in
                                    match signedUrl env with
                                    | Throws message => (Throws message, signing)
                                    | Returns (Some ((String _ _) as url)) =>
                                        (Returns {| status := 200; payload := UrlReply url |},
                                         signing)
                                    | Returns _ =>
                                        (Returns {| status := 500;
                                                    payload := ErrorReply "Failed to generate URL" |},
                                         signing)
                                    end
                              | _, _ =>
                                  (Returns {| status := 404;
                                              payload := ErrorReply "Document not found" |}, [])
                              end
                          end
                    | None =>
                        (Returns {| status := 403;
                                    payload := ErrorReply "Account not approved" |}, [])
                    end
                end
            | _, _ => (Returns {| status := 401; payload := ErrorReply "Unauthorized" |}, [])
            end
        end
  | _ => (Returns {| status := 400; payload := ErrorReply "File path is required" |}, [])
  end.

Definition urlHandler (req : UrlRequest) (env : UrlEnv) : Response * list effect :=
  caught (urlBody req env).

(** *** [GET /] *)

(** The filter the handler puts on [from('documents').select('*')]. *)
Inductive query :=
  | CompanyWide                       (* [.eq('is_company_wide', true)] *)
  | OfUser (userId : string)          (* [.eq('user_id', userId)] *)
  | OwnOrCompanyWide (userId : string)
      (* [.or(`user_id.eq.${user.id},is_company_wide.eq.true`)] *)
  | Everything.

(** The rows a filter selects. *)
Definition selects (q : query) (doc : DocumentRecord) : bool :=
  match q with
  | CompanyWide => is_company_wide doc
  | OfUser userId => String.eqb (user_id doc) userId
  | OwnOrCompanyWide userId => String.eqb (user_id doc) userId || is_company_wide doc
  | Everything => true
  end.

Record ListRequest := {
  list_authorization : option string;
  userId : option string;
  companyWideOnly : option string
}.

(** [{ data, error }] of the query. *)
Record ListResult := { data : option (list DocumentRecord); error : option string }.

Record ListEnv := {
  list_authResult : outcome AuthResult;
  list_profileResult : outcome (option Profile);
  database : query -> outcome ListResult
}.

(** [companyWideOnly === 'true'] *)
Definition isTrueParam (param : option string) : bool :=
  match param with
  | Some s => String.eqb s "true"
  | None => false
  end.

(** The chain of [if]s that narrows the query. *)
Definition queryFor (req : ListRequest) (u : User) (p : Profile) : query :=
  if isTrueParam (companyWideOnly req) then CompanyWide
  else
    match userId req with
    | Some ((String _ _) as other) => OfUser other
    | _ =>
        if negb (String.eqb (role p) "admin") then OwnOrCompanyWide (uid u)
        else Everything
    end.

Definition listBody (req : ListRequest) (env : ListEnv) : outcome Response :=
  if negb (bearer (list_authorization req)) then
    Returns {| status := 401; payload := ErrorReply "Unauthorized" |}
  else
    match list_authResult env with
    | Throws message => Throws message
    | Returns auth =>
        match authError auth, user auth with
        | None, Some u =>
            match list_profileResult env with
            | Throws message => Throws message
            | Returns profile =>
                match profile with
                | Some p =>
                    if negb (String.eqb (profile_status p) "approved") then
                      Returns {| status := 403;
                                 payload := ErrorReply "Account not approved" |}
                    else
                      match database env (queryFor req u p) with
                      | Throws message => Throws message
                      | Returns r =>
                          match error r with
                          | Some message =>
                              Returns {| status := 500; payload := ErrorReply message |}
                          | None =>
                              Returns {| status := 200;
                                         payload := DocumentsReply (default [] (data r)) |}
                          end
                      end
                | None =>
                    Returns {| status := 403; payload := ErrorReply "Account not approved" |}
                end
            end
        | _, _ => Returns {| status := 401; payload := ErrorReply "Unauthorized" |}
        end
    end.

Definition listHandler (req : ListRequest) (env : ListEnv) : Response :=
  match listBody req env with
  | Returns response => response
  | Throws _ => {| status := 500; payload := ErrorReply "Internal server error" |}
  end.

End DocumentsAccess.

(** ** utils/validation.js: [sanitizeFilename] *)

Module Validation.
Import Js.

(** A character of the class [[a-zA-Z0-9.-]]. *)
Definition isSafeChar (c : ascii) : bool :=
  let n := nat_of_ascii c in
  ((97 <=? n) && (n <=? 122) || (65 <=? n) && (n <=? 90) || (48 <=? n) && (n <=? 57)
   || (n =? 46) || (n =? 45))%nat.

Definition underscore : ascii := "_"%char.

(** [.replace(/[^a-zA-Z0-9.-]/g, '_')] *)
Fixpoint replaceUnsafe (s : string) : string :=
  match s with
  | EmptyString => ""
  | String c rest => String (if isSafeChar c then c else underscore) (replaceUnsafe rest)
  end.

(** [.replace(/_{2,}/g, '_')]: every run of underscores becomes one. *)
Fixpoint collapseUnderscores (s : string) : string :=
  match s with
  | EmptyString => ""
  | String c rest =>
      if Ascii.eqb c underscore && startsWith rest "_" then collapseUnderscores rest
      else String c (collapseUnderscores rest)
  end.

(** The [^_+] alternative of [.replace(/^_+|_+$/g, '')] *)
Fixpoint dropLeadingUnderscores (s : string) : string :=
  match s with
  | EmptyString => ""
  | String c rest => if Ascii.eqb c underscore then dropLeadingUnderscores rest else s
  end.

(** The [_+$] alternative. *)
Fixpoint dropTrailingUnderscores (s : string) : string :=
  match s with
  | EmptyString => ""
  | String c rest =>
      match dropTrailingUnderscores rest with
      | EmptyString => if Ascii.eqb c underscore then "" else String c ""
      | kept => String c kept
      end
  end.

(** [sanitizeFilename(filename)] *)
Definition sanitizeFilename (filename : string) : string :=
  substring0 255
    (dropTrailingUnderscores
       (dropLeadingUnderscores (collapseUnderscores (replaceUnsafe filename)))).

(** A safe character or the underscore. *)
Definition isKeptChar (c : ascii) : bool := isSafeChar c || Ascii.eqb c underscore.

(** Every character of a string passes a test. *)
Fixpoint allChars (test : ascii -> bool) (s : string) : bool :=
  match s with
  | EmptyString => true
  | String c rest => test c && allChars test rest
  end.

End Validation.

(** ** More sample inputs *)

Module MoreSamples.
Import Server Samples.

(** Alice is approved and the conversation is hers. *)
Definition ownConversation : Conversations.Env :=
  {| Conversations.authResult := Returns {| user := Some alice; authError := None |};
     Conversations.profileResult := Returns (Some approvedProfile);
     Conversations.conversationResult :=
       Returns {| Conversations.conversation := Some "u1";
                  Conversations.convError := None |};
     Conversations.updateError := Returns None |}.

Definition longQuestion : Conversations.Message :=
  {| Conversations.msg_role := "user";
     Conversations.msg_content :=
       "please summarise the third quarter report for the board today" |}.

(** A chat request of Alice about one selected document. *)
Definition chatRequest : ChatRoute.Request :=
  {| ChatRoute.authorization := Some "Bearer token-of-alice";
     ChatRoute.messages :=
       [ {| ChatRoute.msg_role := "user"; ChatRoute.msg_content := attachmentQuery |} ];
     ChatRoute.documentIds := Some ["d1"] |}.

Definition chatEnv : ChatRoute.Env :=
  {| ChatRoute.authResult := Returns {| user := Some alice; authError := None |};
     ChatRoute.now := 1700000000100;
     ChatRoute.profileResult := Returns (Some approvedProfile);
     ChatRoute.db := indexOf [revenueDoc];
     ChatRoute.search := indexOf [revenueDoc] |}.

Definition bob : User := {| uid := "u2"; email := "bob@example.com" |}.

(** Three rows of [documents]: one of Alice, a private one of Bob, and a
    company-wide one of Bob. *)
Definition aliceReport : DocumentRecord :=
  {| doc_id := "doc-1"; user_id := "u1"; doc_title := "Q3 report";
     doc_content := fiftyChars; file_path := "u1/1700000000100-k3j9x.pdf";
     file_size := 2048; file_type := "application/pdf"; is_company_wide := false |}.

Definition bobNotes : DocumentRecord :=
  {| doc_id := "doc-2"; user_id := "u2"; doc_title := "Notes";
     doc_content := fiftyChars; file_path := "u2/1700000000300-a1b2c.txt";
     file_size := 10; file_type := "text/plain"; is_company_wide := false |}.

Definition handbook : DocumentRecord :=
  {| doc_id := "doc-3"; user_id := "u2"; doc_title := "Handbook";
     doc_content := fiftyChars; file_path := "u2/1700000000400-d4e5f.pdf";
     file_size := 4096; file_type := "application/pdf"; is_company_wide := true |}.

(** Alice deletes her report; the storage answers with an error, the
    table does not. *)
Definition deleteRequest : DocumentsAccess.DeleteRequest :=
  {| DocumentsAccess.delete_authorization := Some "Bearer token-of-alice";
     DocumentsAccess.delete_id := "doc-1" |}.

Definition deleteEnv : DocumentsAccess.DeleteEnv :=
  {| DocumentsAccess.delete_authResult := Returns {| user := Some alice; authError := None |};
     DocumentsAccess.delete_profileResult := Returns (Some approvedProfile);
     DocumentsAccess.delete_documentResult :=
       Returns {| DocumentsAccess.document := Some aliceReport;
                  DocumentsAccess.fetchError := None |};
     DocumentsAccess.storageError := Returns (Some "bucket unavailable");
     DocumentsAccess.dbError := Returns None |}.

(** Alice asks for the URL of the company-wide handbook. *)
Definition urlRequest : DocumentsAccess.UrlRequest :=
  {| DocumentsAccess.url_authorization := Some "Bearer token-of-alice";
     DocumentsAccess.filePath := Some "u2/1700000000400-d4e5f.pdf" |}.

Definition urlEnv : DocumentsAccess.UrlEnv :=
  {| DocumentsAccess.url_authResult := Returns {| user := Some alice; authError := None |};
     DocumentsAccess.url_profileResult := Returns (Some approvedProfile);
     DocumentsAccess.url_documentResult :=
       Returns {| DocumentsAccess.document := Some handbook;
                  DocumentsAccess.fetchError := None |};
     DocumentsAccess.signedUrl := Returns (Some "https://storage.example/signed/abc") |}.

(** A database holding the three rows, which answers a query with the
    rows it selects. *)
Definition threeRows : DocumentsAccess.query -> outcome DocumentsAccess.ListResult :=
  fun q =>
    Returns {| DocumentsAccess.data :=
                 Some (List.filter (DocumentsAccess.selects q)
                         [aliceReport; bobNotes; handbook]);
               DocumentsAccess.error := None |}.

Definition listEnv (caller : User) : DocumentsAccess.ListEnv :=
  {| DocumentsAccess.list_authResult := Returns {| user := Some caller; authError := None |};
     DocumentsAccess.list_profileResult := Returns (Some approvedProfile);
     DocumentsAccess.database := threeRows |}.

Definition listRequest (userId : option string) : DocumentsAccess.ListRequest :=
  {| DocumentsAccess.list_authorization := Some "Bearer some-token";
     DocumentsAccess.userId := userId;
     DocumentsAccess.companyWideOnly := None |}.

(** A PDF of eleven megabytes. *)
Definition largePdf : Extraction.File :=
  {| Extraction.fieldname := "file"; Extraction.originalname := "atlas.pdf";
     Extraction.mimetype := "application/pdf"; Extraction.size := 11 * 1024 * 1024;
     Extraction.path := "temp/file-1700000000500-45.pdf" |}.

(** The upload request carrying it. *)
Definition largeUploadRequest : DocumentsRoute.Request :=
  {| DocumentsRoute.authorization := Some "Bearer token-of-alice";
     DocumentsRoute.file := Some largePdf;
     DocumentsRoute.reqBody :=
       {| DocumentsRoute.title := Some "Atlas";
          DocumentsRoute.isCompanyWide := DocumentsRoute.FlagString "false" |} |}.

(** An [/extract] run in which the service throws and the storage removes
    the object afterwards. *)
Definition serviceThrows : ExtractRoute.Env :=
  {| ExtractRoute.fileName := "1700000000200-77.pdf";
     ExtractRoute.uploadAnswer :=
       Returns {| ExtractRoute.upload_path := Some "1700000000200-77.pdf";
                  ExtractRoute.upload_error := None |};
     ExtractRoute.downloadError := Returns None;
     ExtractRoute.tempFilePath := "temp/temp-1700000000201-1700000000200-77.pdf";
     ExtractRoute.removeAnswer := Returns None;
     ExtractRoute.serviceRuns := fun _ => Throws "Invalid PDF structure" |}.

(** The same run with a storage that refuses the removal. *)
Definition serviceThrowsRemoveRefused : ExtractRoute.Env :=
  {| ExtractRoute.fileName := "1700000000200-77.pdf";
     ExtractRoute.uploadAnswer :=
       Returns {| ExtractRoute.upload_path := Some "1700000000200-77.pdf";
                  ExtractRoute.upload_error := None |};
     ExtractRoute.downloadError := Returns None;
     ExtractRoute.tempFilePath := "temp/temp-1700000000201-1700000000200-77.pdf";
     ExtractRoute.removeAnswer := Returns (Some "storage unavailable");
     ExtractRoute.serviceRuns := fun _ => Throws "Invalid PDF structure" |}.

End MoreSamples.

(** ** More proof automation *)

(** Every path of the upload handler, given what [extractTextFromFile]
    returns for the file ([Htext]); the exits before the token is looked
    at are left unreduced. *)
Ltac upload_cases req f Htext :=
  unfold DocumentsRoute.handler, Server.tryCatch, DocumentsRoute.handlerBody,
    DocumentsRoute.handlerCatch;
  destruct (DocumentsRoute.file req) as [f|] eqn:Hfile; simpl in Htext;
  [ destruct (DocumentsRoute.title (DocumentsRoute.reqBody req)) as [[|c t]|] eqn:Htitle;
    [ | unfold Server.bind, Server.await, Server.isAllowed, Server.readFileSync,
          Server.putObject, Server.removeObject, Server.insertRow,
          Server.cleanupTempFile, Server.respond, Server.ret;
        rewrite Htext;
        repeat (simpl in *; case_match; simplify_eq); simpl | ]
  | ].

(** * Properties *)

Import Samples.

Section StringFacts.
Import Js.

Lemma append_cons (x : ascii) (a b : string) : String x a +:+ b = String x (a +:+ b).
Proof. reflexivity. Qed.

Lemma append_nil (b : string) : "" +:+ b = b.
Proof. reflexivity. Qed.

Lemma append_assoc (a b c : string) : (a +:+ b) +:+ c = a +:+ (b +:+ c).
Proof. induction a as [|x a IH]; [done|]. rewrite !append_cons. by f_equal. Qed.

Lemma append_empty_r (a : string) : a +:+ "" = a.
Proof. induction a as [|x a IH]; [done|]. rewrite append_cons. by f_equal. Qed.

Lemma occursIn_here (sub post : string) : occursIn sub (sub +:+ post).
Proof. exists "", post. done. Qed.

Lemma occursIn_end (sub : string) : occursIn sub sub.
Proof. exists "", "". by rewrite append_nil, append_empty_r. Qed.

Lemma occursIn_after (pre sub s : string) : occursIn sub s -> occursIn sub (pre +:+ s).
Proof.
  intros (a & b & ->). exists (pre +:+ a), b. by rewrite append_assoc.
Qed.

Lemma startsWith_append (p s : string) : startsWith (p +:+ s) p = true.
Proof.
  induction p as [|c p IH]; [by destruct s|].
  rewrite append_cons. simpl. by rewrite Ascii.eqb_refl.
Qed.

Lemma startsWith_spec (s p : string) :
  startsWith s p = true <-> exists rest, s = p +:+ rest.
Proof.
  split.
  - revert s. induction p as [|c p IH]; intros s H.
    + by exists s.
    + destruct s as [|d s]; simpl in H; [done|].
      destruct (Ascii.eqb_spec c d) as [->|]; [|done].
      destruct (IH s H) as [rest ->]. exists rest. by rewrite append_cons.
  - intros [rest ->]. apply startsWith_append.
Qed.

(** [includes] finds exactly the substrings. *)
Lemma includes_spec (s sub : string) :
  includes s sub = true <-> occursIn sub s.
Proof.
  split.
  - induction s as [|c s IH]; intros H;
      [change (startsWith "" sub || false = true) in H
      |change (startsWith (String c s) sub || includes s sub = true) in H].
    + apply orb_true_iff in H as [H|H]; [|done].
      apply startsWith_spec in H as [rest ->]. apply occursIn_here.
    + apply orb_true_iff in H as [H|H].
      * apply startsWith_spec in H as [rest ->]. apply occursIn_here.
      * destruct (IH H) as (a & b & ->). exists (String c a), b. by rewrite append_cons.
  - intros (a & b & ->). induction a as [|c a IH].
    + rewrite append_nil.
      destruct (sub +:+ b) as [|c r] eqn:E.
      * change (startsWith "" sub || false = true).
        by rewrite <- E, startsWith_append.
      * change (startsWith (String c r) sub || includes r sub = true).
        by rewrite <- E, startsWith_append.
    + rewrite append_cons.
      change (startsWith (String c (a +:+ sub +:+ b)) sub
              || includes (a +:+ sub +:+ b) sub = true).
      rewrite IH. apply orb_true_r.
Qed.

Lemma trim_empty : trim "" = "".
Proof. reflexivity. Qed.

Lemma truthy_nonempty (s : string) : truthy s = true <-> s <> "".
Proof. destruct s; simpl; split; congruence. Qed.

Lemma length_append (a b : string) :
  String.length (a +:+ b) = (String.length a + String.length b)%nat.
Proof. induction a as [|c a IH]; [done|]. rewrite append_cons. simpl. by f_equal. Qed.

Lemma substring0_short (n : nat) (s : string) :
  (String.length s <= n)%nat -> substring0 n s = s.
Proof.
  unfold substring0. revert n. induction s as [|c s IH]; intros [|n] H; simpl in *; try done; try lia.
  rewrite IH; [done | lia].
Qed.

Lemma substring0_length (n : nat) (s : string) :
  (n <= String.length s)%nat -> String.length (substring0 n s) = n.
Proof.
  unfold substring0. revert n. induction s as [|c s IH]; intros [|n] H; simpl in *; try done; try lia.
  rewrite IH; [done | lia].
Qed.

Lemma substring0_prefix (n : nat) (s : string) :
  exists rest, s = substring0 n s +:+ rest.
Proof.
  unfold substring0. revert n. induction s as [|c s IH]; intros [|n]; simpl.
  - by exists "".
  - by exists "".
  - by exists (String c s).
  - destruct (IH n) as [rest Hrest]. exists rest. rewrite append_cons. by rewrite <- Hrest.
Qed.

End StringFacts.

Section RateLimiterFacts.
Import RateLimiter.
Local Open Scope Z_scope.
Variables (key : string) (N W : Z).

Lemma geb_negb_ltb (a b : Z) : (a >=? b) = negb (a <? b).
Proof. rewrite Z.geb_leb. destruct (Z.ltb_spec a b), (Z.leb_spec b a); simpl; auto; lia. Qed.

Lemma isAllowed_result now (s : gmap string (list Z)) :
  (isAllowed key N W now s).1 =
  (Z.of_nat (length (filter (fun t => now - W < t) (recorded key s))) <? N).
Proof.
  unfold isAllowed, recorded.
  destruct (s !! key) as [l|] eqn:E; simpl.
  - rewrite E. simpl. rewrite geb_negb_ltb. by destruct (_ <? N).
  - rewrite lookup_insert_eq. simpl. rewrite filter_nil. simpl.
    rewrite geb_negb_ltb. by destruct (_ <? N).
Qed.

Lemma isAllowed_recorded now (s : gmap string (list Z)) :
  recorded key (isAllowed key N W now s).2 =
  filter (fun t => now - W < t) (recorded key s)
  ++ (if (isAllowed key N W now s).1 then [now] else []).
Proof.
  unfold isAllowed, recorded.
  destruct (s !! key) as [l|] eqn:E; simpl.
  - rewrite E. simpl.
    destruct (Z.of_nat (length (filter (λ t, now - W < t) l)) >=? N); simpl.
    + rewrite lookup_insert_eq. simpl. by rewrite ?app_nil_r.
    + rewrite lookup_insert_eq. simpl. by rewrite ?app_nil_r.
  - rewrite !lookup_insert_eq. simpl. rewrite filter_nil. simpl.
    destruct (_ >=? N); simpl; rewrite ?lookup_insert_eq; done.
Qed.

Lemma isAllowed_other now (s : gmap string (list Z)) (k : string) :
  k ≠ key -> recorded k (isAllowed key N W now s).2 = recorded k s.
Proof.
  intros Hk. unfold isAllowed, recorded.
  destruct (s !! key) as [l|] eqn:E; simpl;
    repeat (destruct (_ >=? _); simpl); rewrite ?lookup_insert_ne; auto.
Qed.

Lemma filter_keep_all (P : Z -> Prop) `{forall x, Decision (P x)} (l : list Z) :
  Forall P l -> filter P l = l.
Proof.
  induction 1 as [|a l Ha _ IH]; [done|].
  rewrite filter_cons_True; [|done]. by rewrite IH.
Qed.

Lemma filter_drop_all (P : Z -> Prop) `{forall x, Decision (P x)} (l : list Z) :
  Forall (fun a => ~ P a) l -> filter P l = [].
Proof.
  induction 1 as [|a l Ha _ IH]; [done|].
  rewrite filter_cons_False; done.
Qed.

Lemma filter_length_mono (P Q : Z -> Prop) `{forall x, Decision (P x)}
    `{forall x, Decision (Q x)} (l : list Z) :
  (forall a, P a -> Q a) ->
  (length (filter P l) <= length (filter Q l))%nat.
Proof.
  intros HPQ. induction l as [|a l IH]; [done|].
  destruct (decide (P a)) as [HP|HP].
  - rewrite (filter_cons_True P) by done.
    rewrite (filter_cons_True Q) by auto. simpl. lia.
  - rewrite (filter_cons_False P) by done.
    destruct (decide (Q a)).
    + rewrite (filter_cons_True Q) by done. simpl. lia.
    + rewrite (filter_cons_False Q) by done. done.
Qed.

Lemma run_cons t ts (s : gmap string (list Z)) :
  run key N W (t :: ts) s =
  ((isAllowed key N W t s).1 :: (run key N W ts (isAllowed key N W t s).2).1,
   (run key N W ts (isAllowed key N W t s).2).2).
Proof.
  simpl. destruct (isAllowed key N W t s) as [b r1]. simpl.
  by destruct (run key N W ts r1).
Qed.

Lemma run_app ts us (s : gmap string (list Z)) :
  run key N W (ts ++ us) s =
  ((run key N W ts s).1 ++ (run key N W us (run key N W ts s).2).1,
   (run key N W us (run key N W ts s).2).2).
Proof.
  revert s. induction ts as [|t ts IH]; intros s.
  - simpl. by destruct (run key N W us s).
  - rewrite <- app_comm_cons. rewrite !run_cons. rewrite IH. done.
Qed.

Lemma run_length ts (s : gmap string (list Z)) :
  length (run key N W ts s).1 = length ts.
Proof.
  revert s. induction ts as [|t ts IH]; intros s; [done|].
  rewrite run_cons. simpl. by rewrite IH.
Qed.

Lemma admitted_app ts bs us cs :
  length ts = length bs ->
  admitted (ts ++ us) (bs ++ cs) = admitted ts bs ++ admitted us cs.
Proof.
  revert bs. induction ts as [|t ts IH]; intros [|b bs] Hlen; try done.
  simpl in *. destruct b; simpl; rewrite IH; auto.
Qed.

(** Calls that all see each other and the recorded admissions inside
    their windows, with room left under the limit, are all admitted. *)
Lemma run_all_admitted ts : forall s : gmap string (list Z),
  (forall a t, a ∈ recorded key s ++ ts -> t ∈ ts -> t - W < a) ->
  Z.of_nat (length (recorded key s)) + Z.of_nat (length ts) <= N ->
  (run key N W ts s).1 = replicate (length ts) true /\
  recorded key (run key N W ts s).2 = recorded key s ++ ts.
Proof.
  induction ts as [|t ts IH]; intros s Hwin Hroom.
  - simpl. by rewrite app_nil_r.
  - rewrite run_cons. simpl.
    assert (Hkeep : filter (fun a => t - W < a) (recorded key s) = recorded key s).
    { apply filter_keep_all, Forall_forall. intros a Ha.
      apply Hwin; [apply elem_of_app; by left | by left]. }
    assert (Hb : (isAllowed key N W t s).1 = true).
    { rewrite isAllowed_result, Hkeep. apply Z.ltb_lt.
      rewrite length_cons in Hroom. lia. }
    assert (Hrec : recorded key (isAllowed key N W t s).2 = recorded key s ++ [t]).
    { by rewrite isAllowed_recorded, Hkeep, Hb. }
    destruct (IH (isAllowed key N W t s).2) as [Hres Hfin].
    + rewrite Hrec. intros a u Ha Hu. apply Hwin; [|by right].
      rewrite <- app_assoc in Ha. done.
    + rewrite Hrec, length_app. simpl in *. lia.
    + rewrite Hb, Hres, Hfin, Hrec, <- app_assoc. done.
Qed.

Lemma run_snoc ts x (s : gmap string (list Z)) :
  run key N W (ts ++ [x]) s =
  ((run key N W ts s).1 ++ [(isAllowed key N W x (run key N W ts s).2).1],
   (isAllowed key N W x (run key N W ts s).2).2).
Proof. rewrite run_app. simpl. by destruct (isAllowed key N W x _). Qed.

Lemma admitted_snoc ts bs x b :
  length ts = length bs ->
  admitted (ts ++ [x]) (bs ++ [b]) = admitted ts bs ++ (if b then [x] else []).
Proof. intros Hlen. rewrite admitted_app by done. by destruct b. Qed.

(** Along a run from the empty map with a clock that never goes back:
    what a later call finds valid under the key is what it would find in
    the list of all admissions; and no trailing window ever holds more
    admissions than the limit. *)
Lemma run_invariant ts :
  StronglySorted Z.le ts ->
  (forall now, Forall (fun t => t <= now) ts ->
     filter (fun a => now - W < a) (recorded key (run key N W ts initial).2) =
     filter (fun a => now - W < a) (admitted ts (run key N W ts initial).1)) /\
  (forall t,
     Z.of_nat (length (inWindow W t (admitted ts (run key N W ts initial).1)))
     <= Z.max 0 N).
Proof.
  induction ts as [|x ts IH] using rev_ind; intros Hsorted.
  - split; [done|]. intros t. simpl. unfold inWindow. rewrite ?filter_nil. simpl. lia.
  - apply StronglySorted_app in Hsorted as (Hle & Hts & _).
    destruct (IH Hts) as [I1 I2]. clear IH.
    assert (Hx : Forall (fun t => t <= x) ts).
    { apply Forall_forall. intros a Ha. apply Hle; [done | by left]. }
    rewrite run_snoc. simpl.
    set (r := run key N W ts initial) in *.
    set (A := admitted ts r.1) in *.
    rewrite admitted_snoc by (symmetry; apply run_length).
    fold A.
    pose proof (isAllowed_result x r.2) as Hb.
    pose proof (isAllowed_recorded x r.2) as Hrec.
    rewrite (I1 x Hx) in Hb, Hrec.
    set (b := (isAllowed key N W x r.2).1) in *.
    split.
    + intros now Hnow. apply Forall_app in Hnow as [Hnow Hxnow].
      rewrite Forall_singleton in Hxnow.
      rewrite Hrec, !filter_app. f_equal.
      rewrite list_filter_filter_l by (intros; lia). done.
    + intros t. unfold inWindow. rewrite filter_app, length_app.
      destruct b eqn:Eb.
      * symmetry in Hb. apply Z.ltb_lt in Hb.
        destruct (decide (x <= t)) as [Hxt|Hxt].
        -- pose proof (filter_length_mono (fun a => t - W < a /\ a <= t)
                         (fun a => x - W < a) A) as Hmono.
           assert ((length (filter (fun a => (t - W < a /\ a <= t)%Z) [x]) <= 1)%nat)
             by apply (length_filter _ [x]).
           specialize (Hmono ltac:(simpl; intros; lia)). lia.
        -- rewrite (filter_drop_all _ [x]).
           ++ specialize (I2 t). unfold inWindow in I2. simpl. lia.
           ++ apply Forall_singleton. lia.
      * rewrite filter_nil. specialize (I2 t). unfold inWindow in I2. simpl. lia.
Qed.

(** C3.  The sliding window of [isAllowed] for one key with fixed
    [maxRequests = N] and [windowMs = W].  (a) Along any sequence of calls
    from the empty map, made at non-decreasing clock values, no trailing
    interval of [W] milliseconds holds more than [N] admitted calls.
    (b) Starting when no recorded admission is within [W] any more, [N]
    calls made between [t1] and [tr], where [tr] is less than [W] after
    [t1], are all admitted; the next call at [tr], with these [N]
    admissions still within [W], is rejected; and a later call at [tl], by
    which time all of them are [W] or more in the past, is admitted.  As
    in the code ([time > now - windowMs]) the interval is open at its old
    end: an admission exactly [W] in the past no longer counts. *)
Theorem isAllowed_sliding_window :
  (forall (ts : list Z) (t : Z),
     Sorted Z.le ts ->
     Z.of_nat (length (inWindow W t (admitted ts (run key N W ts initial).1)))
     <= Z.max 0 N) /\
  (forall (s : gmap string (list Z)) (t1 : Z) (ts : list Z) (tr tl : Z),
     Forall (fun a => a + W <= t1) (recorded key s) ->
     Z.of_nat (length (t1 :: ts)) = N ->
     Forall (fun t => t1 <= t <= tr) ts ->
     t1 <= tr -> tr - W < t1 ->
     Forall (fun a => a + W <= tl) (t1 :: ts) ->
     let first := run key N W (t1 :: ts) s in
     let next := isAllowed key N W tr first.2 in
     let later := isAllowed key N W tl next.2 in
     first.1 = replicate (length (t1 :: ts)) true /\
     next.1 = false /\
     later.1 = true).
Proof.
  split.
  - intros ts t Hsorted. apply run_invariant.
    apply Sorted_StronglySorted; [|done]. intros a b c. apply Z.le_trans.
  - intros s t1 ts tr tl Hold Hlen Hrange Htr Hwin Hlate first next later.
    assert (Hnone : filter (fun a => t1 - W < a) (recorded key s) = []).
    { apply filter_drop_all. eapply Forall_impl; [exact Hold|]. simpl. intros; lia. }
    assert (Hb1 : (isAllowed key N W t1 s).1 = true).
    { rewrite isAllowed_result, Hnone. apply Z.ltb_lt. simpl in *. lia. }
    assert (Hrec1 : recorded key (isAllowed key N W t1 s).2 = [t1]).
    { by rewrite isAllowed_recorded, Hnone, Hb1. }
    rewrite Forall_forall in Hrange.
    destruct (run_all_admitted ts (isAllowed key N W t1 s).2) as [Hres Hfin].
    { rewrite Hrec1. intros a t Ha Ht. pose proof (Hrange t Ht).
      apply elem_of_cons in Ha as [->|Ha]; [lia|].
      pose proof (Hrange a Ha). lia. }
    { rewrite Hrec1. simpl in *. lia. }
    rewrite Hrec1 in Hfin.
    assert (Hfirst1 : first.1 = replicate (length (t1 :: ts)) true).
    { unfold first. rewrite run_cons. simpl. by rewrite Hb1, Hres. }
    assert (Hfirst2 : recorded key first.2 = t1 :: ts).
    { unfold first. rewrite run_cons. simpl. by rewrite Hfin. }
    assert (Hall : filter (fun a => tr - W < a) (t1 :: ts) = t1 :: ts).
    { apply filter_keep_all, Forall_forall. intros a Ha.
      apply elem_of_cons in Ha as [->|Ha]; [lia|].
      pose proof (Hrange a Ha). lia. }
    assert (Hnext1 : next.1 = false).
    { unfold next. rewrite isAllowed_result, Hfirst2, Hall. apply Z.ltb_ge. lia. }
    assert (Hnext2 : recorded key next.2 = t1 :: ts).
    { unfold next. rewrite isAllowed_recorded. fold next.
      by rewrite Hnext1, Hfirst2, Hall, app_nil_r. }
    split; [done|]. split; [done|].
    unfold later. rewrite isAllowed_result, Hnext2.
    rewrite filter_drop_all.
    + apply Z.ltb_lt. simpl in *. lia.
    + eapply Forall_impl; [exact Hlate|]. simpl. intros; lia.
Qed.

End RateLimiterFacts.

(** A limit of two per ten milliseconds: calls at 0 and 5 pass, a call at
    7 is rejected, a call at 15 passes again; and of the calls at 0, 5, 7
    and 15 at most two admitted ones lie in the ten milliseconds up to 7. *)
Lemma isAllowed_sliding_window_witness :
  (let s := RateLimiter.initial in
   let first := RateLimiter.run "chat:u1" 2 10 [0; 5]%Z s in
   let next := RateLimiter.isAllowed "chat:u1" 2 10 7 first.2 in
   let later := RateLimiter.isAllowed "chat:u1" 2 10 15 next.2 in
   first.1 = [true; true] /\ next.1 = false /\ later.1 = true) /\
  (Z.of_nat
     (length
        (RateLimiter.inWindow 10 7
           (RateLimiter.admitted [0; 5; 7; 15]%Z
              (RateLimiter.run "chat:u1" 2 10 [0; 5; 7; 15]%Z RateLimiter.initial).1)))
   <= Z.max 0 2)%Z.
Proof.
  split.
  - apply (proj2 (isAllowed_sliding_window "chat:u1" 2 10)
             RateLimiter.initial 0 [5] 7 15)%Z.
    + unfold RateLimiter.recorded, RateLimiter.initial. rewrite lookup_empty. constructor.
    + reflexivity.
    + repeat constructor; lia.
    + lia.
    + lia.
    + repeat constructor; lia.
  - apply (proj1 (isAllowed_sliding_window "chat:u1" 2 10) [0; 5; 7; 15] 7)%Z.
    repeat constructor; lia.
Defined.

Section ExtractionFacts.
Import Js Extraction.

(** [Math.round(size / 1024)] is the integer nearest to the quotient,
    halves going up. *)
Lemma roundDiv_nearest (a : Z) :
  (1024 * roundDiv a 1024 - 512 <= a < 1024 * roundDiv a 1024 + 512)%Z.
Proof.
  unfold roundDiv.
  pose proof (Z.mul_div_le (2 * a + 1024) (2 * 1024) ltac:(lia)).
  pose proof (Z.mul_succ_div_gt (2 * a + 1024) (2 * 1024) ltac:(lia)).
  lia.
Qed.

(** Both synthesized texts carry a line with the original file name and a
    line with the size in kilobytes. *)
Lemma fallbackTooShort_reads (file : File) (date : string) :
  occursIn ("- Original Name: " +:+ originalname file +:+ nl)
    (fallbackTooShort file date) /\
  occursIn ("- Size: " +:+ NilZero.string_of_int (Z.to_int (roundDiv (size file) 1024))
            +:+ " KB" +:+ nl)
    (fallbackTooShort file date).
Proof.
  unfold fallbackTooShort, sizeInKB, numberToString.
  split;
    repeat first [ solve [eexists "", _; rewrite ?append_assoc; reflexivity]
                 | apply occursIn_after ].
Qed.

Lemma fallbackError_reads (file : File) (date message : string) :
  occursIn ("- Original Name: " +:+ originalname file +:+ nl)
    (fallbackError file date message) /\
  occursIn ("- Size: " +:+ NilZero.string_of_int (Z.to_int (roundDiv (size file) 1024))
            +:+ " KB" +:+ nl)
    (fallbackError file date message) /\
  occursIn ("Error during text extraction: " +:+ message +:+ nl)
    (fallbackError file date message).
Proof.
  unfold fallbackError, sizeInKB, numberToString.
  repeat split;
    repeat first [ solve [eexists "", _; rewrite ?append_assoc; reflexivity]
                 | apply occursIn_after ].
Qed.

Lemma trim_length_truthy (s : string) : (0 < len (trim s))%Z -> truthy s = true.
Proof. destruct s; [|done]. rewrite trim_empty. unfold len. simpl. lia. Qed.

(** The [catch] clause turns every throw into a returned text. *)
Lemma extractTextFromFile_returns (file : File) (run : extractors) (date : string) :
  exists text, extractTextFromFile file run date = Returns text.
Proof. unfold extractTextFromFile. destruct (tryBlock file run date); eauto. Qed.

(** C4.  When the extractor chosen for the file's MIME type returns
    [raw]: with at least 50 characters left after trimming,
    [extractTextFromFile] returns [raw] itself; with fewer (49, or none at
    all) it returns the synthesized too-short text instead, which has a
    line with the original file name and a line with the file size in
    kilobytes, [kb] being the size divided by 1024 and rounded to the
    nearest integer. *)
Theorem extractTextFromFile_threshold (file : File) (run : extractors)
    (date : string) (e : extractor) (raw : string) :
  branchFor (mimetype file) = Some e ->
  run e = Returns raw ->
  ((50 <= len (trim raw))%Z ->
     extractTextFromFile file run date = Returns raw) /\
  ((len (trim raw) < 50)%Z ->
     exists (text : string) (kb : Z),
       extractTextFromFile file run date = Returns text /\
       text = fallbackTooShort file date /\
       occursIn ("- Original Name: " +:+ originalname file +:+ nl) text /\
       (1024 * kb - 512 <= size file < 1024 * kb + 512)%Z /\
       occursIn ("- Size: " +:+ NilZero.string_of_int (Z.to_int kb) +:+ " KB" +:+ nl)
         text).
Proof.
  intros Hbranch Hrun. unfold extractTextFromFile, tryBlock.
  rewrite Hbranch, Hrun. split; intros Hlen.
  - rewrite trim_length_truthy by lia. simpl.
    destruct (Z.ltb_spec (len (trim raw)) 50); [lia | done].
  - exists (fallbackTooShort file date), (roundDiv (size file) 1024).
    destruct (fallbackTooShort_reads file date) as [Hname Hsize].
    split; [|split; [done|split; [done|split; [apply roundDiv_nearest|done]]]].
    destruct (truthy raw); simpl; [|done].
    destruct (Z.ltb_spec (len (trim raw)) 50); [done | lia].
Qed.

(** C5.  [extractTextFromFile] returns a text on every input, and when the
    extractor chosen for the file throws, that text is the synthesized one
    of the [catch] clause, which has a line with the original file name, a
    line with the file size in kilobytes (rounded to the nearest integer)
    and a line with the message of the error. *)
Theorem extractTextFromFile_never_throws (file : File) (run : extractors)
    (date : string) :
  (exists text, extractTextFromFile file run date = Returns text) /\
  (forall (e : extractor) (message : string),
     branchFor (mimetype file) = Some e ->
     run e = Throws message ->
     exists (text : string) (kb : Z),
       extractTextFromFile file run date = Returns text /\
       text = fallbackError file date message /\
       occursIn ("- Original Name: " +:+ originalname file +:+ nl) text /\
       (1024 * kb - 512 <= size file < 1024 * kb + 512)%Z /\
       occursIn ("- Size: " +:+ NilZero.string_of_int (Z.to_int kb) +:+ " KB" +:+ nl)
         text /\
       occursIn ("Error during text extraction: " +:+ message +:+ nl) text).
Proof.
  split.
  - apply extractTextFromFile_returns.
  - intros e message Hbranch Hrun.
    exists (fallbackError file date message), (roundDiv (size file) 1024).
    destruct (fallbackError_reads file date message) as (Hname & Hsize & Hmessage).
    split; [|split; [done|split; [done|split; [apply roundDiv_nearest|done]]]].
    unfold extractTextFromFile, tryBlock. by rewrite Hbranch, Hrun.
Qed.

(** A MIME type that takes none of the branches gets the too-short text. *)
Lemma extractTextFromFile_no_branch (file : File) (run : extractors) (date : string) :
  branchFor (mimetype file) = None ->
  extractTextFromFile file run date = Returns (fallbackTooShort file date).
Proof.
  intros Hbranch. unfold extractTextFromFile, tryBlock. by rewrite Hbranch.
Qed.

End ExtractionFacts.


Section OcrFacts.
Import Js Ocr.

(** C8.  For a recognition result with a word list: the post-filter keeps
    exactly the words whose confidence is at least 30, joined by single
    spaces in their order; [extractText] returns that text when it is not
    empty, and the unfiltered recognized text when it is. *)
Theorem extractText_confidence_filter (data : Recognition) (ws : list Word)
    (language : string) (startTime endTime : Z) :
  words data = Some ws ->
  let kept := List.filter (fun w => Qle_bool defaultMinConfidence (word_confidence w)) ws in
  let filtered := join " " (map word_text kept) in
  (forall w, In w kept <-> In w ws /\ (30 # 1 <= word_confidence w)%Q) /\
  exists r,
    extractText (Returns data) language startTime endTime = Returns r /\
    (filtered <> "" ->
       filterLowConfidenceText data defaultMinConfidence = filtered /\
       result_text r = filtered) /\
    (filtered = "" ->
       filterLowConfidenceText data defaultMinConfidence = text data /\
       result_text r = text data).
Proof.
  intros Hws kept filtered. split.
  - intros w. unfold kept. rewrite filter_In, Qle_bool_iff. done.
  - eexists. split; [reflexivity|]. simpl.
    unfold filterLowConfidenceText. rewrite Hws.
    fold (filteredWords ws defaultMinConfidence).
    change (filteredWords ws defaultMinConfidence) with filtered.
    split.
    + intros Hne. apply truthy_nonempty in Hne. by rewrite !Hne.
    + intros ->. simpl. split; [done|].
      destruct (text data) eqn:E; [|done]. reflexivity.
Qed.

End OcrFacts.

Section ChatFacts.
Import Js Chat.

Lemma matchesQuery_spec (query : string) (doc : Document) :
  matchesQuery query doc = true <->
  exists c, content doc = Some c /\ c <> "" /\
            occursIn (toLowerCase query) (toLowerCase c).
Proof.
  unfold matchesQuery. destruct (content doc) as [c|].
  - rewrite andb_true_iff, truthy_nonempty, includes_spec. split.
    + intros [? ?]. eauto.
    + intros (c' & [= <-] & ? & ?). done.
  - split; [done|]. intros (c & ? & _). done.
Qed.

(** C10.  When the index answers with a list of documents,
    [searchDocuments] with the limit 8 returns one entry for each of the
    first 8 documents, in the order fetched, among those whose non-empty
    content contains the query regardless of letter case; the entry
    carries the document's id, title and content and the score 0.8; the
    matching documents after the eighth are left out. *)
Theorem searchDocuments_limit (db : index) (query : string) (documentIds : list string)
    (r : QueryResult) (documents : list Document) :
  db documentIds = Returns r ->
  data r = Some documents ->
  let matching := List.filter (matchesQuery query) documents in
  (forall doc, In doc matching <->
     In doc documents /\
     exists c, content doc = Some c /\ c <> "" /\
               occursIn (toLowerCase query) (toLowerCase c)) /\
  toLowerCase "ABCDEFGHIJKLMNOPQRSTUVWXYZ abcxyz 0189" = "abcdefghijklmnopqrstuvwxyz abcxyz 0189" /\
  exists chunks,
    searchDocuments db query documentIds defaultLimit = Returns chunks /\
    Forall2 (fun chunk doc =>
               document_id chunk = id doc /\
               document_title chunk = title doc /\
               content doc = Some (chunk_content chunk) /\
               chunk_similarity chunk = (8 # 10)%Q)
      chunks (firstn 8 matching) /\
    length chunks = Nat.min 8 (length matching) /\
    (length chunks <= 8)%nat.
Proof.
  intros Hdb Hdata matching. split; [|split; [reflexivity|]].
  - intros doc. unfold matching. by rewrite filter_In, matchesQuery_spec.
  - exists (map toChunk (firstn 8 matching)).
    unfold searchDocuments. rewrite Hdb, Hdata.
    split; [done|]. rewrite length_map, length_firstn.
    split; [|split; [done|lia]].
    assert (Hall : Forall (fun doc => matchesQuery query doc = true) (firstn 8 matching)).
    { apply Forall_take, Forall_forall. intros doc Hin. apply list_elem_of_In in Hin.
      by apply filter_In in Hin as [_ ?]. }
    induction Hall as [|doc docs Hdoc _ IH]; [constructor|].
    simpl. constructor; [|exact IH].
    apply matchesQuery_spec in Hdoc as (c & Hc & _).
    unfold toChunk. simpl. by rewrite Hc.
Qed.

End ChatFacts.

Section ContextFacts.
Import Js Chat.

Lemma filter_none {A} (f : A -> bool) (l : list A) :
  Forall (fun x => f x = false) l -> List.filter f l = [].
Proof.
  induction 1 as [|x l Hx _ IH]; [done|]. simpl. by rewrite Hx.
Qed.

Lemma truthy_append (a b : string) : truthy a = true -> truthy (a +:+ b) = true.
Proof. by destruct a. Qed.

Lemma join_truthy (sep x : string) (xs : list string) :
  truthy x = true -> truthy (join sep (x :: xs)) = true.
Proof.
  intros Hx. destruct xs as [|y ys]; [done|].
  change (truthy (x +:+ sep +:+ join sep (y :: ys)) = true).
  by apply truthy_append.
Qed.

Lemma contextOf_truthy (documents : list Document) :
  documents <> [] -> truthy (contextOf documents) = true.
Proof.
  intros Hne. unfold contextOf.
  destruct (List.filter sufficientContent documents) as [|d ds].
  - destruct documents as [|d ds]; [done|]. simpl map. by apply join_truthy.
  - simpl map. by apply join_truthy.
Qed.

(** The excerpt is the body itself up to 300 characters, and its first
    300 characters followed by three dots beyond. *)
Lemma excerptOf_spec (c : string) :
  ((String.length c <= 300)%nat -> excerptOf c = c) /\
  ((300 < String.length c)%nat ->
     excerptOf c = substring0 300 c +:+ "..." /\
     String.length (substring0 300 c) = 300%nat /\
     exists rest, c = substring0 300 c +:+ rest).
Proof.
  unfold excerptOf, len. split; intros Hlen.
  - destruct (Z.ltb_spec 300 (Z.of_nat (String.length c))); [lia|].
    by rewrite substring0_short, append_empty_r.
  - destruct (Z.ltb_spec 300 (Z.of_nat (String.length c))); [|lia].
    split; [done|]. split; [apply substring0_length; lia | apply substring0_prefix].
Qed.

(** C7 (amended).  For a query that mentions an attachment keyword and a
    non-empty list of fetched documents, when the search that follows
    finds no document whose body contains the query regardless of case
    (its own query to the index answers with no such document, or
    throws): the sources are the fetched documents with a non-empty body,
    in order, each with one fixed score above the 0.8 of a match (0.95
    when the search answered, 0.9 when it threw) and its body cut to 300
    characters, three dots added iff it is longer; and the context string
    starts with the attachment sentence. *)
Theorem assembleContext_no_match (db search : index) (userQuery : string)
    (documentIds : list string) (r : QueryResult) (documents : list Document) :
  mentionsAttachment userQuery = true ->
  documentIds <> [] ->
  db documentIds = Returns r ->
  error r = None ->
  data r = Some documents ->
  documents <> [] ->
  match search documentIds with
  | Throws _ => True
  | Returns found =>
      forall doc c, In doc (default [] (data found)) -> content doc = Some c ->
        ~ occursIn (toLowerCase userQuery) (toLowerCase c)
  end ->
  let result := assembleContext db search userQuery (Some documentIds) in
  exists score : Q,
    score = match search documentIds with
            | Returns _ => (95 # 100)%Q
            | Throws _ => (9 # 10)%Q
            end /\
    ((8 # 10) < score)%Q /\
    result.2 = map (fun doc => {| documentId := id doc; documentTitle := title doc;
                                  similarity := score;
                                  excerpt := excerptOf (default "" (content doc)) |})
                 (List.filter hasContent documents) /\
    (forall doc c, In doc documents -> content doc = Some c -> c <> "" ->
       In {| documentId := id doc; documentTitle := title doc;
             similarity := score; excerpt := excerptOf c |} result.2) /\
    (forall c,
       ((String.length c <= 300)%nat -> excerptOf c = c) /\
       ((300 < String.length c)%nat -> excerptOf c = substring0 300 c +:+ "...")) /\
    result.1 =
      "The user has mentioned attachments or documents. Here is the relevant content from their uploaded documents:"
      +:+ nl +:+ nl +:+ contextOf documents /\
    contextOf documents <> "".
Proof.
  intros Hq Hids Hdb Herr Hdata Hdocs Habsent result.
  set (score := match search documentIds with
                | Returns _ => (95 # 100)%Q
                | Throws _ => (9 # 10)%Q
                end).
  assert (Hsources : attribution search userQuery documentIds documents
                     = fallbackSources score documents).
  { unfold attribution, searchDocuments, score.
    destruct (search documentIds) as [found|message]; [|done].
    destruct (data found) as [docs|]; [|done]. simpl in Habsent.
    assert (Hnone : Forall (fun doc => matchesQuery userQuery doc = false) docs).
    { apply Forall_forall. intros doc Hin. apply list_elem_of_In in Hin.
      destruct (matchesQuery userQuery doc) eqn:E; [|done].
      apply matchesQuery_spec in E as (c & Hc & _ & Hocc).
      by destruct (Habsent doc c Hin Hc). }
    by rewrite (filter_none _ _ Hnone). }
  assert (Hres : result = (attachmentPreamble +:+ contextOf documents,
                           fallbackSources score documents)).
  { unfold result, assembleContext, documentContext.
    destruct documentIds as [|i ids]; [done|].
    cbv beta iota. rewrite Hdb, Herr, Hdata. destruct documents as [|d ds]; [done|].
    cbv beta iota. rewrite Hsources.
    rewrite Hq, contextOf_truthy by done. done. }
  exists score. rewrite Hres. simpl.
  split; [done|]. split; [|split; [done|split; [|split; [|split]]]].
  - unfold score. by destruct (search documentIds).
  - intros doc c Hin Hc Hne. unfold fallbackSources.
    apply in_map_iff. exists doc. split.
    + unfold documentSource. by rewrite Hc.
    + apply filter_In. split; [done|]. unfold hasContent. rewrite Hc.
      by apply truthy_nonempty.
  - intros c. destruct (excerptOf_spec c) as [H1 H2]. split; [done|].
    intros H. by apply H2.
  - unfold attachmentPreamble. by rewrite !append_assoc.
  - apply truthy_nonempty. by apply contextOf_truthy.
Qed.

End ContextFacts.

Section TitleFacts.
Import Js Server Conversations.

(** C9.  A request with a conversation id and at least one message, from
    a caller whose token resolves to a user with an approved profile, for
    a conversation that exists and belongs to another user, is answered
    404 [Conversation not found], hence not 403, and the answer is the
    very one given when the conversation does not exist.  The later
    version of the route, which leaves the test of the body to the schema,
    answers a body the schema accepts with 404 in both cases as well. *)
Theorem generate_title_foreign_conversation (req : Request) (env : Env)
    (c : ascii) (cid : string) (m : Message) (ms : list Message)
    (u : User) (profile : Profile) (owner : string) (validated : Validated) :
  conversationId req = Some (String c cid) ->
  messages req = Some (m :: ms) ->
  bearer (authorization req) = true ->
  authResult env = Returns {| user := Some u; authError := None |} ->
  profileResult env = Returns (Some profile) ->
  profile_status profile = "approved" ->
  conversationResult env = Returns {| conversation := Some owner; convError := None |} ->
  owner <> uid u ->
  let missing (answer : ConversationResult) :=
    {| authResult := authResult env; profileResult := profileResult env;
       conversationResult := Returns answer; updateError := updateError env |} in
  handler req env = {| status := 404; payload := ErrorReply "Conversation not found" |} /\
  status (handler req env) <> 403%Z /\
  laterRoute (authorization req) (Some validated) env = Returns 404%Z /\
  (forall answer : ConversationResult,
     conversation answer = None ->
     handler req (missing answer) = handler req env /\
     laterRoute (authorization req) (Some validated) (missing answer)
     = laterRoute (authorization req) (Some validated) env).
Proof.
  intros Hid Hmsgs Hbearer Hauth Hprofile Happroved Hconv Hother missing.
  assert (H : handler req env =
              {| status := 404; payload := ErrorReply "Conversation not found" |}).
  { unfold handler, handlerBody.
    rewrite Hid, Hmsgs, Hbearer, Hauth, Hprofile, Hconv. simpl.
    unfold approved. rewrite Happroved. simpl.
    destruct (String.eqb_spec owner (uid u)); [done|]. done. }
  assert (H' : laterRoute (authorization req) (Some validated) env = Returns 404%Z).
  { unfold laterRoute. rewrite Hbearer, Hauth, Hprofile, Hconv. simpl.
    unfold approved. rewrite Happroved. simpl.
    destruct (String.eqb_spec owner (uid u)); [done|]. done. }
  rewrite H, H'. split; [done|]. split; [done|]. split; [done|].
  intros answer Hnone. split.
  - unfold handler, handlerBody, missing. simpl.
    rewrite Hid, Hmsgs, Hbearer, Hauth, Hprofile, Hnone. simpl.
    unfold approved. rewrite Happroved. simpl. by destruct (convError answer).
  - unfold laterRoute, missing. simpl.
    rewrite Hbearer, Hauth, Hprofile, Hnone. simpl.
    unfold approved. rewrite Happroved. simpl. by destruct (convError answer).
Qed.

End TitleFacts.

Section UploadFacts.
Import Js Server Extraction DocumentsRoute.

(** C1 (where the rollback holds and where it is missed).  An upload that
    reaches the storage bucket (file and title present, bearer token
    resolved to a user, limiter and profile passed, scratch file readable)
    and whose object upload succeeds:
    - when the insert answers with an error and the storage carries out
      the removal, the handler stores the object, removes it again,
      unlinks the scratch file and then sends the 500 with the insert's
      message; the existence check on the key is negative afterwards;
    - when the insert answers with an error and the storage answers the
      removal with an error, or the removal throws, the handler goes on to
      its 500 all the same and the object is still there;
    - when the insert call itself throws, the [catch] clause unlinks the
      scratch file and sends its 500 without asking for any removal, and
      the object is still there.
    In each case no row has been added. *)
Theorem upload_rollback_missed (req : Request) (env : Env) (w : World) (f : File)
    (c : ascii) (t : string) (u : User) (profile : Profile) :
  file req = Some f ->
  title (reqBody req) = Some (String c t) ->
  bearer (authorization req) = true ->
  authResult env = Returns {| user := Some u; authError := None |} ->
  (RateLimiter.isAllowed (rateLimitKey u) RateLimiter.UPLOAD_maxRequests
     RateLimiter.UPLOAD_windowMs (now env) (limiter w)).1 = true ->
  profileResult env = Returns (Some profile) ->
  profile_status profile = "approved" ->
  path f ∈ scratch w ->
  path f <> "" ->
  uploadError env = Returns None ->
  let key := uid u +:+ "/" +:+ storageName env in
  let w' := (handler req env w).2 in
  (handler req env w).1 = Returns tt /\
  (path f ∉ scratch w') /\
  (forall message,
     insertResult env = Returns (inr message) -> removeResult env = Returns None ->
     log w' = log w ++ [Put key; Removed key; Unlinked (path f);
                        Sent {| status := 500; payload := ErrorBody message |}] /\
     table w' = table w /\
     objectExists key w' = false /\
     bucket w' ⊆ bucket w) /\
  (forall message refusal,
     insertResult env = Returns (inr message) ->
     removeResult env = Returns (Some refusal) ->
     log w' = log w ++ [Put key; Removed key; Unlinked (path f);
                        Sent {| status := 500; payload := ErrorBody message |}] /\
     table w' = table w /\
     objectExists key w' = true) /\
  (forall message thrown,
     insertResult env = Returns (inr message) ->
     removeResult env = Throws thrown ->
     log w' = log w ++ [Put key; Removed key; Unlinked (path f);
                        Sent {| status := 500;
                                payload := ErrorMessage "Internal server error" thrown |}] /\
     table w' = table w /\
     objectExists key w' = true) /\
  (forall thrown,
     insertResult env = Throws thrown ->
     log w' = log w ++ [Put key; Unlinked (path f);
                        Sent {| status := 500;
                                payload := ErrorMessage "Internal server error" thrown |}] /\
     table w' = table w /\
     objectExists key w' = true).
Proof.
  intros Hfile Htitle Hbearer Hauth Hallowed Hprofile Happroved Hscratch Hpath Hupload
    key w'.
  destruct (extractTextFromFile_returns f (extractorRuns env) (date env))
    as [text Htext].
  assert (Htruthy : truthy (path f) = true) by by apply truthy_nonempty.
  subst w' key. unfold objectExists.
  unfold handler, tryCatch, handlerBody, handlerCatch.
  rewrite Hfile, Htitle, Hbearer, Htruthy.
  unfold bind, await, isAllowed, readFileSync, putObject, removeObject, insertRow,
    cleanupTempFile, respond, ret.
  rewrite Hauth. simpl.
  destruct (RateLimiter.isAllowed (rateLimitKey u) RateLimiter.UPLOAD_maxRequests
              RateLimiter.UPLOAD_windowMs (now env) (limiter w)) as [b requests].
  simpl in Hallowed. subst b. simpl.
  rewrite Hprofile. simpl. unfold approved. rewrite Happroved. simpl.
  rewrite Htext. simpl.
  destruct (decide (path f ∈ scratch w)) as [_|Hout]; [|done]. simpl.
  rewrite Hupload. simpl.
  destruct (insertResult env) as [[id|message]|thrown] eqn:Hinsert; simpl.
  - destruct (decide (path f ∈ scratch w)) as [_|Hout]; [|done]. simpl.
    split; [done|]. split; [set_solver|]. by repeat split.
  - destruct (removeResult env) as [[refusal|]|thrown] eqn:Hremove; simpl;
      (destruct (decide (path f ∈ scratch w)) as [_|Hout]; [|done]); simpl;
      (split; [done|]); (split; [set_solver|]);
      repeat split; intros; simplify_eq; rewrite <- ?app_assoc; simpl; try done;
      try (apply bool_decide_eq_true; set_solver);
      try (apply bool_decide_eq_false; set_solver); set_solver.
  - destruct (decide (path f ∈ scratch w)) as [_|Hout]; [|done]. simpl.
    split; [done|]. split; [set_solver|].
    repeat split; intros; simplify_eq; rewrite <- ?app_assoc; simpl; try done.
    apply bool_decide_eq_true. set_solver.
Qed.


(** Once the handler has passed the file-and-title test, the scratch file
    is gone when it ends, whichever way it ends. *)
Lemma handler_cleans_scratch (req : Request) (env : Env) (w : World) (f : File)
    (c : ascii) (t : string) :
  file req = Some f ->
  title (reqBody req) = Some (String c t) ->
  path f <> "" ->
  scratch (handler req env w).2 ⊆ scratch w ∖ {[path f]}.
Proof.
  intros Hfile Htitle Hpath.
  assert (Htruthy : truthy (path f) = true) by by apply truthy_nonempty.
  unfold handler, tryCatch, handlerBody. rewrite Hfile, Htitle.
  unfold handlerCatch. rewrite Hfile, Htruthy.
  run_upload; simpl; set_solver.
Qed.

End UploadFacts.

Section ScratchFacts.
Import Js Server Extraction.

(** C2 (the exit that breaks it).  An upload request that carries a file
    but no title, or an empty one, is answered 400 by the handler's first
    test, and that is all the handler does: the scratch file multer wrote
    for the request is still there afterwards. *)
Theorem upload_without_title_keeps_scratch (env : DocumentsRoute.Env) (w : World)
    (f : File) (authorization : option string) (flag : DocumentsRoute.flag) :
  let req t :=
    {| DocumentsRoute.authorization := authorization;
       DocumentsRoute.file := Some f;
       DocumentsRoute.reqBody :=
         {| DocumentsRoute.title := t; DocumentsRoute.isCompanyWide := flag |} |} in
  let answered :=
    {| scratch := scratch w; bucket := bucket w; table := table w;
       limiter := limiter w;
       log := log w ++ [Sent {| status := 400;
                                payload := ErrorBody "File and title are required" |}] |} in
  DocumentsRoute.handler (req None) env w = (Returns tt, answered) /\
  DocumentsRoute.handler (req (Some "")) env w = (Returns tt, answered) /\
  scratch answered = scratch w /\
  (path f ∈ scratch w -> path f ∈ scratch answered).
Proof. done. Qed.

(** The validation middleware ahead of the handler refuses a body without
    a title in the same way, the scratch file left in place. *)
Lemma route_validation_failure_keeps_scratch (req : DocumentsRoute.Request)
    (env : DocumentsRoute.Env) (w : World) :
  DocumentsRoute.validateFile req = None ->
  DocumentsRoute.schemaResult env = None ->
  scratch (DocumentsRoute.route req env w).2 = scratch w /\
  last (log (DocumentsRoute.route req env w).2)
  = Some (Sent {| status := 400; payload := ErrorBody "Validation failed" |}).
Proof.
  intros Hfile Hschema. unfold DocumentsRoute.route. rewrite Hfile, Hschema.
  simpl. split; [done|]. apply last_snoc.
Qed.

End ScratchFacts.

Section ExtractFacts.
Import Js Server Extraction ExtractRoute Events.

(** What the [/extract] handler does with an uploaded file, sorted by its
    answer.  It always returns, having sent one response as the last
    thing it did, and leaves the table alone; [stored key] says that the
    scratch file could be read and the storage took the upload under
    [key].  A 200 keeps the object; a 400 or 500 after the upload was
    taken asks for its removal, and the object goes if the storage carries
    the removal out. *)
Lemma extract_outcomes (f : File) (env : Env) (w : World) :
  let stored (key : string) :=
    path f ∈ scratch w /\
    exists answer, uploadAnswer env = Returns answer /\
                   upload_error answer = None /\ upload_path answer = Some key in
  let w' := (handler (Some f) env w).2 in
  exists (events : list event) (r : Response),
    (handler (Some f) env w).1 = Returns tt /\
    log w' = log w ++ events /\
    respondsLast events = true /\
    last events = Some (Sent r) /\
    table w' = table w /\
    (truthy (path f) = true -> truthy (tempFilePath env) = true ->
     scratch w' ⊆ scratch w ∖ {[path f]}) /\
    ((status r = 200%Z /\
      exists key svc result,
        stored key /\
        getServiceForFile (mimetype f) = Some svc /\
        serviceRuns env svc = Returns result /\
        payload r = ExtractSuccess key (text result) /\
        bucket w' = bucket w ∪ {[key]} /\
        ~ In (Removed key) events) \/
     ((status r = 400%Z /\
       payload r = ErrorMessage "Unsupported file type"
                     "Please upload a PDF, DOC, DOCX, or image file" /\
       getServiceForFile (mimetype f) = None \/
       status r = 500%Z /\
       exists message, payload r = ErrorMessage "Text extraction failed" message) /\
      ((bucket w' = bucket w /\ forall key, ~ stored key) \/
       exists key,
         stored key /\ In (Removed key) events /\
         bucket w' = match removeAnswer env with
                     | Returns None => (bucket w ∪ {[key]}) ∖ {[key]}
                     | _ => bucket w ∪ {[key]}
                     end))).
Proof.
  intros stored w'. subst stored w'.
  destruct (handler (Some f) env w) as [o w'] eqn:Hrun.
  unfold ExtractRoute.handler, ExtractRoute.pipeline, ExtractRoute.tryWith,
    ExtractRoute.onStorageError, ExtractRoute.handlerCatch,
    ExtractRoute.deleteStored, ExtractRoute.cleanupDownloaded,
    ExtractRoute.uploadFile, ExtractRoute.downloadFile, ExtractRoute.deleteFile,
    ExtractRoute.storageCleanupTempFile, Server.tryCatch, Server.bind,
    Server.await, Server.throw, Server.createScratch, Server.readFileSync,
    Server.putObject, Server.removeObject, Server.cleanupTempFile, Server.respond,
    Server.ret in Hrun;
  repeat (simpl in Hrun;
            match type of Hrun with
            | context [match ?x with _ => _ end] =>
                lazymatch x with
                | context [match _ with _ => _ end] => fail
                | _ => destruct x eqn:?
                end
            end); simpl in Hrun.
  all: (injection Hrun as <- <-; simpl).
  all: (eexists _, _; split; [reflexivity|];
        split; [rewrite <- ?app_assoc; simpl; reflexivity|];
        split; [reflexivity|]; split; [reflexivity|]; split; [reflexivity|]).
  all: (split;
    [ intros Hpath Htemp; try congruence;
      repeat match goal with H : decide _ = _ |- _ => clear H end;
      destruct (decide (tempFilePath env = path f)); set_solver
    | ]).
  all: first
    [ left; split; [reflexivity|]; eexists _, _, _;
      split; [split; [assumption | eexists; split; [reflexivity | split; eassumption]]|];
      split; [reflexivity|]; split; [first [eassumption|reflexivity]|]; split; [reflexivity|];
      split; [reflexivity|]; simpl; intuition congruence
    | right; split;
      [ first [ left; split; [reflexivity|]; split; reflexivity
              | right; split; [reflexivity|]; eexists; reflexivity ]
      | first [ left; split; [reflexivity|];
                intros key (Hin & answer & Hu & He & Hp); first [contradiction | congruence]
              | right; eexists;
                split; [split; [assumption | eexists; split; [reflexivity | split; eassumption]]|];
                split; [simpl; tauto|]; reflexivity ] ]
    | exfalso; repeat match goal with H : decide _ = _ |- _ => clear H end; set_solver ].
Qed.

(** On every exit of the [/extract] handler neither the uploaded scratch
    file nor the downloaded copy is left. *)
Lemma extract_cleans_scratch (f : File) (env : Env) (w : World) :
  path f <> "" ->
  tempFilePath env <> "" ->
  scratch (handler (Some f) env w).2 ⊆ scratch w ∖ {[path f]}.
Proof.
  intros Hpath Htemp.
  destruct (extract_outcomes f env w) as (events & r & _ & _ & _ & _ & _ & Hscratch & _).
  apply Hscratch; by apply truthy_nonempty.
Qed.

(** Every type that passes the upload filter of [/extract] has a service. *)
Lemma fileFilter_types_have_service (mime : string) :
  fileFilter mime = true -> getServiceForFile mime <> None.
Proof.
  unfold fileFilter, allowedTypes. simpl. rewrite !orb_true_iff.
  intros H. repeat destruct H as [H|H]; try done;
    apply String.eqb_eq in H; subst mime; done.
Qed.



End ExtractFacts.

(** ** The properties at the sample inputs *)

(** A PDF of 2600 bytes whose extractor returns 50 characters keeps them;
    with 49 characters, with 49 characters between blanks, or with the
    empty string, the synthesized text is returned, which gives the size
    as 3 KB. *)
Lemma extractTextFromFile_threshold_witness :
  let fallback :=
    "Document: memo.pdf" +:+ nl +:+ nl +:+
    "This is a PDF file uploaded to the platform." +:+ nl +:+ nl +:+
    "File Details:" +:+ nl +:+
    "- Original Name: memo.pdf" +:+ nl +:+
    "- Type: application/pdf" +:+ nl +:+
    "- Size: 3 KB" +:+ nl +:+
    "- Upload Date: 1/2/2025" +:+ nl +:+ nl +:+
    "Note: Text extraction was not successful for this file. For better analysis, please ensure the document contains readable text content." in
  Extraction.extractTextFromFile memoPdf
    (fun _ => Returns "Quarterly revenue grew by twelve percent in 2024..") "1/2/2025"
  = Returns "Quarterly revenue grew by twelve percent in 2024.." /\
  Extraction.extractTextFromFile memoPdf
    (fun _ => Returns "Quarterly revenue grew by twelve percent in 2024.") "1/2/2025"
  = Returns fallback /\
  Extraction.extractTextFromFile memoPdf
    (fun _ => Returns "   Quarterly revenue grew by twelve percent in 2024.   ") "1/2/2025"
  = Returns fallback /\
  Extraction.extractTextFromFile memoPdf (fun _ => Returns "") "1/2/2025"
  = Returns fallback /\
  Js.occursIn ("- Original Name: memo.pdf" +:+ nl) fallback /\
  Js.occursIn ("- Size: 3 KB" +:+ nl) fallback.
Proof.
  intros fallback.
  assert (H49 : forall raw, (Js.len (Js.trim raw) < 50)%Z ->
            Extraction.extractTextFromFile memoPdf (fun _ => Returns raw) "1/2/2025"
            = Returns fallback /\
            Js.occursIn ("- Original Name: memo.pdf" +:+ nl) fallback /\
            Js.occursIn ("- Size: 3 KB" +:+ nl) fallback).
  { intros raw Hlen.
    destruct (proj2 (extractTextFromFile_threshold memoPdf (fun _ => Returns raw)
                       "1/2/2025" Extraction.Pdf raw eq_refl eq_refl) Hlen)
      as (text & kb & Heq & Htext & Hname & Hkb & Hsize).
    assert (kb = 3%Z) as -> by (simpl in Hkb; lia).
    rewrite Heq, Htext in *. done. }
  split; [|split; [|split; [|split]]].
  - apply (extractTextFromFile_threshold memoPdf
             (fun _ => Returns "Quarterly revenue grew by twelve percent in 2024..")
             "1/2/2025" Extraction.Pdf); [reflexivity | reflexivity | ].
    vm_compute. discriminate.
  - apply H49. vm_compute. reflexivity.
  - apply H49. vm_compute. reflexivity.
  - apply H49. vm_compute. reflexivity.
  - apply (H49 ""). vm_compute. reflexivity.
Defined.

(** A PDF whose parser throws. *)
Lemma extractTextFromFile_never_throws_witness :
  let fallback :=
    "Document: memo.pdf" +:+ nl +:+ nl +:+
    "This document has been uploaded but text extraction encountered an error." +:+ nl +:+ nl +:+
    "File Details:" +:+ nl +:+
    "- Original Name: memo.pdf" +:+ nl +:+
    "- Size: 3 KB" +:+ nl +:+
    "- Upload Date: 1/2/2025" +:+ nl +:+ nl +:+
    "Error during text extraction: bad XRef entry" +:+ nl +:+ nl +:+
    "Please try re-uploading the document or contact support if the issue persists." in
  Extraction.extractTextFromFile memoPdf (fun _ => Throws "bad XRef entry") "1/2/2025"
  = Returns fallback /\
  Js.occursIn ("- Original Name: memo.pdf" +:+ nl) fallback /\
  Js.occursIn ("- Size: 3 KB" +:+ nl) fallback /\
  Js.occursIn ("Error during text extraction: bad XRef entry" +:+ nl) fallback.
Proof.
  intros fallback.
  destruct (proj2 (extractTextFromFile_never_throws memoPdf
                     (fun _ => Throws "bad XRef entry") "1/2/2025")
              Extraction.Pdf "bad XRef entry" eq_refl eq_refl)
    as (text & kb & Heq & Htext & Hname & Hkb & Hsize & Hmessage).
  assert (kb = 3%Z) as -> by (simpl in Hkb; lia).
  rewrite Heq, Htext in *. done.
Defined.

(** Alice's upload of [report.pdf]: the insert answers with an error and
    the storage removes the object; the insert answers with an error and
    the storage refuses the removal; the insert call throws. *)
Lemma upload_rollback_missed_witness :
  let key := "u1/1700000000100-k3j9x.pdf" in
  let after env := (DocumentsRoute.handler uploadRequest env (afterMulter reportPdf)).2 in
  (Server.log (after insertFails) =
     [Server.Put key; Server.Removed key; Server.Unlinked "temp/file-1700000000000-42.pdf";
      Server.Sent {| Server.status := 500;
                     Server.payload := Server.ErrorBody "duplicate key value" |}] /\
   Server.table (after insertFails) = [] /\
   Server.objectExists key (after insertFails) = false) /\
  (Server.log (after removeRefused) =
     [Server.Put key; Server.Removed key; Server.Unlinked "temp/file-1700000000000-42.pdf";
      Server.Sent {| Server.status := 500;
                     Server.payload := Server.ErrorBody "duplicate key value" |}] /\
   Server.table (after removeRefused) = [] /\
   Server.objectExists key (after removeRefused) = true) /\
  (Server.log (after insertThrows) =
     [Server.Put key; Server.Unlinked "temp/file-1700000000000-42.pdf";
      Server.Sent {| Server.status := 500;
                     Server.payload := Server.ErrorMessage "Internal server error"
                                         "fetch failed" |}] /\
   Server.table (after insertThrows) = [] /\
   Server.objectExists key (after insertThrows) = true).
Proof.
  intros key after.
  assert (Hin : Extraction.path reportPdf ∈ Server.scratch (afterMulter reportPdf))
    by (simpl; set_solver).
  split; [|split].
  - destruct (upload_rollback_missed uploadRequest insertFails (afterMulter reportPdf)
                reportPdf "Q" "3 report" alice approvedProfile
                eq_refl eq_refl eq_refl eq_refl eq_refl eq_refl eq_refl Hin
                ltac:(discriminate) eq_refl)
      as (_ & _ & H & _).
    destruct (H "duplicate key value" eq_refl eq_refl) as (Hlog & Htable & Hobject & _).
    done.
  - destruct (upload_rollback_missed uploadRequest removeRefused (afterMulter reportPdf)
                reportPdf "Q" "3 report" alice approvedProfile
                eq_refl eq_refl eq_refl eq_refl eq_refl eq_refl eq_refl Hin
                ltac:(discriminate) eq_refl)
      as (_ & _ & _ & H & _).
    exact (H "duplicate key value" "storage unavailable" eq_refl eq_refl).
  - destruct (upload_rollback_missed uploadRequest insertThrows (afterMulter reportPdf)
                reportPdf "Q" "3 report" alice approvedProfile
                eq_refl eq_refl eq_refl eq_refl eq_refl eq_refl eq_refl Hin
                ltac:(discriminate) eq_refl)
      as (_ & _ & _ & _ & _ & H).
    exact (H "fetch failed" eq_refl).
Defined.

(** Three recognized words, one of them below the threshold. *)
Lemma extractText_confidence_filter_witness :
  exists r,
    Ocr.extractText (Returns scanned) "eng" 100 250 = Returns r /\
    ("Hello there" <> "" ->
       Ocr.filterLowConfidenceText scanned Ocr.defaultMinConfidence = "Hello there" /\
       Ocr.result_text r = "Hello there") /\
    ("Hello there" = "" ->
       Ocr.filterLowConfidenceText scanned Ocr.defaultMinConfidence = Ocr.text scanned /\
       Ocr.result_text r = Ocr.text scanned).
Proof.
  apply (extractText_confidence_filter scanned scannedWords "eng" 100 250).
  reflexivity.
Defined.

(** Nine documents that all contain the query in another letter case:
    the first eight are returned. *)
Lemma searchDocuments_limit_witness :
  let chunk n :=
    {| Chat.document_id := n; Chat.document_title := "Report " +:+ n;
       Chat.chunk_content := "Revenue of unit " +:+ n;
       Chat.chunk_similarity := (8 # 10)%Q |} in
  Chat.searchDocuments (indexOf nineDocs) "REVENUE of" ["1"; "2"] Chat.defaultLimit
  = Returns [chunk "1"; chunk "2"; chunk "3"; chunk "4";
             chunk "5"; chunk "6"; chunk "7"; chunk "8"] /\
  length (List.filter (Chat.matchesQuery "REVENUE of") nineDocs) = 9%nat /\
  Chat.searchDocuments (indexOf nineDocs) "unit 9" ["1"; "2"] Chat.defaultLimit
  = Returns [chunk "9"].
Proof.
  intros chunk.
  destruct (searchDocuments_limit (indexOf nineDocs) "REVENUE of" ["1"; "2"]
              {| Chat.data := Some nineDocs; Chat.error := None |} nineDocs
              eq_refl eq_refl)
    as (_ & _ & chunks & Hsearch & _ & Hlength & _).
  rewrite Hsearch. split; [|split]; [|reflexivity|reflexivity].
  revert Hsearch. vm_compute. intros [= <-]. reflexivity.
Defined.

(** Three fetched documents, none containing the query; one has a body.
    The search finds nothing, or fails. *)
Lemma assembleContext_no_match_witness :
  let fetched := indexOf [revenueDoc; emptyDoc; nullDoc] in
  let source score :=
    {| Chat.documentId := "d1"; Chat.documentTitle := "Q3"; Chat.similarity := score;
       Chat.excerpt := "Quarterly revenue grew by twelve percent." |} in
  let context :=
    "The user has mentioned attachments or documents. Here is the relevant content from their uploaded documents:"
    +:+ nl +:+ nl +:+
    "=== DOCUMENT: Q3 ===" +:+ nl +:+ nl +:+
    "Quarterly revenue grew by twelve percent." +:+ nl +:+ nl +:+
    "=== END DOCUMENT ===" in
  Chat.assembleContext fetched fetched "what's in the attachment?" (Some ["d1"; "d2"; "d3"])
  = (context, [source (95 # 100)%Q]) /\
  Chat.assembleContext fetched failingIndex "what's in the attachment?"
    (Some ["d1"; "d2"; "d3"])
  = (context, [source (9 # 10)%Q]).
Proof.
  intros fetched source context.
  assert (Habsent : forall doc c, In doc [revenueDoc; emptyDoc; nullDoc] ->
            Chat.content doc = Some c ->
            ~ Js.occursIn (Js.toLowerCase "what's in the attachment?") (Js.toLowerCase c)).
  { intros doc c [<-|[<-|[<-|[]]]] [= <-] Hocc;
      apply includes_spec in Hocc; vm_compute in Hocc; discriminate. }
  split.
  - destruct (assembleContext_no_match fetched fetched "what's in the attachment?"
                ["d1"; "d2"; "d3"]
                {| Chat.data := Some [revenueDoc; emptyDoc; nullDoc]; Chat.error := None |}
                [revenueDoc; emptyDoc; nullDoc]
                eq_refl ltac:(discriminate) eq_refl eq_refl eq_refl ltac:(discriminate)
                Habsent)
      as (score & Hscore & _ & Hsources & _ & _ & Hcontext & _).
    apply injective_projections; [rewrite Hcontext | rewrite Hsources, Hscore]; reflexivity.
  - destruct (assembleContext_no_match fetched failingIndex "what's in the attachment?"
                ["d1"; "d2"; "d3"]
                {| Chat.data := Some [revenueDoc; emptyDoc; nullDoc]; Chat.error := None |}
                [revenueDoc; emptyDoc; nullDoc]
                eq_refl ltac:(discriminate) eq_refl eq_refl eq_refl ltac:(discriminate) I)
      as (score & Hscore & _ & Hsources & _ & _ & Hcontext & _).
    apply injective_projections; [rewrite Hcontext | rewrite Hsources, Hscore]; reflexivity.
Defined.

(** The index finds none of the requested documents: the query mentions an
    attachment, no fetched document contains the query, and yet the
    context is the empty string, without the attachment sentence. *)
Lemma assembleContext_empty_fetch_counterexample :
  let result :=
    Chat.assembleContext (indexOf []) (indexOf []) "what's in the attachment?"
      (Some ["d1"]) in
  Chat.mentionsAttachment "what's in the attachment?" = true /\
  result = ("", []) /\
  ~ (exists rest, result.1 = Chat.attachmentPreamble +:+ rest).
Proof.
  split; [reflexivity|]. split; [reflexivity|].
  intros [rest H]. vm_compute in H. discriminate.
Qed.

(** Alice asks for a title of a conversation that belongs to [u2], through
    either version of the route; the answer is the one for a conversation
    that is not there. *)
Lemma generate_title_foreign_conversation_witness :
  let request :=
    {| Conversations.authorization := Some "Bearer token-of-alice";
       Conversations.conversationId := Some "c-42";
       Conversations.messages := Some [hello] |} in
  let validated :=
    {| Conversations.valid_conversationId := "c-42";
       Conversations.valid_messages := [hello] |} in
  let notThere :=
    {| Conversations.authResult :=
         Returns {| Server.user := Some alice; Server.authError := None |};
       Conversations.profileResult := Returns (Some approvedProfile);
       Conversations.conversationResult :=
         Returns {| Conversations.conversation := None;
                    Conversations.convError := Some "no rows returned" |};
       Conversations.updateError := Returns None |} in
  Conversations.handler request foreignConversation
  = {| Conversations.status := 404;
       Conversations.payload := Conversations.ErrorReply "Conversation not found" |} /\
  Conversations.laterRoute (Some "Bearer token-of-alice") (Some validated) foreignConversation
  = Returns 404%Z /\
  Conversations.handler request notThere = Conversations.handler request foreignConversation /\
  Conversations.laterRoute (Some "Bearer token-of-alice") (Some validated) notThere
  = Conversations.laterRoute (Some "Bearer token-of-alice") (Some validated)
      foreignConversation.
Proof.
  intros request validated notThere.
  destruct (generate_title_foreign_conversation request foreignConversation
              "c" "-42" hello [] alice approvedProfile "u2" validated
              eq_refl eq_refl eq_refl eq_refl eq_refl eq_refl eq_refl ltac:(discriminate))
    as (Hfirst & _ & Hlater & Hsame).
  split; [exact Hfirst|]. split; [exact Hlater|].
  exact (Hsame {| Conversations.conversation := None;
                  Conversations.convError := Some "no rows returned" |} eq_refl).
Defined.



(** ** The model on small inputs *)


Example trim_example :
  Js.trim (nl +:+ "  two words " +:+ nl) = "two words".
Proof. reflexivity. Qed.

Example lower_example : Js.toLowerCase "What's in the PDF?" = "what's in the pdf?".
Proof. reflexivity. Qed.

Example lengths_example :
  String.length fiftyChars = 50%nat /\ String.length fortyNineChars = 49%nat.
Proof. split; reflexivity. Qed.

Example size_example :
  Extraction.sizeInKB reportPdf = "2 KB" /\ Extraction.sizeInKB scanPng = "1 KB" /\
  Extraction.sizeInKB notesTxt = "0 KB".
Proof. repeat split; reflexivity. Qed.

Example title_example :
  Conversations.generateSimpleTitle
    ("User:   please summarise the third quarter report for the board today"
     +:+ nl +:+ "assistant: sure")
  = "please summarise the third quarter report for the...".
Proof. reflexivity. Qed.

Example limiter_example :
  (RateLimiter.run "chat:u1" 2 10 [0; 5; 7; 10; 12; 15]%Z RateLimiter.initial).1
  = [true; true; false; true; false; true].
Proof. vm_compute. reflexivity. Qed.

Example mentions_example :
  Chat.mentionsAttachment attachmentQuery = true /\
  Chat.mentionsAttachment "How are you?" = false.
Proof. split; reflexivity. Qed.

Example assemble_example :
  Chat.assembleContext (indexOf [revenueDoc; emptyDoc; nullDoc])
    (indexOf [revenueDoc; emptyDoc; nullDoc]) attachmentQuery (Some ["d1"; "d2"; "d3"])
  = (Chat.attachmentPreamble +:+ Chat.wrapDocument revenueDoc,
     [Chat.documentSource Chat.noMatchScore revenueDoc]).
Proof. vm_compute. reflexivity. Qed.

(** * Further properties of the code *)

Import MoreSamples.

Section LimiterKeys.
Import RateLimiter.
Local Open Scope Z_scope.

Lemma run_other (key : string) (N W : Z) (ts : list Z) :
  forall (s : gmap string (list Z)) (k : string),
    k <> key -> recorded k (run key N W ts s).2 = recorded k s.
Proof.
  induction ts as [|t ts IH]; intros s k Hk; [done|].
  rewrite run_cons. simpl. rewrite IH by done. by apply isAllowed_other.
Qed.

(** X1.  The windows of different keys are independent: whatever calls
    are made for one key, the timestamps recorded under any other key stay
    as they were, and so does the answer that other key gets next. *)
Theorem limiter_keys_independent (key : string) (N W : Z) (ts : list Z)
    (s : gmap string (list Z)) (k : string) (N' W' now : Z) :
  k <> key ->
  recorded k (run key N W ts s).2 = recorded k s /\
  (isAllowed k N' W' now (run key N W ts s).2).1 = (isAllowed k N' W' now s).1.
Proof.
  intros Hk. split; [by apply run_other|].
  by rewrite !isAllowed_result, run_other.
Qed.

Lemma isAllowed_dom (key : string) (N W now : Z) (s : gmap string (list Z)) :
  dom (isAllowed key N W now s).2 = {[key]} ∪ dom s.
Proof.
  unfold isAllowed. destruct (s !! key) as [l|] eqn:E; simpl;
    destruct (_ >=? N); simpl; rewrite ?dom_insert_L; set_solver.
Qed.

(** X2.  No call ever removes a key from the map: after any sequence of
    calls for a key, admitted or not, that key is in the map (a sequence
    with at least one call) and every key that was there before still
    is. *)
Theorem limiter_keys_never_evicted (key : string) (N W : Z) (t : Z) (ts : list Z)
    (s : gmap string (list Z)) :
  key ∈ dom (run key N W (t :: ts) s).2 /\
  dom s ⊆ dom (run key N W (t :: ts) s).2 /\
  (size s <= size (run key N W (t :: ts) s).2)%nat.
Proof.
  assert (Hdom : forall us (r : gmap string (list Z)),
             dom r ⊆ dom (run key N W us r).2).
  { induction us as [|u us IH]; intros r; [done|].
    rewrite run_cons. simpl. etrans; [|apply IH]. rewrite isAllowed_dom. set_solver. }
  assert (Hkey : key ∈ dom (run key N W (t :: ts) s).2).
  { rewrite run_cons. simpl. apply Hdom. rewrite isAllowed_dom. set_solver. }
  split; [done|]. split; [apply Hdom|].
  rewrite <- !size_dom. apply subseteq_size, Hdom.
Qed.

Lemma isAllowed_length (key : string) (N W now : Z) (s : gmap string (list Z)) (B : Z) :
  N <= B -> Z.of_nat (length (recorded key s)) <= B ->
  Z.of_nat (length (recorded key (isAllowed key N W now s).2)) <= B.
Proof.
  intros HN Hlen. rewrite isAllowed_recorded, isAllowed_result, length_app.
  pose proof (length_filter (fun t => now - W < t) (recorded key s)) as Hf.
  destruct (Z.ltb_spec (Z.of_nat (length (filter (fun t => now - W < t) (recorded key s)))) N);
    simpl; lia.
Qed.

(** X3.  The array kept for a key never grows beyond the limit: after any
    sequence of calls from the empty map, whatever the clock values, at
    most [maxRequests] timestamps are recorded under the key (none when
    the limit is not positive). *)
Theorem limiter_memory_bounded (key : string) (N W : Z) (ts : list Z) :
  Z.of_nat (length (recorded key (run key N W ts initial).2)) <= Z.max 0 N.
Proof.
  assert (H : forall us (s : gmap string (list Z)),
             Z.of_nat (length (recorded key s)) <= Z.max 0 N ->
             Z.of_nat (length (recorded key (run key N W us s).2)) <= Z.max 0 N).
  { induction us as [|u us IH]; intros s Hs; [done|].
    rewrite run_cons. simpl. apply IH. apply isAllowed_length; [lia | done]. }
  apply H. unfold recorded, initial. rewrite lookup_empty. simpl. lia.
Qed.

(** X4.  Lazy purge: after a call at clock value [now] with a positive
    window, every timestamp left under the key is younger than the
    window; a rejected call records nothing (the array is the old one
    without its expired entries), an admitted call adds exactly [now] at
    the end. *)
Theorem limiter_purges_on_call (key : string) (N W now : Z) (s : gmap string (list Z)) :
  0 < W ->
  let result := isAllowed key N W now s in
  Forall (fun a => now - W < a) (recorded key result.2) /\
  (result.1 = false ->
     recorded key result.2 = filter (fun a => now - W < a) (recorded key s) /\
     N <= Z.of_nat (length (recorded key result.2))) /\
  (result.1 = true ->
     recorded key result.2 = filter (fun a => now - W < a) (recorded key s) ++ [now]).
Proof.
  intros HW result. unfold result.
  pose proof (isAllowed_recorded key N W now s) as Hrec.
  pose proof (isAllowed_result key N W now s) as Hres.
  split; [|split].
  - rewrite Hrec. apply Forall_app. split.
    + apply Forall_forall. intros a Ha. by apply list_elem_of_filter in Ha as [? _].
    + destruct (isAllowed key N W now s).1; [|constructor].
      apply Forall_singleton. lia.
  - intros Hfalse. rewrite Hfalse in Hrec, Hres. rewrite app_nil_r in Hrec.
    split; [done|]. rewrite Hrec. symmetry in Hres. apply Z.ltb_ge in Hres. lia.
  - intros Htrue. by rewrite Htrue in Hrec.
Qed.

End LimiterKeys.

Lemma limiter_keys_independent_witness :
  RateLimiter.recorded "chat:u2"
    (RateLimiter.run "chat:u1" 2 10 [0; 5; 7]%Z {[ "chat:u2" := [3%Z] ]}).2
  = RateLimiter.recorded "chat:u2" {[ "chat:u2" := [3%Z] ]} /\
  (RateLimiter.isAllowed "chat:u2" 1 10 8
     (RateLimiter.run "chat:u1" 2 10 [0; 5; 7]%Z {[ "chat:u2" := [3%Z] ]}).2).1
  = (RateLimiter.isAllowed "chat:u2" 1 10 8 {[ "chat:u2" := [3%Z] ]}).1.
Proof.
  apply (limiter_keys_independent "chat:u1" 2 10 [0; 5; 7]%Z
           {[ "chat:u2" := [3%Z] ]} "chat:u2" 1 10 8).
  discriminate.
Defined.

Lemma limiter_purges_on_call_witness :
  let result := RateLimiter.isAllowed "chat:u1" 1 10 12 {[ "chat:u1" := [1; 5]%Z ]} in
  Forall (fun a => 12 - 10 < a)%Z (RateLimiter.recorded "chat:u1" result.2).
Proof.
  apply (limiter_purges_on_call "chat:u1" 1 10 12 {[ "chat:u1" := [1; 5]%Z ]}). lia.
Defined.

Section TitleWords.
Import Js Server Conversations.

Lemma split_nonempty (sep : ascii) (s : string) : split sep s <> [].
Proof.
  destruct s as [|c s]; simpl; [done|].
  destruct (Ascii.eqb c sep); [done|]. by destruct (split sep s).
Qed.

(** Splitting at a character and joining with it gives the string back. *)
Lemma join_split (sep : ascii) (s : string) :
  join (String sep "") (split sep s) = s.
Proof.
  induction s as [|c s IH]; [done|]. simpl.
  destruct (Ascii.eqb_spec c sep) as [->|Hne].
  - pose proof (split_nonempty sep s).
    destruct (split sep s) as [|p ps] eqn:E; [done|].
    change (join (String sep "") ("" :: p :: ps))
      with ("" +:+ String sep "" +:+ join (String sep "") (p :: ps)).
    by rewrite IH.
  - pose proof (split_nonempty sep s).
    destruct (split sep s) as [|p ps] eqn:E; [done|].
    destruct ps as [|q qs].
    + simpl in *. by rewrite IH.
    + change (join (String sep "") (String c p :: q :: qs))
        with (String c p +:+ String sep "" +:+ join (String sep "") (q :: qs)).
      change (join (String sep "") (p :: q :: qs))
        with (p +:+ String sep "" +:+ join (String sep "") (q :: qs)) in IH.
      rewrite append_cons. by rewrite IH.
Qed.

Lemma includes_char_cons (x c : ascii) (a : string) :
  includes (String x a) (String c "") = Ascii.eqb c x || includes a (String c "").
Proof.
  change (includes (String x a) (String c ""))
    with (startsWith (String x a) (String c "") || includes a (String c "")).
  simpl. by destruct (Ascii.eqb c x), a.
Qed.

(** The first piece of a split is the text before the first separator. *)
Lemma hd_split_line (c : ascii) (a b : string) :
  includes a (String c "") = false ->
  hd "" (split c a) = a /\ hd "" (split c (a +:+ String c b)) = a.
Proof.
  induction a as [|x a IH]; intros Hno.
  - split; [done|]. rewrite append_nil. simpl. by rewrite Ascii.eqb_refl.
  - rewrite includes_char_cons in Hno. apply orb_false_iff in Hno as [Hx Ha].
    destruct (IH Ha) as [IH1 IH2]. rewrite append_cons. simpl.
    rewrite Ascii.eqb_sym, Hx.
    pose proof (split_nonempty c a). pose proof (split_nonempty c (a +:+ String c b)).
    destruct (split c a); [done|]. destruct (split c (a +:+ String c b)); [done|].
    simpl in *. by subst.
Qed.

Lemma conversationTextOf_first (m : Message) (ms : list Message) :
  exists rest,
    conversationTextOf (m :: ms) = msg_role m +:+ ": " +:+ msg_content m
    \/ conversationTextOf (m :: ms)
       = (msg_role m +:+ ": " +:+ msg_content m) +:+ String (ascii_of_nat 10) rest.
Proof.
  unfold conversationTextOf. destruct ms as [|m' ms]; simpl map.
  - exists "". by left.
  - eexists. right. reflexivity.
Qed.

(** X5.  The title comes from the first message alone.  For a first
    message of role [user] or [assistant] whose content has no line
    break, with [c] the content without its leading white space: when [c]
    has at most eight space-separated words the title is [c] itself,
    otherwise it is the first eight words followed by three dots. *)
Theorem title_of_first_message (m : Message) (ms : list Message) :
  msg_role m = "user" \/ msg_role m = "assistant" ->
  includes (msg_content m) nl = false ->
  let c := trimStart (msg_content m) in
  let words := split " " c in
  ((length words <= 8)%nat ->
     generateSimpleTitle (conversationTextOf (m :: ms)) = c) /\
  ((8 < length words)%nat ->
     generateSimpleTitle (conversationTextOf (m :: ms))
     = join " " (firstn 8 words) +:+ "...").
Proof.
  intros Hrole Hline c words.
  set (line := msg_role m +:+ ": " +:+ msg_content m).
  assert (Hno : includes line nl = false).
  { unfold line. destruct Hrole as [-> | ->].
    - change (includes ("user: " +:+ msg_content m) nl)
        with (includes (msg_content m) nl). done.
    - change (includes ("assistant: " +:+ msg_content m) nl)
        with (includes (msg_content m) nl). done. }
  assert (Hfirst : hd "" (split (ascii_of_nat 10) (conversationTextOf (m :: ms))) = line).
  { destruct (hd_split_line (ascii_of_nat 10) line "" Hno) as [H1 _].
    destruct (conversationTextOf_first m ms) as [rest [-> | ->]]; [exact H1|].
    by destruct (hd_split_line (ascii_of_nat 10) line rest Hno). }
  assert (Hstrip : stripRole line = c).
  { unfold line, c. destruct Hrole as [-> | ->]; reflexivity. }
  unfold generateSimpleTitle. rewrite Hfirst, Hstrip. fold words.
  split; intros Hlen.
  - destruct (Nat.ltb_spec 8 (length words)); [lia|].
    rewrite firstn_all2 by lia. unfold words.
    rewrite (join_split " " c). apply append_empty_r.
  - destruct (Nat.ltb_spec 8 (length words)); [done | lia].
Qed.

(** X6.  A title is produced and answered with 200 only for the owner:
    whenever the handler answers 200, the request carried a bearer
    token that resolved to a user with an approved profile, the
    conversation found belongs to that user, the update went through, and
    the body is the title generated from the messages. *)
Theorem generate_title_only_for_owner (req : Request) (env : Env) :
  status (handler req env) = 200%Z ->
  exists (u : User) (profile : Profile) (msgs : list Message),
    bearer (authorization req) = true /\
    authResult env = Returns {| user := Some u; authError := None |} /\
    profileResult env = Returns (Some profile) /\
    profile_status profile = "approved" /\
    conversationResult env
    = Returns {| conversation := Some (uid u); convError := None |} /\
    updateError env = Returns None /\
    messages req = Some msgs /\
    payload (handler req env) = TitleReply (generateSimpleTitle (conversationTextOf msgs)).
Proof.
  unfold handler, handlerBody, approved. intros H.
  repeat (case_match; simplify_eq; simpl in *; try discriminate).
  match goal with
  | Ha : authResult env = Returns ?a, Hc : conversationResult env = Returns ?r |- _ =>
      destruct a as [au ae], r as [rc re]
  end.
  simpl in *. subst.
  match goal with H : negb (String.eqb ?o (uid ?u)) = false |- _ =>
      apply negb_false_iff, String.eqb_eq in H; subst end.
  match goal with H : negb (bearer _) = false |- _ => apply negb_false_iff in H end.
  match goal with H : negb (String.eqb _ "approved") = false |- _ =>
      apply negb_false_iff, String.eqb_eq in H end.
  eexists _, _, _. repeat split; eauto.
Qed.

End TitleWords.

Lemma title_of_first_message_witness :
  Conversations.generateSimpleTitle (Conversations.conversationTextOf [hello; longQuestion])
  = "Hello there" /\
  Conversations.generateSimpleTitle (Conversations.conversationTextOf [longQuestion; hello])
  = "please summarise the third quarter report for the...".
Proof.
  split.
  - apply (title_of_first_message hello [longQuestion]); [by left | reflexivity | ].
    vm_compute. lia.
  - apply (title_of_first_message longQuestion [hello]); [by left | reflexivity | ].
    vm_compute. lia.
Defined.

Lemma generate_title_only_for_owner_witness :
  exists (u : Server.User) (profile : Server.Profile) (msgs : list Conversations.Message),
    Server.bearer (Conversations.authorization (titleRequest [hello])) = true /\
    Conversations.authResult ownConversation
    = Returns {| Server.user := Some u; Server.authError := None |} /\
    Conversations.profileResult ownConversation = Returns (Some profile) /\
    Server.profile_status profile = "approved" /\
    Conversations.conversationResult ownConversation
    = Returns {| Conversations.conversation := Some (Server.uid u);
                 Conversations.convError := None |} /\
    Conversations.updateError ownConversation = Returns None /\
    Conversations.messages (titleRequest [hello]) = Some msgs /\
    Conversations.payload (Conversations.handler (titleRequest [hello]) ownConversation)
    = Conversations.TitleReply
        (Conversations.generateSimpleTitle (Conversations.conversationTextOf msgs)).
Proof.
  apply (generate_title_only_for_owner (titleRequest [hello]) ownConversation).
  reflexivity.
Defined.

Section ExtractionMore.
Import Js Extraction.

(** X7.  Every MIME type the router's upload filter lets through has a
    branch in [extractTextFromFile], so a filtered upload never falls
    through the [if] chain with no extractor run. *)
Theorem filtered_types_have_branch (mime : string) :
  DocumentsFilter.fileFilter mime = true ->
  exists e, branchFor mime = Some e.
Proof.
  unfold DocumentsFilter.fileFilter, DocumentsFilter.allowedTypes,
    DocumentsRoute.listIncludes. simpl. rewrite !orb_true_iff.
  intros H. repeat destruct H as [H|H]; try done;
    apply String.eqb_eq in H; subst mime; vm_compute; eauto.
Qed.

Lemma trimEnd_append (a b : string) :
  trimEnd b <> "" -> trimEnd (a +:+ b) = a +:+ trimEnd b.
Proof.
  intros Hb. induction a as [|x a IH]; [done|].
  rewrite !append_cons. simpl. rewrite IH.
  destruct (a +:+ trimEnd b) eqn:E; [|done].
  destruct a; [|done]. rewrite append_nil in E. done.
Qed.

(** A text that begins with a visible character and ends with [tail], a
    non-empty text ending in a visible character, is its own trim. *)
Lemma trim_framed (c : ascii) (p tail : string) :
  isWhiteSpace c = false -> trimEnd tail = tail -> tail <> "" ->
  trim (String c p +:+ tail) = String c p +:+ tail.
Proof.
  intros Hc Htail Hne. unfold trim. rewrite append_cons. simpl. rewrite Hc.
  rewrite <- append_cons. rewrite trimEnd_append by (by rewrite Htail).
  by rewrite Htail.
Qed.

Lemma fallbackTooShort_long (file : File) (date : string) :
  (50 <= len (trim (fallbackTooShort file date)))%Z.
Proof.
  unfold fallbackTooShort. rewrite <- !append_assoc.
  match goal with |- context [trim (?P +:+ ?T)] =>
    assert (HP : exists p, P = String "D" p) by (eexists; reflexivity);
    destruct HP as [p ->]
  end.
  rewrite trim_framed by done.
  unfold len. rewrite length_append. simpl. lia.
Qed.

Lemma fallbackError_long (file : File) (date message : string) :
  (50 <= len (trim (fallbackError file date message)))%Z.
Proof.
  unfold fallbackError. rewrite <- !append_assoc.
  match goal with |- context [trim (?P +:+ ?T)] =>
    assert (HP : exists p, P = String "D" p) by (eexists; reflexivity);
    destruct HP as [p ->]
  end.
  rewrite trim_framed by done.
  unfold len. rewrite length_append. simpl. lia.
Qed.

(** The text [extractTextFromFile] returns is long, on every path. *)
Lemma extractTextFromFile_long (file : File) (run : extractors) (date : string) :
  exists text,
    extractTextFromFile file run date = Returns text /\
    (50 <= len (trim text))%Z.
Proof.
  unfold extractTextFromFile, tryBlock.
  destruct (match branchFor (mimetype file) with Some e => run e | None => Returns "" end)
    as [raw|message].
  - destruct (negb (truthy raw) || (len (trim raw) <? 50)%Z) eqn:E.
    + eexists. split; [done | apply fallbackTooShort_long].
    + exists raw. split; [done|]. apply orb_false_iff in E as [_ E].
      apply Z.ltb_ge in E. done.
  - eexists. split; [done | apply fallbackError_long].
Qed.

(** X8.  Whatever the extractor does, the text [extractTextFromFile]
    returns has at least 50 characters after trimming; so a document made
    from it always counts as having sufficient content for the chat
    context (more than 20 characters after trimming). *)
Theorem extractTextFromFile_sufficient (file : File) (run : extractors) (date : string) :
  exists text,
    extractTextFromFile file run date = Returns text /\
    (50 <= len (trim text))%Z /\
    forall id title,
      Chat.sufficientContent
        {| Chat.id := id; Chat.title := title; Chat.content := Some text |} = true.
Proof.
  destruct (extractTextFromFile_long file run date) as (text & Heq & Hlen).
  exists text. split; [done|]. split; [done|].
  intros id title. unfold Chat.sufficientContent. simpl.
  rewrite trim_length_truthy by lia. simpl. apply Z.ltb_lt. lia.
Qed.

End ExtractionMore.

Lemma filtered_types_have_branch_witness :
  exists e, Extraction.branchFor "text/plain" = Some e.
Proof. apply (filtered_types_have_branch "text/plain"). reflexivity. Defined.

Section UploadMore.
Import Js Server Extraction DocumentsRoute Events.

Lemma respondsLast_spec (events : list event) :
  respondsLast events = true ->
  exists before r, events = before ++ [Sent r] /\ Forall silent before.
Proof.
  induction events as [|e events IH]; [done|]. intros H.
  destruct e; simpl in H;
    try (destruct (IH H) as (before & r & -> & Hs);
         eexists (_ :: before), r; split; [done|by constructor]).
  destruct events; [|done]. by exists [], response.
Qed.

Lemma upload_events (req : Request) (env : Env) (w : World) :
  exists events,
    (handler req env w).1 = Returns tt /\
    log (handler req env w).2 = log w ++ events /\
    respondsLast events = true.
Proof.
  destruct (extractTextFromFile_returns
              (default Samples.reportPdf (file req)) (extractorRuns env) (date env))
    as [text Htext].
  unfold handler, tryCatch, handlerBody, handlerCatch.
  destruct (file req) as [f|] eqn:Hfile; simpl in Htext.
  2:{ eexists. by destruct (title (reqBody req)) as [[|]|]. }
  destruct (title (reqBody req)) as [[|c t]|] eqn:Htitle;
    try (eexists; simpl; split; [done|split; [done|reflexivity]]).
  unfold bind, await, isAllowed, readFileSync, putObject, removeObject, insertRow,
    cleanupTempFile, respond, ret.
  rewrite Htext.
  repeat (simpl in *; case_match; simplify_eq); simpl;
    rewrite <- ?app_assoc; simpl;
    (eexists; split; [reflexivity|split; [reflexivity|reflexivity]]).
Qed.

(** X9.  On every path the upload handler sends exactly one response, and
    sending it is the last thing it does: whatever it stores, removes or
    unlinks comes before. *)
Theorem upload_responds_once_and_last (req : Request) (env : Env) (w : World) :
  exists (before : list event) (r : Response),
    (handler req env w).1 = Returns tt /\
    log (handler req env w).2 = log w ++ before ++ [Sent r] /\
    Forall silent before.
Proof.
  destruct (upload_events req env w) as (events & Hret & Hlog & Hlast).
  destruct (respondsLast_spec events Hlast) as (before & r & -> & Hs).
  by exists before, r.
Qed.

(** X10.  The handler adds at most one row to [documents], and only
    together with its object: if the table changes, one row was appended,
    the object its [file_path] names is in the bucket, it belongs to the
    user the token resolved to, it carries the file's size and type, and
    its text has at least 50 characters after trimming. *)
Theorem upload_row_invariant (req : Request) (env : Env) (w : World) :
  let w' := (handler req env w).2 in
  table w' = table w \/
  exists (row : DocumentRecord) (u : User) (f : File),
    table w' = table w ++ [row] /\
    file_path row ∈ bucket w' /\
    authResult env = Returns {| user := Some u; authError := None |} /\
    user_id row = uid u /\
    file req = Some f /\ file_size row = size f /\ file_type row = mimetype f /\
    (50 <= len (trim (doc_content row)))%Z.
Proof.
  destruct (extractTextFromFile_long
              (default Samples.reportPdf (file req)) (extractorRuns env) (date env))
    as (text & Htext & Hlen).
  intros w'. subst w'.
  upload_cases req f Htext; try (by left).
  right.
  match goal with Ha : authResult _ = Returns ?a |- _ => destruct a as [au ae] end.
  simpl in *. subst.
  eexists _, _, _. repeat split; try reflexivity; simpl; try done; set_solver.
Qed.

(** X11.  Nothing is stored for a caller who is not authenticated,
    admitted by the limiter and approved: either bucket and table are as
    before, or the request carried a bearer token that resolved to a user,
    the limiter admitted the call and the profile is approved. *)
Theorem upload_stores_only_when_authorized (req : Request) (env : Env) (w : World) :
  let w' := (handler req env w).2 in
  (bucket w' = bucket w /\ table w' = table w) \/
  exists (u : User) (profile : Profile),
    bearer (authorization req) = true /\
    authResult env = Returns {| user := Some u; authError := None |} /\
    (RateLimiter.isAllowed (rateLimitKey u) RateLimiter.UPLOAD_maxRequests
       RateLimiter.UPLOAD_windowMs (now env) (limiter w)).1 = true /\
    profileResult env = Returns (Some profile) /\
    profile_status profile = "approved".
Proof.
  destruct (extractTextFromFile_returns
              (default Samples.reportPdf (file req)) (extractorRuns env) (date env))
    as [text Htext].
  intros w'. subst w'.
  upload_cases req f Htext; try (by left).
  all: right.
  all: match goal with Ha : authResult _ = Returns ?a |- _ => destruct a as [au ae] end.
  all: simpl in *; subst.
  all: repeat match goal with
       | H : negb _ = false |- _ => apply negb_false_iff in H
       | H : approved (Some _) = true |- _ => apply String.eqb_eq in H
       | H : approved None = true |- _ => discriminate H
       end.
  all: match goal with Hp : profileResult _ = Returns ?p |- _ =>
         destruct p as [p|]; [|discriminate] end.
  all: repeat match goal with
       | H : approved (Some _) = true |- _ => apply String.eqb_eq in H
       end.
  all: eexists _, _; repeat split; eauto.
  all: match goal with H : RateLimiter.isAllowed _ _ _ _ _ = _ |- _ => by rewrite H end.
Qed.

(** X12.  Only authenticated requests reach the limiter: either the
    limiter's map is as before, or the token resolved to a user and the
    map is what [isAllowed] leaves for that user's [upload:] key. *)
Theorem upload_limiter_after_authentication (req : Request) (env : Env) (w : World) :
  let w' := (handler req env w).2 in
  limiter w' = limiter w \/
  exists u : User,
    bearer (authorization req) = true /\
    authResult env = Returns {| user := Some u; authError := None |} /\
    limiter w' = (RateLimiter.isAllowed (rateLimitKey u) RateLimiter.UPLOAD_maxRequests
                    RateLimiter.UPLOAD_windowMs (now env) (limiter w)).2.
Proof.
  destruct (extractTextFromFile_returns
              (default Samples.reportPdf (file req)) (extractorRuns env) (date env))
    as [text Htext].
  intros w'. subst w'.
  upload_cases req f Htext; try (by left).
  all: right.
  all: match goal with Ha : authResult _ = Returns ?a |- _ => destruct a as [au ae] end.
  all: simpl in *; subst.
  all: repeat match goal with
       | H : negb _ = false |- _ => apply negb_false_iff in H
       end.
  all: eexists; repeat split; eauto.
  all: match goal with H : RateLimiter.isAllowed _ _ _ _ _ = _ |- _ => by rewrite H end.
Qed.

End UploadMore.

Section UploadScratch.
Import Js Server Extraction DocumentsRoute Events.

(** X13.  Past the file-and-title test the handler removes its own scratch
    file and touches no other: the scratch directory afterwards is the one
    before without [req.file.path]. *)
Theorem upload_removes_only_its_scratch (req : Request) (env : Env) (w : World)
    (f : File) (c : ascii) (t : string) :
  file req = Some f ->
  title (reqBody req) = Some (String c t) ->
  path f <> "" ->
  scratch (handler req env w).2 = scratch w ∖ {[path f]}.
Proof.
  intros Hfile Htitle Hpath.
  assert (Htruthy : truthy (path f) = true) by by apply truthy_nonempty.
  unfold handler, tryCatch, handlerBody. rewrite Hfile, Htitle.
  unfold handlerCatch. rewrite Hfile, Htruthy.
  run_upload; simpl; set_solver.
Qed.

(** X14.  A row only enters [documents] through the route for a file that
    [validateFile] let pass: its type is one of the configured types and
    its recorded size is within the maximum of that type, so never above
    50 MB. *)
Theorem upload_route_respects_limits (req : Request) (env : Env) (w : World) :
  let w' := (route req env w).2 in
  table w' = table w \/
  exists (row : DocumentRecord) (f : File),
    table w' = table w ++ [row] /\
    file req = Some f /\
    file_size row = size f /\ file_type row = mimetype f /\
    isAllowedFileType (file_type row) = true /\
    (file_size row <= getMaxFileSize (file_type row))%Z /\
    (file_size row <= 50 * 1024 * 1024)%Z.
Proof.
  intros w'. subst w'.
  assert (Hrows : forall req0 : Request,
             table (handler req0 env w).2 = table w \/
             exists (row : DocumentRecord) (f0 : File),
               table (handler req0 env w).2 = table w ++ [row] /\
               file req0 = Some f0 /\
               file_size row = size f0 /\ file_type row = mimetype f0).
  { intros req0.
    destruct (extractTextFromFile_returns
                (default Samples.reportPdf (file req0)) (extractorRuns env) (date env))
      as [text Htext].
    upload_cases req0 f0 Htext; try (by left).
    right. eexists _, _. repeat split; reflexivity. }
  unfold route, validateFile.
  destruct (file req) as [f|] eqn:Hfile.
  2:{ left. destruct (schemaResult env) as [b|]; [|done].
      unfold handler, tryCatch, handlerBody. simpl.
      by destruct (title b) as [[|]|]. }
  destruct (getMaxFileSize (mimetype f) <? size f)%Z eqn:Hsize; [left; reflexivity|].
  destruct (isAllowedFileType (mimetype f)) eqn:Htype; [|left; reflexivity]. simpl.
  destruct (schemaResult env) as [b|]; [|left; reflexivity].
  destruct (Hrows {| authorization := authorization req; file := Some f; reqBody := b |})
    as [H|(row & f' & Ht & Hf & Hs & Hm)]; [by left|right].
  simpl in Hf. injection Hf as <-.
  exists row, f. rewrite Hs, Hm, Htype. apply Z.ltb_ge in Hsize.
  repeat split; try done.
  revert Hsize. unfold getMaxFileSize, MAX_SIZE_PDF, MAX_SIZE_DOCUMENT, MAX_SIZE_IMAGE.
  repeat case_match; lia.
Qed.

(** X27.  Behind the router's upload filter and multer's 50 MB limit,
    [validateFile] can only refuse a file for one reason: it is a PDF of
    more than 10 MB.  Its [Invalid file type] exit is dead there. *)
Theorem filtered_file_refused_only_as_large_pdf (req : Request) (f : File) :
  file req = Some f ->
  DocumentsFilter.fileFilter (mimetype f) = true ->
  (size f <= MAX_SIZE_DOCUMENT)%Z ->
  validateFile req = None \/
  (mimetype f = "application/pdf" /\ (MAX_SIZE_PDF < size f)%Z /\
   validateFile req
   = Some {| status := 400; payload := ErrorBody "File size exceeds limit" |}).
Proof.
  intros Hfile Hfilter Hsize. unfold validateFile. rewrite Hfile.
  unfold DocumentsFilter.fileFilter, DocumentsFilter.allowedTypes, listIncludes in Hfilter.
  simpl in Hfilter. rewrite !orb_true_iff in Hfilter.
  unfold MAX_SIZE_DOCUMENT in Hsize.
  repeat destruct Hfilter as [Hfilter|Hfilter]; try done;
    apply String.eqb_eq in Hfilter; rewrite Hfilter;
    unfold getMaxFileSize, isAllowedFileType, listIncludes, MAX_SIZE_PDF, MAX_SIZE_DOCUMENT;
    simpl.
  - destruct (Z.ltb_spec (10 * 1024 * 1024) (size f)); [right|left]; done.
  - destruct (Z.ltb_spec (50 * 1024 * 1024) (size f)); [lia|by left].
  - destruct (Z.ltb_spec (50 * 1024 * 1024) (size f)); [lia|by left].
  - destruct (Z.ltb_spec (50 * 1024 * 1024) (size f)); [lia|by left].
Qed.

End UploadScratch.

Section ExtractMore.
Import Js Server Extraction ExtractRoute Events.

(** X15.  On every path the [/extract] handler sends exactly one response,
    after all its cleaning up. *)
Theorem extract_responds_once_and_last (file : option File) (env : Env) (w : World) :
  exists (before : list event) (r : Response),
    (handler file env w).1 = Returns tt /\
    log (handler file env w).2 = log w ++ before ++ [Sent r] /\
    Forall silent before.
Proof.
  destruct file as [f|].
  - destruct (extract_outcomes f env w) as (events & r0 & Hret & Hlog & Hlast & _).
    destruct (respondsLast_spec events Hlast) as (before & r & -> & Hs).
    by exists before, r.
  - exists [], {| status := 400; payload := ErrorMessage "No file uploaded"
                                              "Please upload a file to extract text from" |}.
    split; [reflexivity|]. split; [reflexivity|constructor].
Qed.

(** X16.  Once the storage has taken the upload under [key], the stored
    object is kept, and no removal asked for, when the answer is 200.  On
    every other exit (download failure, no service for the type, a service
    that throws) the handler asks the storage to remove [key], and the
    object is gone exactly when the storage answers that removal without
    an error. *)
Theorem extract_keeps_object_only_on_success (f : File) (env : Env) (w : World)
    (answer : UploadAnswer) (key : string) :
  path f ∈ scratch w ->
  uploadAnswer env = Returns answer ->
  upload_error answer = None ->
  upload_path answer = Some key ->
  let w' := (handler (Some f) env w).2 in
  exists (events : list event) (r : Response),
    log w' = log w ++ events /\
    last events = Some (Sent r) /\
    ((status r = 200%Z /\ ~ In (Removed key) events /\ key ∈ bucket w') \/
     (status r <> 200%Z /\ In (Removed key) events /\
      (key ∉ bucket w' <-> removeAnswer env = Returns None))).
Proof.
  intros Hscratch Hup Herror Hpath w'. subst w'.
  assert (Hkey : forall key', (path f ∈ scratch w /\
            exists answer', uploadAnswer env = Returns answer' /\
              upload_error answer' = None /\ upload_path answer' = Some key') ->
            key' = key).
  { intros key' (_ & answer' & Hup' & _ & Hpath'). congruence. }
  destruct (extract_outcomes f env w)
    as (events & r & _ & Hlog & _ & Hlast & _ & _ & Hcases).
  exists events, r. split; [exact Hlog|]. split; [exact Hlast|].
  destruct Hcases as [(Hstatus & key' & svc & result & Hstored & _ & _ & _ & Hbucket & Hkept)
                     |(Hstatus & [(_ & Hnever)|(key' & Hstored & Hasked & Hbucket)])].
  - rewrite (Hkey _ Hstored) in *. left. rewrite Hbucket.
    split; [exact Hstatus|]. split; [exact Hkept|set_solver].
  - exfalso. apply (Hnever key). split; [exact Hscratch|by exists answer].
  - rewrite (Hkey _ Hstored) in *. right.
    split; [destruct Hstatus as [(-> & _)|(-> & _)]; done|].
    split; [exact Hasked|]. rewrite Hbucket.
    destruct (removeAnswer env) as [[refusal|]|thrown]; split; intros H;
      first [done | set_solver].
Qed.

(** X17.  Behind the upload filter the [Unsupported file type] exit is
    dead: for a file whose type the filter lets through, the handler
    answers 200 or 500, never 400. *)
Theorem extract_filtered_never_unsupported (f : File) (env : Env) (w : World) :
  fileFilter (mimetype f) = true ->
  exists r : Response,
    last (log (handler (Some f) env w).2) = Some (Sent r) /\
    (status r = 200%Z \/ status r = 500%Z).
Proof.
  intros Hfilter.
  pose proof (fileFilter_types_have_service _ Hfilter) as Hsvc.
  destruct (extract_outcomes f env w)
    as (events & r & _ & Hlog & Hresp & Hlast & _ & _ & Hcases).
  exists r. split.
  - rewrite Hlog. destruct (respondsLast_spec events Hresp) as (before & r' & -> & _).
    rewrite last_snoc in Hlast. rewrite app_assoc, last_snoc. exact Hlast.
  - destruct Hcases as [(Hstatus & _)|([(_ & _ & Hnone)|(Hstatus & _)] & _)];
      [by left | by rewrite Hnone in Hsvc | by right].
Qed.

End ExtractMore.
Section ChatMore.
Import Js Server Chat.

Lemma excerptOf_length (c : string) : (len (excerptOf c) <= 303)%Z.
Proof.
  destruct (excerptOf_spec c) as [Hshort Hlong]. unfold len.
  destruct (le_lt_dec (String.length c) 300) as [H|H].
  - rewrite (Hshort H). lia.
  - destruct (Hlong H) as (-> & Hlen & _). rewrite length_append, Hlen. simpl. lia.
Qed.

Lemma matchesQuery_hasContent (query : string) (doc : Document) :
  matchesQuery query doc = true -> hasContent doc = true.
Proof.
  unfold matchesQuery, hasContent. destruct (content doc); [|done].
  by intros [? _]%andb_true_iff.
Qed.


Lemma attribution_sound (search : index) (userQuery : string) (ids : list string)
    (docs : list Document) (s : Source) :
  In s (attribution search userQuery ids docs) ->
  exists doc, hasContent doc = true /\
    documentId s = id doc /\ documentTitle s = title doc /\
    excerpt s = excerptOf (default "" (content doc)) /\
    ((exists found matched,
        search ids = Returns found /\ data found = Some matched /\
        In doc matched /\ matchesQuery userQuery doc = true /\
        similarity s = (8 # 10)%Q) \/
     (searchDocuments search userQuery ids 8 = Returns [] /\
      In doc docs /\ similarity s = (95 # 100)%Q) \/
     (exists thrown, search ids = Throws thrown /\
      In doc docs /\ similarity s = (9 # 10)%Q)).
Proof.
  unfold attribution.
  destruct (searchDocuments search userQuery ids 8) as [[|ch chs]|thrown] eqn:Hsearch.
  - unfold fallbackSources. intros (doc & <- & [Hin Hc]%filter_In)%in_map_iff.
    exists doc. repeat split; try done. right. left. done.
  - unfold searchDocuments in Hsearch.
    destruct (search ids) as [found|] eqn:Hfound; [|done].
    destruct (data found) as [matched|] eqn:Hdata; [|done].
    injection Hsearch as Hsearch. rewrite <- Hsearch.
    intros (chunk & <- & (doc & <- & Hin)%in_map_iff)%in_map_iff.
    assert (Hin' : In doc (List.filter (matchesQuery userQuery) matched)).
    { revert Hin. generalize (List.filter (matchesQuery userQuery) matched).
      intros l. rewrite <- (firstn_skipn 8 l) at 2. intros. apply in_or_app. by left. }
    apply filter_In in Hin' as [Hin' Hm].
    exists doc. split; [by eapply matchesQuery_hasContent|].
    repeat split; try done. left. by exists found, matched.
  - unfold searchDocuments in Hsearch.
    destruct (search ids) as [found|thrown'] eqn:Hfound.
    { by destruct (data found). }
    unfold fallbackSources. intros (doc & <- & [Hin Hc]%filter_In)%in_map_iff.
    exists doc. repeat split; try done. right. right. by exists thrown'.
Qed.

(** X18.  Every source the chat handler attributes comes from a document
    one of its two queries returned for the selected ids; [db] answers the
    handler's own query and [search] the one inside [searchDocuments].
    The source carries that document's id and title, the document has
    content, and the excerpt is the first 300 characters of it (with an
    ellipsis when cut), so at most 303 characters.  On the match path the
    document is one [search] returned, it contains the query, and the
    score is 0.8; when the search finds nothing the document is one [db]
    returned and the score is 0.95; when the search throws the document is
    one [db] returned and the score is 0.9. *)
Theorem sources_come_from_selected (db search : index) (userQuery : string)
    (documentIds : option (list string)) (s : Source) :
  In s (assembleContext db search userQuery documentIds).2 ->
  exists (ids : list string) (r : QueryResult) (docs : list Document) (doc : Document),
    documentIds = Some ids /\ db ids = Returns r /\ error r = None /\ data r = Some docs /\
    hasContent doc = true /\
    documentId s = id doc /\ documentTitle s = title doc /\
    excerpt s = excerptOf (default "" (content doc)) /\
    (len (excerpt s) <= 303)%Z /\
    ((exists found matched,
        search ids = Returns found /\ data found = Some matched /\
        In doc matched /\ matchesQuery userQuery doc = true /\
        similarity s = (8 # 10)%Q) \/
     (searchDocuments search userQuery ids 8 = Returns [] /\
      In doc docs /\ similarity s = (95 # 100)%Q) \/
     (exists thrown, search ids = Throws thrown /\
      In doc docs /\ similarity s = (9 # 10)%Q)).
Proof.
  unfold assembleContext.
  destruct (documentContext db search userQuery documentIds) as [context sources] eqn:Hctx.
  simpl. intros Hin. unfold documentContext in Hctx.
  destruct documentIds as [[|i ids]|]; try (by simplify_eq).
  destruct (db (i :: ids)) as [r|m] eqn:Hdb; [|by simplify_eq].
  destruct (error r) eqn:Herror; [by simplify_eq|].
  destruct (data r) as [[|d docs]|] eqn:Hdata; try (by simplify_eq).
  injection Hctx as _ <-.
  destruct (attribution_sound _ _ _ _ _ Hin) as (doc & H1 & H2 & H3 & H4 & H5).
  exists (i :: ids), r, (d :: docs), doc. repeat split; try done.
  rewrite H4. apply excerptOf_length.
Qed.

End ChatMore.
Section ChatHandler.
Import Js Server Chat ChatRoute.

(** X19.  The chat handler answers with a generated response only to a
    caller who sent a non-empty last message, is authenticated, admitted by
    the limiter under the [chat:] key and approved; the answer is then 200
    and carries the sources of [assembleContext] for that message, with the
    index's answers to the handler's query and to the search. *)
Theorem chat_answers_only_authorized (req : Request) (env : Env)
    (requests : RateLimiter.requests_map) (response : string) (sources : list Source) :
  payload (handler req env requests).1 = ChatReply response sources ->
  exists (u : User) (profile : Profile) (userQuery : string),
    userQueryOf (messages req) = Some userQuery /\ userQuery <> "" /\
    bearer (authorization req) = true /\
    authResult env = Returns {| user := Some u; authError := None |} /\
    (RateLimiter.isAllowed (rateLimitKey u) RateLimiter.CHAT_maxRequests
       RateLimiter.CHAT_windowMs (now env) requests).1 = true /\
    profileResult env = Returns (Some profile) /\
    profile_status profile = "approved" /\
    status (handler req env requests).1 = 200%Z /\
    sources = (assembleContext (db env) (search env) userQuery (documentIds req)).2.
Proof.
  unfold handler, handlerBody.
  destruct (userQueryOf (messages req)) as [[|c q]|] eqn:Hq; try done.
  destruct (bearer (authorization req)) eqn:Hb; [|done]. simpl.
  destruct (authResult env) as [[[u|] [e|]]|m] eqn:Hauth; simpl; try done.
  destruct (RateLimiter.isAllowed (rateLimitKey u) RateLimiter.CHAT_maxRequests
              RateLimiter.CHAT_windowMs (now env) requests) as [[|] requests1] eqn:Hallowed; simpl; [|done].
  destruct (profileResult env) as [[p|]|m] eqn:Hprofile; simpl; try done.
  destruct (String.eqb (profile_status p) "approved") eqn:Happroved; simpl; [|done].
  destruct (assembleContext _ _ _ _) as [context srcs] eqn:Hctx.
  destruct (generateChatResponse _ _) as [resp|m]; [|done]. simpl.
  intros [= <- <-]. exists u, p, (String c q).
  apply String.eqb_eq in Happroved. repeat split; try done.
  - by rewrite Hallowed.
  - by rewrite Hctx.
Qed.

(** X20.  Only authenticated chat requests reach the limiter: either the
    [requests] map is as before, or the token resolved to a user and the
    map is what [isAllowed] leaves for that user's [chat:] key.  In
    particular a request without a query and an unauthenticated one are
    not counted. *)
Theorem chat_limiter_after_authentication (req : Request) (env : Env)
    (requests : RateLimiter.requests_map) :
  (handler req env requests).2 = requests \/
  exists u : User,
    bearer (authorization req) = true /\
    authResult env = Returns {| user := Some u; authError := None |} /\
    (handler req env requests).2
    = (RateLimiter.isAllowed (rateLimitKey u) RateLimiter.CHAT_maxRequests
         RateLimiter.CHAT_windowMs (now env) requests).2.
Proof.
  unfold handler, handlerBody.
  destruct (userQueryOf (messages req)) as [[|c q]|] eqn:Hq; try (by left).
  destruct (bearer (authorization req)) eqn:Hb; [|by left]. simpl.
  destruct (authResult env) as [[[u|] [e|]]|m] eqn:Hauth; simpl; try (by left).
  right. exists u. split; [done|]. split; [done|].
  destruct (RateLimiter.isAllowed (rateLimitKey u) RateLimiter.CHAT_maxRequests
              RateLimiter.CHAT_windowMs (now env) requests) as [[|] requests1] eqn:Hallowed; simpl; [|done].
  destruct (profileResult env) as [[p|]|m] eqn:Hprofile; simpl; try done.
  destruct (String.eqb (profile_status p) "approved") eqn:Happroved; simpl; [|done].
  destruct (assembleContext _ _ _ _) as [context srcs] eqn:Hctx.
  by destruct (generateChatResponse _ _) as [resp|m].
Qed.

Lemma substring0_truthy (n : nat) (s : string) :
  truthy (substring0 (S n) s) = truthy s.
Proof. by destruct s. Qed.

(** X21.  The generated response depends on the context only through its
    first 500 characters: two contexts that agree on them give the same
    response. *)
Theorem response_uses_context_prefix (messages : list Message) (c1 c2 : string) :
  substring0 500 c1 = substring0 500 c2 ->
  generateChatResponse messages c1 = generateChatResponse messages c2.
Proof.
  intros H. unfold generateChatResponse.
  destruct (last messages) as [m|]; [|done].
  rewrite <- (substring0_truthy 499 c1), <- (substring0_truthy 499 c2), H.
  by destruct (truthy _).
Qed.

End ChatHandler.

Section AccessFacts.
Import Js Server DocumentsAccess.

(** X22.  [DELETE /:id] asks the storage or the table for something only
    on behalf of an authenticated, approved caller who owns the fetched
    document or is an admin, and all it ever asks is to remove that
    document's object and to delete the row with the requested id. *)
Theorem delete_requires_owner_or_admin (req : DeleteRequest) (env : DeleteEnv)
    (e : effect) :
  In e (deleteHandler req env).2 ->
  exists (u : User) (p : Profile) (doc : DocumentRecord),
    bearer (delete_authorization req) = true /\
    delete_authResult env = Returns {| user := Some u; authError := None |} /\
    delete_profileResult env = Returns (Some p) /\
    profile_status p = "approved" /\
    delete_documentResult env = Returns {| document := Some doc; fetchError := None |} /\
    (user_id doc = uid u \/ role p = "admin") /\
    (e = RemoveObject (file_path doc) \/ e = DeleteRow (delete_id req)).
Proof.
  unfold deleteHandler, caught, deleteBody.
  repeat (simpl in *; case_match; simplify_eq); simpl; try done.
  all: intros He.
  all: repeat match goal with
       | H : negb _ = false |- _ => apply negb_false_iff in H
       | H : String.eqb _ _ = true |- _ => apply String.eqb_eq in H
       | H : _ && _ = false |- _ => apply andb_false_iff in H
       | a : AuthResult |- _ => destruct a; simpl in *; subst
       | l : Lookup |- _ => destruct l; simpl in *; subst
       end.
  all: eexists _, _, _; repeat split; eauto.
  all: try (match goal with H : _ \/ _ |- _ \/ _ =>
              destruct H as [H|H]; apply negb_false_iff, String.eqb_eq in H; auto end).
  all: simpl in He; intuition.
Qed.

(** X23.  The deletion is not atomic and is carried out object first: the
    row deletion is only ever asked after the object removal, whatever
    the storage answered, and a [dbError] is answered 500 with the object
    removal already asked.  A 200 means both were asked. *)
Theorem delete_object_before_row (req : DeleteRequest) (env : DeleteEnv) :
  let '(response, effects) := deleteHandler req env in
  (effects = [] /\ status response <> 200%Z) \/
  exists doc : DocumentRecord,
    delete_documentResult env = Returns {| document := Some doc; fetchError := None |} /\
    ((effects = [RemoveObject (file_path doc)] /\
      (exists message, storageError env = Throws message) /\
      response = {| status := 500; payload := ErrorReply "Internal server error" |}) \/
     (effects = [RemoveObject (file_path doc); DeleteRow (delete_id req)] /\
      (exists answer, storageError env = Returns answer) /\
      match dbError env with
      | Returns None => response = {| status := 200; payload := DeletedReply |}
      | Returns (Some message) =>
          response = {| status := 500; payload := ErrorReply message |}
      | Throws _ =>
          response = {| status := 500; payload := ErrorReply "Internal server error" |}
      end)).
Proof.
  unfold deleteHandler, caught, deleteBody.
  repeat (simpl in *; case_match; simplify_eq); simpl;
    try (left; split; [reflexivity|discriminate]).
  all: right.
  all: repeat match goal with
       | l : Lookup |- _ => destruct l; simpl in *; subst
       end.
  all: eexists; split; [reflexivity|].
  all: first [ left; split; [reflexivity|]; split; [eauto|reflexivity]
             | right; split; [reflexivity|]; split; [eauto|reflexivity] ].
Qed.

(** X24.  [POST /url] asks for a signed URL only on behalf of an
    authenticated, approved caller who passes the access test for the
    fetched document (owner, company-wide document, or admin); the URL is
    asked for the requested path with one hour of validity. *)
Theorem url_requires_access (req : UrlRequest) (env : UrlEnv) (e : effect) :
  In e (urlHandler req env).2 ->
  exists (u : User) (p : Profile) (doc : DocumentRecord) (path : string),
    filePath req = Some path /\ path <> "" /\
    bearer (url_authorization req) = true /\
    url_authResult env = Returns {| user := Some u; authError := None |} /\
    url_profileResult env = Returns (Some p) /\
    profile_status p = "approved" /\
    url_documentResult env = Returns {| document := Some doc; fetchError := None |} /\
    hasAccess u p doc = true /\
    e = SignUrl path 3600.
Proof.
  unfold urlHandler, caught, urlBody.
  repeat (simpl in *; case_match; simplify_eq); simpl; try done.
  all: intros He.
  all: repeat match goal with
       | H : negb _ = false |- _ => apply negb_false_iff in H
       | H : String.eqb _ _ = true |- _ => apply String.eqb_eq in H
       | a : AuthResult |- _ => destruct a; simpl in *; subst
       | l : Lookup |- _ => destruct l; simpl in *; subst
       end.
  all: eexists _, _, _, _; repeat split; eauto.
  all: simpl in He; intuition.
Qed.

(** A row selected by a query that does not name a [userId] passes the
    access test of [POST /url] for the caller the query was built for. *)
Lemma selects_hasAccess (q : query) (u : User) (p : Profile) (doc : DocumentRecord) :
  (forall other, q <> OfUser other) ->
  (q = Everything -> role p = "admin") ->
  (forall other, q = OwnOrCompanyWide other -> other = uid u) ->
  selects q doc = true -> hasAccess u p doc = true.
Proof.
  intros Hq Hall Hown. unfold hasAccess. destruct q as [|other|other|]; simpl.
  - intros ->. by rewrite orb_true_r.
  - by destruct (Hq other).
  - rewrite (Hown other eq_refl). intros ->. done.
  - intros _. rewrite (Hall eq_refl). by rewrite orb_true_r.
Qed.

(** X25.  Listing without a [userId] parameter shows a caller only what
    [POST /url] would also give them: if the database answers each query
    with rows the query selects, every document in a 200 answer is the
    caller's own, company-wide, or the caller is an admin. *)
Theorem list_without_userId_shows_accessible (req : ListRequest) (env : ListEnv)
    (docs : list DocumentRecord) :
  (forall q r rows, database env q = Returns r -> data r = Some rows ->
                    Forall (fun doc => selects q doc = true) rows) ->
  (userId req = None \/ userId req = Some "" \/ companyWideOnly req = Some "true") ->
  payload (listHandler req env) = DocumentsReply docs ->
  exists (u : User) (p : Profile),
    list_authResult env = Returns {| user := Some u; authError := None |} /\
    list_profileResult env = Returns (Some p) /\
    profile_status p = "approved" /\
    Forall (fun doc => hasAccess u p doc = true) docs.
Proof.
  intros Hdb Hreq. unfold listHandler, listBody.
  destruct (bearer (list_authorization req)); [|done]. simpl.
  destruct (list_authResult env) as [[[u|] [e|]]|m] eqn:Hauth; simpl; try done.
  destruct (list_profileResult env) as [[p|]|m] eqn:Hprofile; simpl; try done.
  destruct (String.eqb (profile_status p) "approved") eqn:Happroved; simpl; [|done].
  destruct (database env (queryFor req u p)) as [r|m] eqn:Hquery; simpl; [|done].
  destruct (error r); simpl; [done|]. intros [= <-].
  exists u, p. apply String.eqb_eq in Happroved. repeat split; try done.
  destruct (data r) as [rows|] eqn:Hdata; [|by constructor]. simpl.
  eapply Forall_impl; [by eapply Hdb|]. simpl. intros doc.
  apply selects_hasAccess; unfold queryFor.
  - intros other. destruct Hreq as [-> | [-> | ->]]; simpl; repeat case_match; done.
  - destruct Hreq as [-> | [-> | ->]]; simpl; repeat case_match; try done;
      intros _; apply String.eqb_eq; by apply negb_false_iff.
  - intros other. destruct Hreq as [-> | [-> | ->]]; simpl; repeat case_match; try done;
      by intros [= <-].
Qed.

(** X26.  With a [userId] parameter the listing does not look at who
    asks: two approved callers, whoever they are and whatever their
    roles, get the same answer for the same parameters. *)
Theorem list_by_userId_ignores_caller (req : ListRequest) (env env' : ListEnv)
    (u u' : User) (p p' : Profile) (c : ascii) (other : string) :
  userId req = Some (String c other) ->
  list_authResult env = Returns {| user := Some u; authError := None |} ->
  list_authResult env' = Returns {| user := Some u'; authError := None |} ->
  list_profileResult env = Returns (Some p) ->
  list_profileResult env' = Returns (Some p') ->
  profile_status p = "approved" -> profile_status p' = "approved" ->
  database env = database env' ->
  listHandler req env = listHandler req env'.
Proof.
  intros Hreq Hu Hu' Hp Hp' Hs Hs' Hdb.
  unfold listHandler, listBody, queryFor.
  rewrite Hu, Hu', Hp, Hp', Hs, Hs', Hreq, Hdb. simpl.
  by destruct (isTrueParam (companyWideOnly req)).
Qed.

End AccessFacts.

Section FilenameFacts.
Import Js Validation.

Lemma allChars_append (test : ascii -> bool) (a b : string) :
  allChars test (a +:+ b) = allChars test a && allChars test b.
Proof.
  induction a as [|c a IH]; [done|]. rewrite append_cons. simpl.
  by rewrite IH, andb_assoc.
Qed.

Lemma allChars_piece (test : ascii -> bool) (pre s post : string) :
  allChars test (pre +:+ s +:+ post) = true -> allChars test s = true.
Proof.
  rewrite !allChars_append, !andb_true_iff. tauto.
Qed.

Lemma replaceUnsafe_kept (s : string) : allChars isKeptChar (replaceUnsafe s) = true.
Proof.
  induction s as [|c s IH]; [done|]. simpl. rewrite IH, andb_true_r.
  unfold isKeptChar. destruct (isSafeChar c) eqn:Hc; [by rewrite Hc|done].
Qed.

Lemma collapse_piece (s : string) :
  allChars isKeptChar s = true -> allChars isKeptChar (collapseUnderscores s) = true.
Proof.
  induction s as [|c s IH]; [done|]. simpl. intros [Hc Hs]%andb_true_iff.
  destruct (Ascii.eqb c underscore && startsWith s "_"); [by apply IH|].
  simpl. by rewrite Hc, IH.
Qed.

Lemma dropLeading_suffix (s : string) :
  exists pre, s = pre +:+ dropLeadingUnderscores s.
Proof.
  induction s as [|c s [pre IH]]; [by exists ""|]. simpl.
  destruct (Ascii.eqb c underscore); [|by exists ""].
  exists (String c pre). rewrite append_cons. by f_equal.
Qed.

Lemma dropTrailing_prefix (s : string) :
  exists post, s = dropTrailingUnderscores s +:+ post.
Proof.
  induction s as [|c s [post IH]]; [by exists ""|]. simpl.
  destruct (dropTrailingUnderscores s) as [|d kept'] eqn:Hd.
  - destruct (Ascii.eqb c underscore).
    + by exists (String c s).
    + exists s. done.
  - exists post. rewrite append_cons. by f_equal.
Qed.

Lemma startsWith_one (d : ascii) (s : string) :
  startsWith (String d s) "_" = Ascii.eqb d underscore.
Proof.
  change (startsWith (String d s) "_")
    with (if Ascii.eqb "_" d then startsWith s "" else false).
  unfold underscore. rewrite (Ascii.eqb_sym "_" d). by destruct (Ascii.eqb d "_"), s.
Qed.

Lemma collapse_head (s : string) :
  startsWith (collapseUnderscores s) "_" = startsWith s "_".
Proof.
  induction s as [|c s IH]; [done|]. rewrite startsWith_one.
  change (startsWith
            (if Ascii.eqb c underscore && startsWith s "_" then collapseUnderscores s
             else String c (collapseUnderscores s)) "_" = Ascii.eqb c underscore).
  destruct (Ascii.eqb c underscore) eqn:Hc; cbn [andb]; cbv iota.
  - destruct (startsWith s "_") eqn:Hs; [by rewrite IH|]. by rewrite startsWith_one.
  - by rewrite startsWith_one.
Qed.

Lemma startsWith_two (d : ascii) (s : string) :
  startsWith (String d s) "__" = Ascii.eqb d underscore && startsWith s "_".
Proof.
  change (startsWith (String d s) "__")
    with (if Ascii.eqb "_" d then startsWith s "_" else false).
  unfold underscore. rewrite (Ascii.eqb_sym "_" d). by destruct (Ascii.eqb d "_").
Qed.

Lemma includes_cons (c : ascii) (s sub : string) :
  includes (String c s) sub = startsWith (String c s) sub || includes s sub.
Proof. reflexivity. Qed.

Lemma collapse_no_double (s : string) : includes (collapseUnderscores s) "__" = false.
Proof.
  induction s as [|c s IH]; [done|].
  change (includes
            (if Ascii.eqb c underscore && startsWith s "_" then collapseUnderscores s
             else String c (collapseUnderscores s)) "__" = false).
  destruct (Ascii.eqb c underscore) eqn:Hc; cbn [andb]; cbv iota.
  - destruct (startsWith s "_") eqn:Hs; [done|].
    by rewrite includes_cons, IH, startsWith_two, collapse_head, Hs, andb_false_r.
  - by rewrite includes_cons, IH, startsWith_two, Hc.
Qed.

Lemma includes_piece (sub pre s post : string) :
  includes (pre +:+ s +:+ post) sub = false -> includes s sub = false.
Proof.
  intros H. destruct (includes s sub) eqn:Hs; [|done].
  apply includes_spec in Hs as (a & b & ->).
  assert (Hin : includes (pre +:+ (a +:+ sub +:+ b) +:+ post) sub = true).
  { apply includes_spec. exists (pre +:+ a), (b +:+ post).
    by rewrite !append_assoc. }
  congruence.
Qed.

Lemma dropLeading_head (s : string) :
  startsWith (dropLeadingUnderscores s) "_" = false.
Proof.
  induction s as [|c s IH]; [done|].
  change (startsWith (if Ascii.eqb c underscore then dropLeadingUnderscores s
                      else String c s) "_" = false).
  destruct (Ascii.eqb c underscore) eqn:Hc; [done|]. by rewrite startsWith_one.
Qed.

Lemma prefix_head (s rest : string) :
  startsWith (s +:+ rest) "_" = false -> startsWith s "_" = false.
Proof.
  destruct s as [|c s]; [done|]. by rewrite append_cons, !startsWith_one.
Qed.

Lemma substring0_at_most (n : nat) (s : string) :
  (String.length (substring0 n s) <= n)%nat.
Proof.
  destruct (le_lt_dec n (String.length s)) as [H|H].
  - by rewrite substring0_length.
  - rewrite substring0_short; lia.
Qed.

(** X28.  Whatever the name, [sanitizeFilename] returns at most 255
    characters, each of them a letter, a digit, a dot, a hyphen or an
    underscore; the result does not begin with an underscore and holds no
    two underscores in a row.  In particular no path separator survives. *)
Theorem sanitizeFilename_safe (filename : string) :
  let result := sanitizeFilename filename in
  (len result <= 255)%Z /\
  allChars isKeptChar result = true /\
  startsWith result "_" = false /\
  includes result "__" = false /\
  includes result "/" = false.
Proof.
  intros result. subst result. unfold sanitizeFilename.
  set (replaced := replaceUnsafe filename).
  set (collapsed := collapseUnderscores replaced).
  destruct (dropLeading_suffix collapsed) as [pre Hpre].
  set (led := dropLeadingUnderscores collapsed) in *.
  destruct (dropTrailing_prefix led) as [post Hpost].
  set (trimmed := dropTrailingUnderscores led) in *.
  destruct (substring0_prefix 255 trimmed) as [cut Hcut].
  set (result := substring0 255 trimmed) in *.
  assert (Hwhole : collapsed = pre +:+ result +:+ (cut +:+ post)).
  { rewrite Hpre, Hpost, Hcut. by rewrite !append_assoc. }
  assert (Hkept : allChars isKeptChar result = true).
  { eapply allChars_piece. rewrite <- Hwhole. apply collapse_piece, replaceUnsafe_kept. }
  split; [|split; [|split; [|split]]].
  - unfold len. pose proof (substring0_at_most 255 trimmed). fold result in H. lia.
  - exact Hkept.
  - eapply prefix_head with (rest := cut +:+ post).
    rewrite <- append_assoc, <- Hcut, <- Hpost. apply dropLeading_head.
  - eapply includes_piece. rewrite <- Hwhole. apply collapse_no_double.
  - clear -Hkept. induction result as [|c r IH]; [done|].
    simpl in Hkept. apply andb_true_iff in Hkept as [Hc Hr].
    rewrite includes_cons, (IH Hr), orb_false_r.
    change (startsWith (String c r) "/")
      with (if Ascii.eqb "/" c then startsWith r "" else false).
    destruct (Ascii.eqb_spec "/" c) as [<-|]; [by vm_compute in Hc|done].
Qed.

End FilenameFacts.

Section UploadAtomic.
Import Js Server Extraction DocumentsRoute Events.

(** X29.  The upload is all or nothing as long as the insert and the
    removal that undoes the upload do their work: the handler answers 200
    exactly when it has appended a row whose object is in the bucket, and
    on any other answer the table is as before and the bucket holds
    nothing it did not hold before.  There are three exceptions, each
    answered 500 with the table as before and the stored object left in
    the bucket: the insert call throws (the [catch] clause asks for no
    removal); the insert answers with an error and the removal answers
    with an error, which the handler does not look at; the insert answers
    with an error and the removal throws. *)
Theorem upload_all_or_nothing (req : Request) (env : Env) (w : World) :
  let w' := (handler req env w).2 in
  exists r : Response,
    last (log w') = Some (Sent r) /\
    ((status r = 200%Z /\
      exists row, table w' = table w ++ [row] /\ file_path row ∈ bucket w') \/
     (status r <> 200%Z /\ table w' = table w /\
      (bucket w' ⊆ bucket w \/
       exists u : User,
         authResult env = Returns {| user := Some u; authError := None |} /\
         bucket w' = bucket w ∪ {[ uid u +:+ "/" +:+ storageName env ]} /\
         ((exists thrown,
             insertResult env = Throws thrown /\
             r = {| status := 500;
                    payload := ErrorMessage "Internal server error" thrown |}) \/
          (exists message refusal,
             insertResult env = Returns (inr message) /\
             removeResult env = Returns (Some refusal) /\
             r = {| status := 500; payload := ErrorBody message |}) \/
          (exists message thrown,
             insertResult env = Returns (inr message) /\
             removeResult env = Throws thrown /\
             r = {| status := 500;
                    payload := ErrorMessage "Internal server error" thrown |}))))).
Proof.
  destruct (extractTextFromFile_returns
              (default Samples.reportPdf (file req)) (extractorRuns env) (date env))
    as [text Htext].
  intros w'. subst w'.
  upload_cases req f Htext.
  all: simpl.
  all: eexists; (split; [apply last_snoc|]); simpl.
  all: first [ right; split; [done|]; split; [done|]; left; set_solver
             | left; split; [done|]; eexists; split; [reflexivity|]; simpl; set_solver
             | right; split; [done|]; split; [done|]; right ].
  all: match goal with Ha : authResult _ = Returns ?a |- _ => destruct a as [au ae] end.
  all: simpl in *; subst.
  all: eexists; split; [reflexivity|]; split; [reflexivity|].
  all: first [ left; eexists; split; [solve [eauto]|reflexivity]
             | right; left; eexists _, _; split; [solve [eauto]|];
               split; [solve [eauto]|reflexivity]
             | right; right; eexists _, _; split; [solve [eauto]|];
               split; [solve [eauto]|reflexivity] ].
Qed.

End UploadAtomic.
Section AttachmentWords.
Import Js Chat.

Lemma occursIn_inner (pre sub post s : string) :
  occursIn (pre +:+ sub +:+ post) s -> occursIn sub s.
Proof.
  intros (a & b & ->). exists (a +:+ pre), (post +:+ b). by rewrite !append_assoc.
Qed.

(** X30.  [mentionsAttachment] is a case-insensitive substring test for
    five words: a query mentions an attachment exactly when its lower-case
    form contains [attachment], [file], [pdf], [doc] or [uploaded]
    anywhere, also inside another word ([document] adds nothing to [doc]). *)
Theorem mentionsAttachment_words (query : string) :
  mentionsAttachment query = true <->
  exists keyword,
    In keyword ["attachment"; "file"; "pdf"; "doc"; "uploaded"] /\
    occursIn keyword (toLowerCase query).
Proof.
  unfold mentionsAttachment, attachmentKeywords. rewrite existsb_exists. split.
  - intros (keyword & Hin & Hocc). apply includes_spec in Hocc.
    simpl in Hin. destruct Hin as [<-|[<-|[<-|[<-|[<-|[<-|[]]]]]]].
    + exists "attachment". split; [simpl; tauto|done].
    + exists "doc". split; [simpl; tauto|].
      by apply (occursIn_inner "" "doc" "ument").
    + exists "file". split; [simpl; tauto|done].
    + exists "pdf". split; [simpl; tauto|done].
    + exists "doc". split; [simpl; tauto|done].
    + exists "uploaded". split; [simpl; tauto|done].
  - intros (keyword & Hin & Hocc). exists keyword. split.
    + simpl in *. tauto.
    + by apply includes_spec.
Qed.

End AttachmentWords.

(** ** The further properties at the sample inputs *)

(** The failed insert of the sample upload leaves the scratch directory
    empty. *)
Lemma upload_removes_only_its_scratch_witness :
  Server.scratch (DocumentsRoute.handler uploadRequest insertFails (afterMulter reportPdf)).2
  = Server.scratch (afterMulter reportPdf) ∖ {[ Extraction.path reportPdf ]}.
Proof.
  apply (upload_removes_only_its_scratch uploadRequest insertFails (afterMulter reportPdf)
           reportPdf "Q" "3 report"); [reflexivity | reflexivity | discriminate].
Defined.

(** The sample report passes; an eleven-megabyte PDF passes the filter
    and multer's limit and is refused by [validateFile]. *)
Lemma filtered_file_refused_only_as_large_pdf_witness :
  DocumentsRoute.validateFile uploadRequest = None /\
  DocumentsRoute.validateFile largeUploadRequest
  = Some {| Server.status := 400;
            Server.payload := Server.ErrorBody "File size exceeds limit" |}.
Proof.
  split.
  - destruct (filtered_file_refused_only_as_large_pdf uploadRequest reportPdf
                eq_refl eq_refl ltac:(vm_compute; discriminate))
      as [Hpasses|(_ & Hlarge & _)]; [exact Hpasses|].
    vm_compute in Hlarge. discriminate.
  - destruct (filtered_file_refused_only_as_large_pdf largeUploadRequest largePdf
                eq_refl eq_refl ltac:(vm_compute; discriminate))
      as [Hpasses|(_ & _ & Hrefused)]; [|exact Hrefused].
    vm_compute in Hpasses. discriminate.
Defined.

(** The sample PDF is stored and downloaded.  When the service answers,
    the object is kept; when the service throws, the object goes if the
    storage removes it and stays if the storage refuses. *)
Lemma extract_keeps_object_only_on_success_witness :
  let after env := (ExtractRoute.handler (Some reportPdf) env (afterMulter reportPdf)).2 in
  "1700000000200-77.pdf" ∈ Server.bucket (after extractEnv) /\
  "1700000000200-77.pdf" ∉ Server.bucket (after serviceThrows) /\
  "1700000000200-77.pdf" ∈ Server.bucket (after serviceThrowsRemoveRefused).
Proof.
  intros after.
  assert (Hin : Extraction.path reportPdf ∈ Server.scratch (afterMulter reportPdf))
    by (simpl; set_solver).
  split; [|split].
  - destruct (extract_keeps_object_only_on_success reportPdf extractEnv
                (afterMulter reportPdf) _ "1700000000200-77.pdf" Hin eq_refl eq_refl eq_refl)
      as (events & r & Hlog & Hlast & [(_ & _ & Hkept)|(Hstatus & _)]); [exact Hkept|].
    exfalso. apply Hstatus. simpl in Hlog. subst events.
    by injection Hlast as <-.
  - destruct (extract_keeps_object_only_on_success reportPdf serviceThrows
                (afterMulter reportPdf) _ "1700000000200-77.pdf" Hin eq_refl eq_refl eq_refl)
      as (events & r & Hlog & Hlast & [(Hstatus & _)|(_ & _ & Hgone)]).
    + exfalso. simpl in Hlog. subst events. by injection Hlast as <-.
    + apply Hgone. reflexivity.
  - destruct (extract_keeps_object_only_on_success reportPdf serviceThrowsRemoveRefused
                (afterMulter reportPdf) _ "1700000000200-77.pdf" Hin eq_refl eq_refl eq_refl)
      as (events & r & Hlog & Hlast & [(Hstatus & _)|(_ & _ & Hgone)]).
    + exfalso. simpl in Hlog. subst events. by injection Hlast as <-.
    + destruct (decide ("1700000000200-77.pdf"
                          ∈ Server.bucket (after serviceThrowsRemoveRefused)))
        as [Hstays|Hleft]; [exact Hstays|].
      apply Hgone in Hleft. discriminate.
Defined.

(** The sample scan passes the filter. *)
Lemma extract_filtered_never_unsupported_witness :
  exists r : Server.Response,
    last (Server.log (ExtractRoute.handler (Some scanPng) extractEnv (afterMulter scanPng)).2)
    = Some (Server.Sent r) /\
    (Server.status r = 200%Z \/ Server.status r = 500%Z).
Proof.
  apply (extract_filtered_never_unsupported scanPng extractEnv (afterMulter scanPng)).
  reflexivity.
Defined.

(** The search throws: the one source of the sample chat is the document
    the handler's own query returned, scored 0.9. *)
Lemma sources_come_from_selected_witness :
  let s := {| Chat.documentId := "d1"; Chat.documentTitle := "Q3";
              Chat.similarity := (9 # 10)%Q;
              Chat.excerpt := "Quarterly revenue grew by twelve percent." |} in
  (Chat.assembleContext (indexOf [revenueDoc]) failingIndex attachmentQuery (Some ["d1"])).2
  = [s] /\
  exists (ids : list string) (r : Chat.QueryResult) (docs : list Chat.Document)
         (doc : Chat.Document),
    Some ["d1"] = Some ids /\ indexOf [revenueDoc] ids = Returns r /\
    Chat.error r = None /\ Chat.data r = Some docs /\
    Chat.hasContent doc = true /\
    Chat.documentId s = Chat.id doc /\
    Chat.documentTitle s = Chat.title doc /\
    Chat.excerpt s = Chat.excerptOf (default "" (Chat.content doc)) /\
    (Js.len (Chat.excerpt s) <= 303)%Z /\
    ((exists found matched,
        failingIndex ids = Returns found /\ Chat.data found = Some matched /\
        In doc matched /\ Chat.matchesQuery attachmentQuery doc = true /\
        Chat.similarity s = (8 # 10)%Q) \/
     (Chat.searchDocuments failingIndex attachmentQuery ids 8 = Returns [] /\
      In doc docs /\ Chat.similarity s = (95 # 100)%Q) \/
     (exists thrown, failingIndex ids = Throws thrown /\
      In doc docs /\ Chat.similarity s = (9 # 10)%Q)).
Proof.
  intros s. split; [reflexivity|].
  apply (sources_come_from_selected (indexOf [revenueDoc]) failingIndex attachmentQuery
           (Some ["d1"]) s).
  vm_compute. by left.
Defined.

Lemma chat_answers_only_authorized_witness :
  exists (u : Server.User) (profile : Server.Profile) (userQuery : string),
    ChatRoute.userQueryOf (ChatRoute.messages chatRequest) = Some userQuery /\
    userQuery <> "" /\
    Server.bearer (ChatRoute.authorization chatRequest) = true /\
    ChatRoute.authResult chatEnv
    = Returns {| Server.user := Some u; Server.authError := None |} /\
    (RateLimiter.isAllowed (ChatRoute.rateLimitKey u) RateLimiter.CHAT_maxRequests
       RateLimiter.CHAT_windowMs (ChatRoute.now chatEnv) RateLimiter.initial).1 = true /\
    ChatRoute.profileResult chatEnv = Returns (Some profile) /\
    Server.profile_status profile = "approved" /\
    ChatRoute.status (ChatRoute.handler chatRequest chatEnv RateLimiter.initial).1 = 200%Z /\
    [ {| Chat.documentId := "d1"; Chat.documentTitle := "Q3";
         Chat.similarity := (95 # 100)%Q;
         Chat.excerpt := "Quarterly revenue grew by twelve percent." |} ]
    = (Chat.assembleContext (ChatRoute.db chatEnv) (ChatRoute.search chatEnv) userQuery
         (ChatRoute.documentIds chatRequest)).2.
Proof.
  apply (chat_answers_only_authorized chatRequest chatEnv RateLimiter.initial
           (match ChatRoute.payload (ChatRoute.handler chatRequest chatEnv RateLimiter.initial).1
            with ChatRoute.ChatReply response _ => response | _ => "" end)).
  reflexivity.
Defined.

(** Two contexts that differ after the 500th character. *)
Lemma response_uses_context_prefix_witness :
  ChatRoute.generateChatResponse (ChatRoute.messages chatRequest)
    (Js.join "" (repeat fiftyChars 10) +:+ "first tail")
  = ChatRoute.generateChatResponse (ChatRoute.messages chatRequest)
      (Js.join "" (repeat fiftyChars 10) +:+ "another tail").
Proof.
  apply (response_uses_context_prefix (ChatRoute.messages chatRequest)). reflexivity.
Defined.

(** Alice deletes her own report. *)
Lemma delete_requires_owner_or_admin_witness :
  exists (u : Server.User) (p : Server.Profile) (doc : Server.DocumentRecord),
    Server.bearer (DocumentsAccess.delete_authorization deleteRequest) = true /\
    DocumentsAccess.delete_authResult deleteEnv
    = Returns {| Server.user := Some u; Server.authError := None |} /\
    DocumentsAccess.delete_profileResult deleteEnv = Returns (Some p) /\
    Server.profile_status p = "approved" /\
    DocumentsAccess.delete_documentResult deleteEnv
    = Returns {| DocumentsAccess.document := Some doc; DocumentsAccess.fetchError := None |} /\
    (Server.user_id doc = Server.uid u \/ Server.role p = "admin") /\
    (DocumentsAccess.DeleteRow "doc-1" = DocumentsAccess.RemoveObject (Server.file_path doc) \/
     DocumentsAccess.DeleteRow "doc-1"
     = DocumentsAccess.DeleteRow (DocumentsAccess.delete_id deleteRequest)).
Proof.
  apply (delete_requires_owner_or_admin deleteRequest deleteEnv
           (DocumentsAccess.DeleteRow "doc-1")).
  vm_compute. right. by left.
Defined.

(** Alice, who does not own the handbook, gets its URL because it is
    company-wide. *)
Lemma url_requires_access_witness :
  exists (u : Server.User) (p : Server.Profile) (doc : Server.DocumentRecord)
         (path : string),
    DocumentsAccess.filePath urlRequest = Some path /\ path <> "" /\
    Server.bearer (DocumentsAccess.url_authorization urlRequest) = true /\
    DocumentsAccess.url_authResult urlEnv
    = Returns {| Server.user := Some u; Server.authError := None |} /\
    DocumentsAccess.url_profileResult urlEnv = Returns (Some p) /\
    Server.profile_status p = "approved" /\
    DocumentsAccess.url_documentResult urlEnv
    = Returns {| DocumentsAccess.document := Some doc; DocumentsAccess.fetchError := None |} /\
    DocumentsAccess.hasAccess u p doc = true /\
    DocumentsAccess.SignUrl "u2/1700000000400-d4e5f.pdf" 3600
    = DocumentsAccess.SignUrl path 3600.
Proof.
  apply (url_requires_access urlRequest urlEnv
           (DocumentsAccess.SignUrl "u2/1700000000400-d4e5f.pdf" 3600)).
  vm_compute. by left.
Defined.

(** Alice's plain listing holds her report and the handbook, not Bob's
    notes. *)
Lemma list_without_userId_shows_accessible_witness :
  exists (u : Server.User) (p : Server.Profile),
    DocumentsAccess.list_authResult (listEnv alice)
    = Returns {| Server.user := Some u; Server.authError := None |} /\
    DocumentsAccess.list_profileResult (listEnv alice) = Returns (Some p) /\
    Server.profile_status p = "approved" /\
    Forall (fun doc => DocumentsAccess.hasAccess u p doc = true) [aliceReport; handbook].
Proof.
  apply (list_without_userId_shows_accessible (listRequest None) (listEnv alice)
           [aliceReport; handbook]).
  - intros q r rows [= <-] [= <-].
    destruct (DocumentsAccess.selects q aliceReport) eqn:?,
             (DocumentsAccess.selects q bobNotes) eqn:?,
             (DocumentsAccess.selects q handbook) eqn:?; repeat constructor; done.
  - by left.
  - reflexivity.
Defined.

(** Alice and Bob both get Bob's notes when they name him. *)
Lemma list_by_userId_ignores_caller_witness :
  DocumentsAccess.listHandler (listRequest (Some "u2")) (listEnv alice)
  = DocumentsAccess.listHandler (listRequest (Some "u2")) (listEnv bob).
Proof.
  apply (list_by_userId_ignores_caller (listRequest (Some "u2")) (listEnv alice) (listEnv bob)
           alice bob approvedProfile approvedProfile "u" "2"); reflexivity.
Defined.

